(** * Fleet fuel accounting: distance reconstruction and aggregation

    A shallow embedding of the SQLite data layer ([hesapla_gercek_km],
    [get_yakit_data], [get_muhasebe_data], [get_arac_performans_analizi]
    and their helpers, from the "database copy.py" part of
    [app_working_backup_20251202.py]) and of the comparison endpoint
    [api_performans_karsilastir] of [app.py].  The module [database] that
    [app.py] imports is not among the sources: its distance function is
    modelled from the specification ([Eksik]), its client of the remote
    store is a parameter.

    Conventions.
    - Python floats and SQLite REAL values are idealised as rationals [Q];
      equalities between computed amounts are stated with [==].
    - A table is the list of its rows in insertion order.  A nullable
      column is an [option]; SQL's NULL is [None].
    - A WHERE clause keeps the rows on which its condition is TRUE, so a
      comparison with NULL drops the row.
    - The database is passed as an argument, and the writers of the
      vehicle table return it as they leave it.  Opening and closing
      connections is modelled only where a function leaves its connection
      open inside a write transaction ([add_arac]).
    - The DEBUG [print] calls of [hesapla_gercek_km] and the log lines of
      the error handlers only write to the console and are left out. *)

From Stdlib Require Import List String Ascii Bool Arith ZArith QArith Qround.
From Stdlib Require Import Sorted Permutation Lia Lqa.
From Stdlib Require OrdersEx.
Import ListNotations.

Local Open Scope Q_scope.

(** ** Stable sorting *)

Module Stable.

Section Sort.
Context {A : Type} (leb : A -> A -> bool).

(** [x] goes behind every element that it does not strictly precede. *)
Fixpoint insert (x : A) (l : list A) : list A :=
  match l with
  | [] => [x]
  | y :: l' => if leb y x then y :: insert x l' else x :: l
  end.

(** Insertion sort, left to right: elements that compare equal keep their
    relative order, as in SQLite's [ORDER BY] with a unique last key and
    in Python's [list.sort]. *)
Definition sort (l : list A) : list A :=
  fold_left (fun acc x => insert x acc) l [].

End Sort.

End Stable.

(** ** Python values *)

Module Py.

(** [x < y] on floats, as a boolean. *)
Definition Qltb (x y : Q) : bool := negb (Qle_bool y x).

(** Truthiness of an optional string: [None] and [''] are falsy. *)
Definition truthy (s : option string) : bool :=
  match s with
  | Some s => negb (String.eqb s "")
  | None => false
  end.

(** [float(x or 0)]: [None] and [0.0] both give [0]. *)
Definition float_or0 (x : option Q) : Q :=
  match x with
  | Some q => q
  | None => 0
  end.

(** [round(x, nd)]: nearest multiple of [10^-nd], ties to the even one. *)
Definition round (x : Q) (nd : nat) : Q :=
  let s := (10 ^ Z.of_nat nd)%Z in
  let y := x * inject_Z s in
  let f := Qfloor y in
  let r := y - inject_Z f in
  let n := if Qltb r (1 # 2) then f
           else if Qltb (1 # 2) r then (f + 1)%Z
           else if Z.even f then f else (f + 1)%Z in
  inject_Z n / inject_Z s.

(** [sum(...)] of floats, starting from the integer [0]. *)
Definition sum (l : list Q) : Q := fold_left Qplus l 0.

End Py.

(** ** SQL building blocks *)

Module Sql.

(** [col = ?] for a nullable text column. *)
Definition eq_text (col : option string) (v : string) : bool :=
  match col with
  | Some c => String.eqb c v
  | None => false
  end.

(** [col IS NOT NULL AND col > 0]. *)
Definition not_null_gt0 (col : option Q) : bool :=
  match col with
  | Some q => Py.Qltb 0 q
  | None => false
  end.

(** [col BETWEEN lo AND hi] on text, both ends included. *)
Definition between (col : option string) (lo hi : string) : bool :=
  match col with
  | Some c => String.leb lo c && String.leb c hi
  | None => false
  end.

(** [col NOT IN (v1, v2, ...)]: NULL is in no list and out of none. *)
Definition not_in (col : option string) (vs : list string) : bool :=
  match col with
  | Some c => negb (existsb (String.eqb c) vs)
  | None => false
  end.

(** Ascending order of a nullable text column: NULL sorts first. *)
Definition text_compare (a b : option string) : comparison :=
  match a, b with
  | None, None => Eq
  | None, Some _ => Lt
  | Some _, None => Gt
  | Some x, Some y => String.compare x y
  end.

(** [SUM(col)]: NULLs are skipped; no non-NULL value at all gives NULL. *)
Definition sum (col : list (option Q)) : option Q :=
  fold_left (fun acc v =>
               match v with
               | None => acc
               | Some q => Some (match acc with Some a => a + q | None => q end)
               end) col None.

(** [COUNT( * )]. *)
Definition count {A : Type} (rows : list A) : Z := Z.of_nat (List.length rows).

(** [AVG(col)]: mean of the non-NULL values, NULL when there is none. *)
Definition avg (col : list (option Q)) : option Q :=
  match sum col with
  | Some s => Some (s / inject_Z (count (filter (fun v => match v with Some _ => true | None => false end) col)))
  | None => None
  end.

(** [ORDER BY]: rows that compare equal keep their insertion order. *)
Definition order_by {A : Type} (leb : A -> A -> bool) (l : list A) : list A :=
  Stable.sort leb l.

(** [GROUP BY key]: the distinct keys, in order of first appearance. *)
Fixpoint group_keys (keys : list string) : list string :=
  match keys with
  | [] => []
  | k :: ks => k :: filter (fun k' => negb (String.eqb k' k)) (group_keys ks)
  end.

End Sql.

(** ** The data layer ("database copy.py") *)

Module Database.

(** A row of table [yakit] (fuel purchases). *)
Record Yakit : Type := mkYakit {
  y_id : Z;
  y_plaka : option string;
  y_islem_tarihi : option string;
  y_yakit_miktari : option Q;
  y_birim_fiyat : option Q;
  y_satir_tutari : option Q;
  y_km_bilgisi : option Q
}.

(** A row of table [agirlik] (weighbridge tickets). *)
Record Agirlik : Type := mkAgirlik {
  ag_id : Z;
  ag_plaka : option string;
  ag_tarih : option string;
  ag_birim : option string;
  ag_net_agirlik : option Q
}.

(** A row of table [araclar] (vehicles); [plaka] is its key. *)
Record Arac : Type := mkArac {
  a_plaka : string;
  a_sahip : string;
  a_arac_tipi : string;
  a_aktif : Z
}.

(** The store.  [araclar = None] stands for a database file in which the
    table [araclar] has not been created. *)
Record Db : Type := mkDb {
  yakit : list Yakit;
  agirlik : list Agirlik;
  araclar : option (list Arac)
}.

(** What a function wrapped in [try: ... except Exception as e:] returns:
    its dictionary, or the [{'status': 'error', 'message': str(e)}] one. *)
Inductive Sonuc (A : Type) : Type :=
| Success (a : A)
| Error (message : string).
Arguments Success {A} a.
Arguments Error {A} message.

(** *** [hesapla_gercek_km] *)

(** [ORDER BY islem_tarihi ASC, id ASC]. *)
Definition tarih_id_leb (r1 r2 : Yakit) : bool :=
  match Sql.text_compare (y_islem_tarihi r1) (y_islem_tarihi r2) with
  | Lt => true
  | Eq => (y_id r1 <=? y_id r2)%Z
  | Gt => false
  end.

(** [WHERE plaka = ? AND km_bilgisi IS NOT NULL AND km_bilgisi > 0]. *)
Definition km_kaydi (plaka : string) (r : Yakit) : bool :=
  Sql.eq_text (y_plaka r) plaka && Sql.not_null_gt0 (y_km_bilgisi r).

(** The rows the query of [hesapla_gercek_km] selects, in its order. *)
Definition km_satirlari (db : Db) (plaka : string) : list Yakit :=
  Sql.order_by tarih_id_leb (filter (km_kaydi plaka) (yakit db)).

(** [float(row['km_bilgisi'])]; the WHERE clause leaves no NULL here. *)
Definition row_km (r : Yakit) : Q := Py.float_or0 (y_km_bilgisi r).

(** One turn of the loop [for row in rows], on the pair
    [(toplam_km, onceki_km)]. *)
Definition km_adimi (st : Q * option Q) (km : Q) : Q * option Q :=
  let '(toplam_km, onceki_km) := st in
  match onceki_km with
  | Some onceki =>
      let fark := km - onceki in
      (if Py.Qltb 0 fark then toplam_km + fark else toplam_km, Some km)
  | None => (toplam_km, Some km)
  end.

(** The body of [hesapla_gercek_km] after [rows = cursor.fetchall()]. *)
Definition ardisik_farklar (rows : list Q) : Q :=
  if (List.length rows <? 2)%nat then 0
  else fst (fold_left km_adimi rows (0, None)).

(** [hesapla_gercek_km(plaka, conn=None)]. *)
Definition hesapla_gercek_km (db : Db) (plaka : string) : Q :=
  ardisik_farklar (map row_km (km_satirlari db plaka)).

(** *** Active-vehicle helpers *)

(** [a.aktif = 1]. *)
Definition aktif (a : Arac) : bool := (a_aktif a =? 1)%Z.

(** [a.aktif = 1 AND a.arac_tipi = 'KARGO ARACI']. *)
Definition aktif_kargo (a : Arac) : bool :=
  aktif a && String.eqb (a_arac_tipi a) "KARGO ARACI".

(** [get_yakit_data()]: with the table, [yakit LEFT JOIN araclar] keeping
    the rows without a vehicle and those of an active one; without it,
    all of [yakit].  An exception gives [[]]; none arises here. *)
Definition get_yakit_data (db : Db) : list Yakit :=
  match araclar db with
  | Some vs =>
      flat_map (fun y =>
                  match filter (fun a => Sql.eq_text (y_plaka y) (a_plaka a)) vs with
                  | [] => [y]
                  | ms => map (fun _ => y) (filter aktif ms)
                  end) (yakit db)
  | None => yakit db
  end.

(** [get_aktif_kargo_araclari(dahil_taseron=False)]; the failed query on a
    missing table is caught and gives [[]]. *)
Definition get_aktif_kargo_araclari (db : Db) (dahil_taseron : bool) : list string :=
  match araclar db with
  | Some vs =>
      map a_plaka
        (filter (fun a => if dahil_taseron then aktif_kargo a
                          else aktif_kargo a && String.eqb (a_sahip a) "BİZİM") vs)
  | None => []
  end.

(** [plaka_filtre_uygula()]: [None] is the empty WHERE clause [("", ())],
    [Some ps] is ["plaka IN (?,...,?)"] with parameters [ps]. *)
Definition plaka_filtre_uygula (db : Db) : option (list string) :=
  match get_aktif_kargo_araclari db false with
  | [] => None
  | ps => Some ps
  end.

(** *** [get_muhasebe_data] *)

(** The date parameters: present only [if baslangic_tarihi and bitis_tarihi]. *)
Definition tarih_params (baslangic_tarihi bitis_tarihi : option string)
  : option (string * string) :=
  match baslangic_tarihi, bitis_tarihi with
  | Some b, Some e =>
      if Py.truthy baslangic_tarihi && Py.truthy bitis_tarihi then Some (b, e) else None
  | _, _ => None
  end.

(** The date clause on column [col]: ["col BETWEEN ? AND ?"], or [""]. *)
Definition tarih_filtre (tp : option (string * string)) (col : option string) : bool :=
  match tp with
  | Some (b, e) => Sql.between col b e
  | None => true
  end.

(** The clause [plaka = ?], which the query carries only [if plaka]. *)
Definition plaka_kosulu (plaka : option string) (col : option string) : bool :=
  match plaka with
  | Some p => if Py.truthy plaka then Sql.eq_text col p else true
  | None => true
  end.

(** [FROM t INNER JOIN araclar a ON t.plaka = a.plaka]. *)
Definition inner_join {R : Type} (plaka_of : R -> option string)
  (rows : list R) (vs : list Arac) : list (R * Arac) :=
  flat_map (fun r =>
              map (fun a => (r, a))
                (filter (fun a => Sql.eq_text (plaka_of r) (a_plaka a)) vs)) rows.

(** [SELECT t.plaka, SUM(deger) ... GROUP BY t.plaka] over joined rows;
    SQL leaves the order of the groups open, first appearance is taken. *)
Definition grupla {R : Type} (deger : R -> option Q) (rows : list (R * Arac))
  : list (string * option Q) :=
  map (fun k =>
         (k, Sql.sum (map (fun ra => deger (fst ra))
                        (filter (fun ra => String.eqb (a_plaka (snd ra)) k) rows))))
    (Sql.group_keys (map (fun ra => a_plaka (snd ra)) rows)).

(** [yakit_query]: [plaka, SUM(satir_tutari) as toplam_gider]. *)
Definition yakit_query (db : Db) (vs : list Arac) (tp : option (string * string))
  (plaka : option string) : list (string * option Q) :=
  grupla y_satir_tutari
    (filter (fun ya =>
               tarih_filtre tp (y_islem_tarihi (fst ya))
               && plaka_kosulu plaka (y_plaka (fst ya))
               && aktif_kargo (snd ya))
       (inner_join y_plaka (yakit db) vs)).

(** [agirlik_query]: [plaka, SUM(net_agirlik * 0.5) as toplam_gelir]. *)
Definition agirlik_query (db : Db) (vs : list Arac) (tp : option (string * string))
  (plaka : option string) : list (string * option Q) :=
  grupla (fun g => option_map (fun w => w * (1 # 2)) (ag_net_agirlik g))
    (filter (fun ga =>
               tarih_filtre tp (ag_tarih (fst ga))
               && plaka_kosulu plaka (ag_plaka (fst ga))
               && Sql.not_in (ag_birim (fst ga)) ["Adet"; "adet"; "ADET"]%string
               && aktif_kargo (snd ga))
       (inner_join ag_plaka (agirlik db) vs)).

(** A value of the dictionary [plaka_veriler]. *)
Record PlakaVeri : Type := mkPlakaVeri { gelir : Q; gider : Q }.

(** [if p not in d: d[p] = {'gelir': 0, 'gider': 0, ...}] followed by an
    update of [d[p]]; a new key goes to the end, as in a Python dict. *)
Fixpoint dict_update (p : string) (f : PlakaVeri -> PlakaVeri)
  (d : list (string * PlakaVeri)) : list (string * PlakaVeri) :=
  match d with
  | [] => [(p, f (mkPlakaVeri 0 0))]
  | (k, v) :: d' =>
      if String.eqb k p then (k, f v) :: d' else (k, v) :: dict_update p f d'
  end.

(** [d.get(p)]. *)
Fixpoint dict_get (p : string) (d : list (string * PlakaVeri)) : option PlakaVeri :=
  match d with
  | [] => None
  | (k, v) :: d' => if String.eqb k p then Some v else dict_get p d'
  end.

(** An entry of [plaka_bazli]. *)
Record PlakaBazli : Type := mkPlakaBazli {
  pb_plaka : string;
  pb_gelir : Q;
  pb_gider : Q;
  pb_net_kar : Q;
  pb_kar_marji : Q
}.

(** The success dictionary of [get_muhasebe_data]. *)
Record Muhasebe : Type := mkMuhasebe {
  toplam_gelir : Q;
  toplam_gider : Q;
  net_kar : Q;
  kar_marji : Q;
  plaka_bazli : list PlakaBazli
}.

(** [(net / gelir * 100) if gelir > 0 else 0]. *)
Definition marj (net gelir : Q) : Q :=
  if Py.Qltb 0 gelir then net / gelir * 100 else 0.

(** One element of the loop [for p, v in plaka_veriler.items()]. *)
Definition plaka_satiri (pv : string * PlakaVeri) : PlakaBazli :=
  let net := gelir (snd pv) - gider (snd pv) in
  mkPlakaBazli (fst pv) (gelir (snd pv)) (gider (snd pv)) net (marj net (gelir (snd pv))).

(** [key=lambda x: x['net_kar'], reverse=True]. *)
Definition net_kar_azalan (x y : PlakaBazli) : bool :=
  Qle_bool (pb_net_kar y) (pb_net_kar x).

(** [get_muhasebe_data(baslangic_tarihi, bitis_tarihi, plaka=None)].  Both
    queries join [araclar]; without that table the first one raises
    [sqlite3.OperationalError], which the handler turns into the error
    dictionary.  The label [ana_malzeme] that rides along each entry
    enters no amount and is left out. *)
Definition get_muhasebe_data (db : Db) (baslangic_tarihi bitis_tarihi : option string)
  (plaka : option string) : Sonuc Muhasebe :=
  match araclar db with
  | None => Error "no such table: araclar"
  | Some vs =>
      let tp := tarih_params baslangic_tarihi bitis_tarihi in
      let yakit_rows := yakit_query db vs tp plaka in
      let agirlik_rows := agirlik_query db vs tp plaka in
      let plaka_veriler :=
        fold_left (fun d row =>
                     dict_update (fst row)
                       (fun v => mkPlakaVeri (gelir v) (Py.float_or0 (snd row))) d)
          yakit_rows [] in
      let plaka_veriler :=
        fold_left (fun d row =>
                     dict_update (fst row)
                       (fun v => mkPlakaVeri (Py.float_or0 (snd row)) (gider v)) d)
          agirlik_rows plaka_veriler in
      let toplam_gelir := Py.sum (map (fun pv => gelir (snd pv)) plaka_veriler) in
      let toplam_gider := Py.sum (map (fun pv => gider (snd pv)) plaka_veriler) in
      let net_kar := toplam_gelir - toplam_gider in
      let kar_marji := marj net_kar toplam_gelir in
      let plaka_bazli := Stable.sort net_kar_azalan (map plaka_satiri plaka_veriler) in
      Success (mkMuhasebe toplam_gelir toplam_gider net_kar kar_marji plaka_bazli)
  end.

(** *** [get_arac_performans_analizi] *)

(** The rows under the aggregates of [yakit_query]. *)
Definition performans_yakit (db : Db) (plaka : string) (tp : option (string * string))
  : list Yakit :=
  filter (fun y =>
            Sql.eq_text (y_plaka y) plaka
            && tarih_filtre tp (y_islem_tarihi y)
            && Sql.not_null_gt0 (y_yakit_miktari y)) (yakit db).

(** The rows under the aggregates of [agirlik_query]. *)
Definition performans_agirlik (db : Db) (plaka : string) (tp : option (string * string))
  : list Agirlik :=
  filter (fun g =>
            Sql.eq_text (ag_plaka g) plaka
            && tarih_filtre tp (ag_tarih g)
            && Sql.not_null_gt0 (ag_net_agirlik g)
            && Sql.not_in (ag_birim g) ["Adet"; "adet"; "ADET"]%string) (agirlik db).

(** The amounts computed under the comment [# Hesaplamalar], before they
    are rounded into the result. *)
Record Hesap : Type := mkHesap {
  h_toplam_yakit : Q;
  h_toplam_km : Q;
  h_sefer_sayisi : Z;
  h_toplam_maliyet : Q;
  h_ort_yakit_sefer : Q;
  h_ort_birim_fiyat : Q;
  h_toplam_tonaj : Q;
  h_yuklenme_sayisi : Z;
  h_ort_tonaj_yuklenme : Q;
  h_yakit_km_orani : Q;
  h_km_basina_maliyet : Q;
  h_ton_basina_yakit : Q;
  h_verimlilik_skoru : Q
}.

(** Lines 1449-1471: the two aggregate rows read with [float(... or 0)],
    then the ratios. *)
Definition hesaplamalar (yakit_rows : list Yakit) (agirlik_rows : list Agirlik) : Hesap :=
  let toplam_yakit := Py.float_or0 (Sql.sum (map y_yakit_miktari yakit_rows)) in
  let toplam_km := Py.float_or0 (Sql.sum (map y_km_bilgisi yakit_rows)) in
  let sefer_sayisi := Sql.count yakit_rows in
  let toplam_maliyet := Py.float_or0 (Sql.sum (map y_satir_tutari yakit_rows)) in
  let ort_yakit_sefer := Py.float_or0 (Sql.avg (map y_yakit_miktari yakit_rows)) in
  let ort_birim_fiyat := Py.float_or0 (Sql.avg (map y_birim_fiyat yakit_rows)) in
  let toplam_tonaj := Py.float_or0 (Sql.sum (map ag_net_agirlik agirlik_rows)) in
  let yuklenme_sayisi := Sql.count agirlik_rows in
  let ort_tonaj_yuklenme := Py.float_or0 (Sql.avg (map ag_net_agirlik agirlik_rows)) in
  let yakit_km_orani := if Py.Qltb 0 toplam_km then toplam_yakit / toplam_km else 0 in
  let km_basina_maliyet := if Py.Qltb 0 toplam_km then toplam_maliyet / toplam_km else 0 in
  let toplam_tonaj_ton := toplam_tonaj / 1000 in
  let ton_basina_yakit :=
    if Py.Qltb 0 toplam_yakit then toplam_tonaj_ton / toplam_yakit else 0 in
  let verimlilik_skoru :=
    if Py.Qltb 0 yakit_km_orani then yakit_km_orani * 100 else 0 in
  mkHesap toplam_yakit toplam_km sefer_sayisi toplam_maliyet ort_yakit_sefer
    ort_birim_fiyat toplam_tonaj yuklenme_sayisi ort_tonaj_yuklenme
    yakit_km_orani km_basina_maliyet ton_basina_yakit verimlilik_skoru.

(** The success dictionary of [get_arac_performans_analizi]; its three
    nested dictionaries [yakit], [tonaj] and [performans] are flattened. *)
Record Performans : Type := mkPerformans {
  p_plaka : string;
  p_baslangic_tarihi : string;
  p_bitis_tarihi : string;
  p_toplam_yakit : Q;
  p_toplam_km : Q;
  p_sefer_sayisi : Z;
  p_ort_yakit_sefer : Q;
  p_ort_birim_fiyat : Q;
  p_toplam_maliyet : Q;
  p_toplam_tonaj : Q;
  p_yuklenme_sayisi : Z;
  p_ort_tonaj_yuklenme : Q;
  p_yakit_km_orani : Q;
  p_km_basina_maliyet : Q;
  p_ton_basina_yakit : Q;
  p_verimlilik_skoru : Q
}.

(** [s or d] on an optional string. *)
Definition str_or (s : option string) (d : string) : string :=
  match s with
  | Some v => if Py.truthy s then v else d
  | None => d
  end.

(** [get_arac_performans_analizi(plaka, baslangic_tarihi=None,
    bitis_tarihi=None)].  Neither query touches [araclar]. *)
Definition get_arac_performans_analizi (db : Db) (plaka : string)
  (baslangic_tarihi bitis_tarihi : option string) : Sonuc Performans :=
  let tp := tarih_params baslangic_tarihi bitis_tarihi in
  let h := hesaplamalar (performans_yakit db plaka tp) (performans_agirlik db plaka tp) in
  Success
    (mkPerformans plaka
       (str_or baslangic_tarihi "Başlangıç") (str_or bitis_tarihi "Bugün")
       (Py.round (h_toplam_yakit h) 2)
       (Py.round (h_toplam_km h) 2)
       (h_sefer_sayisi h)
       (Py.round (h_ort_yakit_sefer h) 2)
       (Py.round (h_ort_birim_fiyat h) 2)
       (Py.round (h_toplam_maliyet h) 2)
       (Py.round (h_toplam_tonaj h) 2)
       (h_yuklenme_sayisi h)
       (Py.round (h_ort_tonaj_yuklenme h) 2)
       (Py.round (h_yakit_km_orani h) 3)
       (Py.round (h_km_basina_maliyet h) 2)
       (Py.round (h_ton_basina_yakit h) 2)
       (Py.round (h_verimlilik_skoru h) 2)).

End Database.

(** ** The comparison endpoint ([app.py]) *)

Module App.

Import Database.

(** A row of the JSON list [sonuclar]. *)
Record Karsilastirma : Type := mkKarsilastirma {
  k_plaka : string;
  k_toplam_yakit : Q;
  k_toplam_maliyet : Q;
  k_gercek_km : Q;
  k_ortalama_tuketim : Q
}.

(** [d[k] = v] on a dictionary with string keys. *)
Fixpoint dict_set (k v : string) (d : list (string * string)) : list (string * string) :=
  match d with
  | [] => [(k, v)]
  | (k', v') :: d' =>
      if String.eqb k' k then (k', v) :: d' else (k', v') :: dict_set k v d'
  end.

(** The dictionary [filters] built for one plate: both date tests are
    stored under the key ['islem_tarihi']. *)
Definition filters_of (plaka : string) (baslangic bitis : option string)
  : list (string * string) :=
  let filters := [("plaka", "eq." ++ plaka)]%string in
  let filters :=
    match baslangic with
    | Some b => if Py.truthy baslangic
                then dict_set "islem_tarihi" ("gte." ++ b) filters else filters
    | None => filters
    end in
  match bitis with
  | Some e => if Py.truthy bitis
              then dict_set "islem_tarihi" ("lte." ++ e) filters else filters
  | None => filters
  end.

Section Karsilastir.

(** The two functions that [app.py] imports from its module [database]
    and calls here.  [fetch_all_paginated], the client of the remote
    store, is defined nowhere in the sources.  [hesapla_gercek_km] is
    called with three positional arguments, the plate and both dates,
    while the one definition in the sources, [Database.hesapla_gercek_km],
    takes a plate and a connection; what the endpoint calls is therefore
    a parameter as well.  Both are taken as functions that return. *)
Variable fetch_all_paginated : string -> list (string * string) -> list Yakit.
Variable hesapla_gercek_km3 : string -> option string -> option string -> Q.

(** The body of the loop [for plaka in plakalar]. *)
Definition karsilastir_satiri (baslangic bitis : option string) (plaka : string)
  : Karsilastirma :=
  let yakit_data := fetch_all_paginated "yakit" (filters_of plaka baslangic bitis) in
  let toplam_yakit := Py.sum (map (fun row => Py.float_or0 (y_yakit_miktari row)) yakit_data) in
  let toplam_maliyet := Py.sum (map (fun row => Py.float_or0 (y_satir_tutari row)) yakit_data) in
  let gercek_km := hesapla_gercek_km3 plaka baslangic bitis in
  let ort_tuketim :=
    if Py.Qltb 0 gercek_km then toplam_yakit / (gercek_km / 100) else 0 in
  mkKarsilastirma plaka (Py.round toplam_yakit 2) (Py.round toplam_maliyet 2)
    (Py.round gercek_km 2) (Py.round ort_tuketim 2).

(** [api_performans_karsilastir()], on the fields of the request body. *)
Definition api_performans_karsilastir (plakalar : list string)
  (baslangic bitis : option string) : Sonuc (list Karsilastirma) :=
  let sonuclar :=
    fold_left (fun sonuclar plaka =>
                 sonuclar ++ [karsilastir_satiri baslangic bitis plaka]) plakalar [] in
  Success sonuclar.

End Karsilastir.

End App.

(** ** What the specification says, in its own words *)

Module Spec.

Import Database.

(** Section 4.1, step 4: the sum, over the consecutive pairs [(prev, cur)]
    of a sequence of readings, of the deltas [cur - prev] that are
    positive; after each pair the walk goes on with [cur] as [prev]. *)
Fixpoint positive_deltas (readings : list Q) : Q :=
  match readings with
  | prev :: ((cur :: _) as rest) =>
      (if Py.Qltb 0 (cur - prev) then cur - prev else 0) + positive_deltas rest
  | _ => 0
  end.

(** Section 4.1, step 1: the optional restriction to
    [[start_date, end_date]], both ends included, on the transaction date. *)
Definition in_range (start_date end_date : option string) (d : option string) : bool :=
  match d with
  | Some d =>
      match start_date with Some s => String.leb s d | None => true end
      && match end_date with Some e => String.leb d e | None => true end
  | None =>
      match start_date, end_date with None, None => true | _, _ => false end
  end.

(** Section 4.1: [true_distance(plate, start_date?, end_date?)]. *)
Definition true_distance (db : Db) (plate : string) (start_date end_date : option string) : Q :=
  positive_deltas
    (map row_km
       (Sql.order_by tarih_id_leb
          (filter (fun r => km_kaydi plate r && in_range start_date end_date (y_islem_tarihi r))
             (yakit db)))).

(** An ASCII letter in lower case. *)
Definition lower (c : ascii) : ascii :=
  let n := nat_of_ascii c in
  if ((65 <=? n) && (n <=? 90))%nat then ascii_of_nat (n + 32) else c.

(** Section 3: a count unit is "Adet" in any letter case. *)
Definition count_unit (unit : option string) : bool :=
  match unit with
  | Some u => String.eqb (string_of_list_ascii (map lower (list_ascii_of_string u))) "adet"
  | None => false
  end.

(** A count unit in the narrower reading: one of the three spellings
    "Adet", "adet" and "ADET"; a missing unit is not one. *)
Definition count_unit_listed (unit : option string) : bool :=
  match unit with
  | Some u => existsb (String.eqb u) ["Adet"; "adet"; "ADET"]%string
  | None => false
  end.

(** Section 4.2: revenue of a plate, [sum(net_weight) * 0.5] over its
    weight records that are not in a count unit. *)
Definition revenue (db : Db) (plate : string) : Q :=
  Py.sum (map (fun g => Py.float_or0 (ag_net_agirlik g))
            (filter (fun g => Sql.eq_text (ag_plaka g) plate && negb (count_unit (ag_birim g)))
               (agirlik db))) * (1 # 2).

(** Section 4.2, on a result of [vehicle_performance]: both ratios over
    the total distance, 0 without distance, and the efficiency score. *)
Definition performance_ratios (r : Performans) : Prop :=
  (0 < p_toplam_km r ->
   p_yakit_km_orani r == p_toplam_yakit r / p_toplam_km r
   /\ p_km_basina_maliyet r == p_toplam_maliyet r / p_toplam_km r)
  /\ (p_toplam_km r == 0 -> p_yakit_km_orani r == 0 /\ p_km_basina_maliyet r == 0)
  /\ p_verimlilik_skoru r == p_yakit_km_orani r * 100.

(** Section 4.2, on an entry of the per-plate list of [accounting]: its
    net profit and its margin. *)
Definition entry_ok (x : PlakaBazli) : Prop :=
  pb_net_kar x == pb_gelir x - pb_gider x
  /\ (0 < pb_gelir x -> pb_kar_marji x == pb_net_kar x / pb_gelir x * 100)
  /\ (pb_gelir x <= 0 -> pb_kar_marji x == 0).

End Spec.

(** ** The distance function that [app.py] calls *)

Module Eksik.

Import Database.

(** Modelled from the spec: [hesapla_gercek_km(plaka, baslangic, bitis)],
    the distance function that [app.py] imports from its module [database]
    and calls with a plate and both dates.  That module is not among the
    sources: the one definition there, [Database.hesapla_gercek_km], takes
    a plate and a connection, and no dates.  Section 4.1 of the
    specification: fetch the fuel records of the plate with a present,
    positive odometer reading, optionally restricted to
    [[start_date, end_date]], both ends included, on the transaction date;
    sort them by date, then by insertion order; with fewer than two of
    them return 0; otherwise walk them pairwise and add each positive
    delta to the running total, going on with the current reading as the
    previous one.  That walk is the one of [Database.ardisik_farklar]. *)
Definition hesapla_gercek_km (db : Db) (plaka : string) (baslangic bitis : option string)
  : Q :=
  let kayitlar :=
    Sql.order_by tarih_id_leb
      (filter (fun r => km_kaydi plaka r
                        && Spec.in_range baslangic bitis (y_islem_tarihi r))
         (yakit db)) in
  ardisik_farklar (map row_km kayitlar).

End Eksik.

(** ** Sample stores *)

Module Ornek.

Import Database.

(** A fuel row with every amount present. *)
Definition yakit_satiri (id : Z) (plaka tarih : string) (miktar tutar km : Q) : Yakit :=
  mkYakit id (Some plaka) (Some tarih) (Some miktar) (Some (tutar / miktar)) (Some tutar) (Some km).

(** The scenario of section 8 of the specification: plate 46AJH283,
    2024-01-01 to 2024-01-03, odometers 10000, 10150, 10100, 10400;
    the rows are stored out of order. *)
Definition db_46AJH283 : Db :=
  mkDb [ yakit_satiri 3 "46AJH283" "2024-01-02" 40 1600 10100;
         yakit_satiri 1 "46AJH283" "2024-01-01" 50 2000 10000;
         yakit_satiri 4 "46AJH283" "2024-01-03" 45 1800 10400;
         yakit_satiri 2 "46AJH283" "2024-01-02" 30 1200 10150;
         yakit_satiri 5 "34ABC01" "2024-01-02" 20 800 77000 ]
       [] None.

(** One plate, four days, odometers 100, 200, 300, 500. *)
Definition db_dort_gun : Db :=
  mkDb [ yakit_satiri 1 "34ABC01" "2024-01-01" 10 400 100;
         yakit_satiri 2 "34ABC01" "2024-01-02" 10 400 200;
         yakit_satiri 3 "34ABC01" "2024-01-03" 10 400 300;
         yakit_satiri 4 "34ABC01" "2024-01-04" 10 400 500 ]
       [] None.

(** One plate, two fill-ups at odometers 100 and 250. *)
Definition db_iki_dolum : Db :=
  mkDb [ yakit_satiri 1 "34ABC01" "2024-01-01" 10 400 100;
         yakit_satiri 2 "34ABC01" "2024-01-02" 10 400 250 ]
       [] None.

(** One fill-up of 1 litre for 2 at an odometer reading of 3. *)
Definition db_ucte_bir : Db :=
  mkDb [ yakit_satiri 1 "34ABC01" "2024-01-01" 1 2 3 ] [] None.

(** An active cargo vehicle with a fuel purchase of 400, a ticket of
    1000 kg and a ticket whose unit is spelled "ADet". *)
Definition db_adet : Db :=
  mkDb [ yakit_satiri 1 "34ABC01" "2024-01-01" 10 400 100 ]
       [ mkAgirlik 1 (Some "34ABC01") (Some "2024-01-01") (Some "Kg") (Some 1000);
         mkAgirlik 2 (Some "34ABC01") (Some "2024-01-02") (Some "ADet") (Some 100) ]%string
       (Some [ mkArac "34ABC01" "BİZİM" "KARGO ARACI" 1 ]).

(** Fuel and weight records, and no table [araclar]. *)
Definition db_araclar_yok : Db :=
  mkDb (yakit db_adet) (agirlik db_adet) None.

(** The same records, and an empty table [araclar]. *)
Definition db_araclar_bos : Db :=
  mkDb (yakit db_adet) (agirlik db_adet) (Some []).

(** A stand-in for the remote store: the fuel rows of [db_46AJH283] that
    pass the test ["eq.<plate>"] stored under the key ["plaka"]. *)
Definition fetch_ornek (table : string) (filters : list (string * string)) : list Yakit :=
  filter (fun y =>
            match y_plaka y with
            | Some p =>
                existsb (fun kv => String.eqb (fst kv) "plaka"
                                   && String.eqb (snd kv) ("eq." ++ p)) filters
            | None => false
            end) (yakit db_46AJH283).

(** A stand-in for the three-argument distance function: the
    reconstruction over [db_46AJH283], whatever the dates. *)
Definition km3_ornek (plaka : string) (baslangic bitis : option string) : Q :=
  hesapla_gercek_km db_46AJH283 plaka.

End Ornek.

(** ** More of the data layer: readers of the tables *)

Module Tablolar.

Import Database.

(** The values of a column that are not NULL. *)
Definition non_null (col : list (option string)) : list string :=
  flat_map (fun o => match o with Some p => [p] | None => [] end) col.

(** [get_agirlik_data()]: as [get_yakit_data], on table [agirlik]. *)
Definition get_agirlik_data (db : Db) : list Agirlik :=
  match araclar db with
  | Some vs =>
      flat_map (fun g =>
                  match filter (fun a => Sql.eq_text (ag_plaka g) (a_plaka a)) vs with
                  | [] => [g]
                  | ms => map (fun _ => g) (filter aktif ms)
                  end) (agirlik db)
  | None => agirlik db
  end.

(** [get_all_plakas()].  The set [all_plakalar] is kept as a list without
    repetition; [arac_takip] is the column [plaka] of that table.  The
    intersection with the active plates is taken only [if aktif_plakalar]. *)
Definition get_all_plakas (db : Db) (arac_takip : list (option string)) : list string :=
  let all_plakalar :=
    Sql.group_keys (non_null (map y_plaka (yakit db))
                    ++ non_null (map ag_plaka (agirlik db))
                    ++ non_null arac_takip) in
  let all_plakalar :=
    match araclar db with
    | Some vs =>
        match map a_plaka (filter aktif vs) with
        | [] => all_plakalar
        | aktif_plakalar =>
            filter (fun p => existsb (String.eqb p) aktif_plakalar) all_plakalar
        end
    | None => all_plakalar
    end in
  Stable.sort String.leb all_plakalar.

(** [get_yakit_by_plaka(plaka)]. *)
Definition get_yakit_by_plaka (db : Db) (plaka : string) : list Yakit :=
  filter (fun y => Sql.eq_text (y_plaka y) plaka) (yakit db).

(** [get_agirlik_by_plaka(plaka, sadece_urun=False)]. *)
Definition get_agirlik_by_plaka (db : Db) (plaka : string) (sadece_urun : bool)
  : list Agirlik :=
  if sadece_urun
  then filter (fun g => Sql.eq_text (ag_plaka g) plaka
                        && Sql.not_in (ag_birim g) ["Adet"; "adet"; "ADET"]%string)
         (agirlik db)
  else filter (fun g => Sql.eq_text (ag_plaka g) plaka) (agirlik db).

(** The query shared by [get_aktif_kargo_araclari],
    [get_aktif_binek_araclar] and [get_aktif_is_makineleri]: the active
    vehicles of one type, those of owner BİZİM unless [dahil_taseron]. *)
Definition aktif_tip (arac_tipi : string) (dahil_taseron : bool) (a : Arac) : bool :=
  if dahil_taseron
  then aktif a && String.eqb (a_arac_tipi a) arac_tipi
  else aktif a && String.eqb (a_arac_tipi a) arac_tipi && String.eqb (a_sahip a) "BİZİM".

(** [get_aktif_binek_araclar(dahil_taseron=False)]. *)
Definition get_aktif_binek_araclar (db : Db) (dahil_taseron : bool) : list string :=
  match araclar db with
  | Some vs => map a_plaka (filter (aktif_tip "BİNEK ARAÇ" dahil_taseron) vs)
  | None => []
  end.

(** [get_aktif_is_makineleri(dahil_taseron=False)]. *)
Definition get_aktif_is_makineleri (db : Db) (dahil_taseron : bool) : list string :=
  match araclar db with
  | Some vs => map a_plaka (filter (aktif_tip "İŞ MAKİNESİ" dahil_taseron) vs)
  | None => []
  end.

End Tablolar.

(** ** More of the data layer: the vehicle table *)

Module Araclar.

Import Database.

(** A row of [araclar] as the writers fill it.  The row id and the two
    timestamps, which no function modelled here reads, are left out. *)
Record AracSatiri : Type := mkAracSatiri {
  s_plaka : string;
  s_sahip : string;
  s_arac_tipi : string;
  s_notlar : string;
  s_aktif : Z
}.

(** The table [araclar]: [None] when it has not been created.  The key on
    [plaka] that [INSERT OR IGNORE] and the [sqlite3.IntegrityError]
    handler of [add_arac] rely on is modelled in the writers below. *)
Definition Tablo : Type := option (list AracSatiri).

(** The columns that the readers of [Database] use. *)
Definition arac_of (s : AracSatiri) : Arac :=
  mkArac (s_plaka s) (s_sahip s) (s_arac_tipi s) (s_aktif s).

(** The store that the readers see. *)
Definition db_of (y : list Yakit) (g : list Agirlik) (t : Tablo) : Db :=
  mkDb y g (option_map (map arac_of) t).

(** Is the plate the key of a row? *)
Definition kayitli (plaka : string) (rows : list AracSatiri) : bool :=
  existsb (fun s => String.eqb (s_plaka s) plaka) rows.


(** Whether the database file is held by a connection that an earlier
    call left open inside a write transaction.  Such a connection keeps the
    write lock until the interpreter reclaims it, which nothing in the code
    does; what a call finds is therefore an argument.  The other writers
    of this module are modelled on a file that no connection holds. *)
Inductive Kilit : Type := Serbest | Tutulu.

(** [add_arac(plaka, sahip, arac_tipi, notlar='')]: the table and the lock
    afterwards, and the returned dictionary.  On a registered plate the
    [INSERT] raises [sqlite3.IntegrityError] inside the transaction that it
    began, and the handler returns without [conn.close()] or a rollback:
    the table is unchanged and the file stays locked.  On a locked file the
    [INSERT] cannot take the write lock and raises
    [sqlite3.OperationalError], which the last handler reports.  Only the
    path without an exception reaches [conn.commit()] and [conn.close()]. *)
Definition add_arac (kilit : Kilit) (t : Tablo) (plaka sahip arac_tipi notlar : string)
  : Tablo * Kilit * Sonuc string :=
  match t with
  | None => (t, kilit, Error "no such table: araclar"%string)
  | Some rows =>
      match kilit with
      | Tutulu => (t, Tutulu, Error "database is locked"%string)
      | Serbest =>
          if kayitli plaka rows
          then (t, Tutulu, Error "Bu plaka zaten kayıtlı!"%string)
          else (Some (rows ++ [mkAracSatiri plaka sahip arac_tipi notlar 1]),
                Serbest, Success "Araç başarıyla eklendi"%string)
      end
  end.

(** [update_arac(plaka, sahip, arac_tipi, aktif, notlar='')]. *)
Definition update_arac (t : Tablo) (plaka sahip arac_tipi : string) (aktif : Z)
  (notlar : string) : Tablo * Sonuc string :=
  match t with
  | None => (t, Error "no such table: araclar"%string)
  | Some rows =>
      (Some (map (fun s =>
                    if String.eqb (s_plaka s) plaka
                    then mkAracSatiri (s_plaka s) sahip arac_tipi notlar aktif
                    else s) rows),
       Success "Araç güncellendi"%string)
  end.

(** [delete_arac(plaka)]. *)
Definition delete_arac (t : Tablo) (plaka : string) : Tablo * Sonuc string :=
  match t with
  | None => (t, Error "no such table: araclar"%string)
  | Some rows =>
      (Some (filter (fun s => negb (String.eqb (s_plaka s) plaka)) rows),
       Success "Araç silindi"%string)
  end.

(** The plates that [bulk_import_araclar] offers to the table:
    [SELECT DISTINCT plaka FROM yakit WHERE plaka IS NOT NULL AND plaka != '']. *)
Definition yakit_plakalari (y : list Yakit) : list string :=
  Sql.group_keys
    (filter (fun p => negb (String.eqb p "")) (Tablolar.non_null (map y_plaka y))).

(** [bulk_import_araclar()]: [INSERT OR IGNORE] skips the plates that are
    keys already; the success dictionary carries [eklenen], the number of
    rows inserted, and [toplam], the number of rows afterwards. *)
Definition bulk_import_araclar (y : list Yakit) (t : Tablo) : Tablo * Sonuc (Z * Z) :=
  match t with
  | None => (t, Error "no such table: araclar"%string)
  | Some rows =>
      let yeni := filter (fun p => negb (kayitli p rows)) (yakit_plakalari y) in
      let rows' :=
        rows ++ map (fun p => mkAracSatiri p "BİZİM"%string "KARGO ARACI"%string "Otomatik eklendi"%string 1) yeni in
      (Some rows', Success (Z.of_nat (List.length yeni), Z.of_nat (List.length rows')))
  end.

End Araclar.

(** ** More of [app.py]: the analysis endpoints *)

Module Analiz.

Import Database.

(** [str(row['plaka'])]: [None] prints as ['None']. *)
Definition py_str (o : option string) : string :=
  match o with
  | Some s => s
  | None => "None"
  end.

(** [d[k] = d.get(k, 0) + x] on a dictionary of floats. *)
Fixpoint dict_add (k : string) (x : Q) (d : list (string * Q)) : list (string * Q) :=
  match d with
  | [] => [(k, 0 + x)]
  | (k', v) :: d' =>
      if String.eqb k' k then (k', v + x) :: d' else (k', v) :: dict_add k x d'
  end.

(** [d.get(k, 0)]. *)
Fixpoint dict_get0 (k : string) (d : list (string * Q)) : Q :=
  match d with
  | [] => 0
  | (k', v) :: d' => if String.eqb k' k then v else dict_get0 k d'
  end.

(** An element of [tahminler]. *)
Record Tahmin : Type := mkTahmin {
  t_plaka : string;
  t_toplam_yakit : Q;
  t_gercek_km : Q;
  t_gercek_ortalama : Q;
  t_tahmini_ortalama : Q;
  t_aktif : bool
}.

(** [key=lambda x: x['toplam_yakit'], reverse=True]. *)
Definition toplam_yakit_azalan (x y : Tahmin) : bool :=
  Qle_bool (t_toplam_yakit y) (t_toplam_yakit x).

(** The loop [for row in yakit_data] of [analyze]: fuel per plate, the
    positive amounts only. *)
Definition plaka_yakit_topla (yakit_data : list Yakit) : list (string * Q) :=
  fold_left (fun plaka_yakit row =>
               let plaka_str := py_str (y_plaka row) in
               let yakit := Py.float_or0 (y_yakit_miktari row) in
               if Py.Qltb 0 yakit then dict_add plaka_str yakit plaka_yakit
               else plaka_yakit) yakit_data [].

Section Analyze.

(** [hesapla_gercek_km] as [app.py] calls it, with the plate and both
    dates; see [App.Karsilastir]. *)
Variable hesapla_gercek_km3 : string -> option string -> option string -> Q.

(** One turn of the loop [for plaka_str, toplam_yakit in plaka_yakit.items()]. *)
Definition tahmin_satiri (aktif_kargo : list string) (baslangic_tarihi bitis_tarihi : option string)
  (pt : string * Q) : Tahmin :=
  let plaka_str := fst pt in
  let toplam_yakit := snd pt in
  let gercek_km := hesapla_gercek_km3 plaka_str baslangic_tarihi bitis_tarihi in
  let gercek_ort :=
    if Py.Qltb 0 gercek_km then toplam_yakit / (gercek_km / 100) else 0 in
  let aktif_mi := existsb (String.eqb plaka_str) aktif_kargo in
  mkTahmin plaka_str (Py.round toplam_yakit 2) (Py.round gercek_km 2)
    (Py.round gercek_ort 2)
    (if Py.Qltb 0 gercek_km then Py.round gercek_ort 2 else 0)
    aktif_mi.

(** The block of [analyze] that fills [plakalar] and [tahminler], from the
    list [aktif_kargo] of [get_aktif_kargo_araclari()] and the rows
    [yakit_data] that the store returned. *)
Definition analyze_tahminler (aktif_kargo : list string) (yakit_data : list Yakit)
  (baslangic_tarihi bitis_tarihi : option string) : list string * list Tahmin :=
  let plaka_yakit := plaka_yakit_topla yakit_data in
  let plakalar := map fst plaka_yakit in
  let tahminler := map (tahmin_satiri aktif_kargo baslangic_tarihi bitis_tarihi) plaka_yakit in
  (plakalar, Stable.sort toplam_yakit_azalan tahminler).

End Analyze.





Section PerformansHesapla.

(** [fetch_all_paginated(table, filters=..., order=...)] of the module
    [database] that [app.py] imports, and its [hesapla_gercek_km]; both
    are absent from the sources and taken as functions that return. *)
Variable fetch_all_paginated : string -> list (string * string) -> option string -> list Yakit.
Variable hesapla_gercek_km3 : string -> option string -> option string -> Q.


End PerformansHesapla.

End Analiz.

(** ** More of [app.py]: the analyses by vehicle type *)

Module TipAnalizi.

Import Database.

(** An element of [arac_detaylari]. *)
Record AracDetay : Type := mkAracDetay {
  d_plaka : string;
  d_toplam_yakit : Q;
  d_toplam_km : Q;
  d_ortalama_yakit : Q;
  d_yakit_alimlari : nat;
  d_tuketim_100km : Q
}.

(** The template arguments that only the full report carries. *)
Record Grafik : Type := mkGrafik {
  sefer : nat;
  yakit_ : Q;
  ortalama_tahmin : Q;
  plakalar_ : list string;
  tahminler_ : list Q
}.

(** What the endpoint hands to the template [result.html]:
    [arac_detaylari], the dictionary [genel_ozet] and, unless there is no
    active vehicle of the type, the arguments of [Grafik]. *)
Record TipSonuc : Type := mkTipSonuc {
  arac_detaylari : list AracDetay;
  ozet_toplam_arac : nat;
  ozet_toplam_yakit : Q;
  ozet_arac_tipi : string;
  grafik : option Grafik
}.

(** The list comprehension that keeps the rows within the dates.  The
    comparison of a NULL date with a string raises [TypeError]: [>=] when
    the start date is tested, [<=] otherwise. *)
Fixpoint tarih_suz (baslangic_tarihi bitis_tarihi : option string) (yakit_data : list Yakit)
  : Sonuc (list Yakit) :=
  match yakit_data with
  | [] => Success []
  | row :: rest =>
      match y_islem_tarihi row with
      | None =>
          if Py.truthy baslangic_tarihi
          then Error "'>=' not supported between instances of 'NoneType' and 'str'"
          else Error "'<=' not supported between instances of 'NoneType' and 'str'"
      | Some d =>
          let tut :=
            (negb (Py.truthy baslangic_tarihi)
             || match baslangic_tarihi with Some b => String.leb b d | None => true end)
            && (negb (Py.truthy bitis_tarihi)
                || match bitis_tarihi with Some e => String.leb d e | None => true end) in
          match tarih_suz baslangic_tarihi bitis_tarihi rest with
          | Success rest' => Success (if tut then row :: rest' else rest')
          | Error m => Error m
          end
      end
  end.

Section Tip.

(** [hesapla_gercek_km] as [app.py] calls it; see [App.Karsilastir]. *)
Variable hesapla_gercek_km3 : string -> option string -> option string -> Q.

(** The body of the loop [for plaka in aktif_...], after the test on
    [plaka_filtre]. *)
Definition arac_detayi (db : Db) (baslangic_tarihi bitis_tarihi : option string)
  (plaka : string) : Sonuc AracDetay :=
  let yakit_data := Tablolar.get_yakit_by_plaka db plaka in
  let suzulmus :=
    if Py.truthy baslangic_tarihi || Py.truthy bitis_tarihi
    then tarih_suz baslangic_tarihi bitis_tarihi yakit_data
    else Success yakit_data in
  match suzulmus with
  | Error m => Error m
  | Success yakit_data =>
      let toplam_yakit :=
        Py.sum (map (fun row => Py.float_or0 (y_yakit_miktari row)) yakit_data) in
      let yakit_alimlari := List.length yakit_data in
      let ortalama_yakit :=
        if (0 <? yakit_alimlari)%nat
        then toplam_yakit / inject_Z (Z.of_nat yakit_alimlari) else 0 in
      let toplam_km := hesapla_gercek_km3 plaka baslangic_tarihi bitis_tarihi in
      let tuketim :=
        if Py.Qltb 0 toplam_km then toplam_yakit / toplam_km * 100 else 0 in
      Success (mkAracDetay plaka toplam_yakit toplam_km ortalama_yakit
                 yakit_alimlari tuketim)
  end.

(** The loop [for plaka in aktif_...]: [continue] on a plate other than a
    requested one; the first exception ends it. *)
Fixpoint detaylari_topla (db : Db) (baslangic_tarihi bitis_tarihi plaka_filtre : option string)
  (aktif_araclar : list string) : Sonuc (list AracDetay) :=
  match aktif_araclar with
  | [] => Success []
  | plaka :: rest =>
      if Py.truthy plaka_filtre
         && negb (String.eqb plaka (match plaka_filtre with Some p => p | None => "" end))
      then detaylari_topla db baslangic_tarihi bitis_tarihi plaka_filtre rest
      else
        match arac_detayi db baslangic_tarihi bitis_tarihi plaka with
        | Error m => Error m
        | Success d =>
            match detaylari_topla db baslangic_tarihi bitis_tarihi plaka_filtre rest with
            | Success ds => Success (d :: ds)
            | Error m => Error m
            end
        end
  end.

(** The common body of [binek_arac_analizi] and [is_makinesi_analizi],
    from the list of active vehicles of the type.  [Error] stands for the
    handler that flashes the message and redirects to the index page. *)
Definition tip_analizi (arac_tipi : string) (aktif_araclar : list string) (db : Db)
  (baslangic_tarihi bitis_tarihi plaka_filtre : option string) : Sonuc TipSonuc :=
  match aktif_araclar with
  | [] => Success (mkTipSonuc [] 0 0 arac_tipi None)
  | _ =>
      match detaylari_topla db baslangic_tarihi bitis_tarihi plaka_filtre aktif_araclar with
      | Error m => Error m
      | Success arac_detaylari =>
          let toplam_yakit_genel := Py.sum (map d_toplam_yakit arac_detaylari) in
          let toplam_yakit_alimlari :=
            fold_left Nat.add (map d_yakit_alimlari arac_detaylari) 0%nat in
          Success
            (mkTipSonuc arac_detaylari (List.length arac_detaylari) toplam_yakit_genel
               arac_tipi
               (Some
                  (mkGrafik toplam_yakit_alimlari (Py.round toplam_yakit_genel 2)
                     (if (0 <? toplam_yakit_alimlari)%nat
                      then Py.round (toplam_yakit_genel
                                     / inject_Z (Z.of_nat toplam_yakit_alimlari)) 2
                      else 0)
                     (map d_plaka arac_detaylari)
                     (map (fun arac => Py.round (d_ortalama_yakit arac) 2) arac_detaylari))))
      end
  end.

(** [binek_arac_analizi()], on the fields of the form. *)
Definition binek_arac_analizi (db : Db) (baslangic_tarihi bitis_tarihi plaka_filtre : option string)
  (dahil_taseron : bool) : Sonuc TipSonuc :=
  tip_analizi "Binek Araç" (Tablolar.get_aktif_binek_araclar db dahil_taseron) db
    baslangic_tarihi bitis_tarihi plaka_filtre.

(** [is_makinesi_analizi()], on the fields of the form. *)
Definition is_makinesi_analizi (db : Db) (baslangic_tarihi bitis_tarihi plaka_filtre : option string)
  (dahil_taseron : bool) : Sonuc TipSonuc :=
  tip_analizi "İş Makinesi" (Tablolar.get_aktif_is_makineleri db dahil_taseron) db
    baslangic_tarihi bitis_tarihi plaka_filtre.

End Tip.

End TipAnalizi.

(** ** Uploads in batches ([api_veri_yukle], [upload_excel_to_supabase.py]) *)

Module Yukleme.

(** [range(0, stop, step)] for a positive [step]. *)
Definition py_range (stop step : nat) : list nat :=
  map (fun k => (k * step)%nat) (seq 0 ((stop + step - 1) / step)).

(** [records[i:j]]. *)
Definition slice {R : Type} (i j : nat) (records : list R) : list R :=
  firstn (j - i) (skipn i records).

(** The batches of the loop
    [for i in range(0, len(records), batch_size): batch = records[i:i+batch_size]]. *)
Definition batches {R : Type} (batch_size : nat) (records : list R) : list (list R) :=
  map (fun i => slice i (i + batch_size) records) (py_range (List.length records) batch_size).

(** The loop of [api_veri_yukle]: [basarili k] is what the [k]-th call of
    [supabase_insert_batch] returns. *)
Definition total_uploaded {R : Type} (basarili : nat -> bool) (records : list R) : nat :=
  fst (fold_left (fun st batch =>
                    let '(total, k) := st in
                    (if basarili k then (total + List.length batch)%nat else total, S k))
         (batches 100 records) (0%nat, 0%nat)).

(** [api_veri_yukle()]: [file] is the uploaded file, if any, as its name
    and the rows that pandas reads from it.  The success dictionary
    carries [uploaded].  The call of [record_processed_file], which only
    logs the upload, and a workbook that pandas cannot read are left out. *)
Definition api_veri_yukle {R : Type} (basarili : nat -> bool)
  (file : option (string * list R)) : Database.Sonuc nat :=
  match file with
  | None => Database.Error "Dosya seçilmedi"
  | Some (filename, records) =>
      if String.eqb filename ""
      then Database.Error "Dosya adı boş"
      else Database.Success (total_uploaded basarili records)
  end.

End Yukleme.

(** * Properties *)

Import Database.

(** ** Rationals and sums *)

Lemma Qltb_true (x y : Q) : Py.Qltb x y = true <-> x < y.
Proof.
  unfold Py.Qltb. rewrite negb_true_iff. split; intro H.
  - apply Qnot_le_lt. intro Hle. apply Qle_bool_iff in Hle. congruence.
  - destruct (Qle_bool y x) eqn:E; [|reflexivity].
    apply Qle_bool_iff in E. exfalso. exact (Qlt_not_le _ _ H E).
Qed.

Lemma Qltb_false (x y : Q) : Py.Qltb x y = false <-> y <= x.
Proof.
  unfold Py.Qltb. rewrite negb_false_iff. apply Qle_bool_iff.
Qed.

Lemma py_sum_from (l : list Q) (a : Q) : fold_left Qplus l a == a + Py.sum l.
Proof.
  unfold Py.sum. revert a. induction l as [|x l IH]; intro a; simpl.
  - ring.
  - rewrite (IH (a + x)), (IH (0 + x)). ring.
Qed.

Lemma py_sum_cons (x : Q) (l : list Q) : Py.sum (x :: l) == x + Py.sum l.
Proof.
  unfold Py.sum at 1. simpl. rewrite py_sum_from. ring.
Qed.

(** ** Stable sorting: a sorted permutation *)

Section SortFacts.
Context {A : Type} (leb : A -> A -> bool).
Hypothesis leb_total : forall a b, leb a b = false -> leb b a = true.

Local Abbreviation le := (fun a b : A => leb a b = true).

Lemma insert_perm (x : A) (l : list A) : Permutation (Stable.insert leb x l) (x :: l).
Proof.
  induction l as [|y l IH]; simpl.
  - apply Permutation_refl.
  - destruct (leb y x).
    + apply perm_trans with (y :: x :: l).
      * apply perm_skip, IH.
      * apply perm_swap.
    + apply Permutation_refl.
Qed.

Lemma insert_hdrel (a x : A) (l : list A) :
  le a x -> HdRel le a l -> HdRel le a (Stable.insert leb x l).
Proof.
  intros Hax Hl. destruct l as [|y l]; simpl.
  - constructor. exact Hax.
  - destruct (leb y x); constructor.
    + inversion Hl; assumption.
    + exact Hax.
Qed.

Lemma insert_sorted (x : A) (l : list A) :
  Sorted le l -> Sorted le (Stable.insert leb x l).
Proof.
  induction 1 as [|y l Hs IH Hh]; simpl.
  - repeat constructor.
  - destruct (leb y x) eqn:E.
    + constructor; [exact IH|]. apply insert_hdrel; assumption.
    + constructor.
      * constructor; assumption.
      * constructor. apply leb_total, E.
Qed.

Lemma sort_from_perm (l acc : list A) :
  Permutation (fold_left (fun acc x => Stable.insert leb x acc) l acc) (acc ++ l).
Proof.
  revert acc. induction l as [|x l IH]; intro acc; simpl.
  - rewrite app_nil_r. apply Permutation_refl.
  - eapply perm_trans; [apply IH|].
    eapply perm_trans; [apply Permutation_app_tail, insert_perm|].
    simpl. apply Permutation_middle.
Qed.

Lemma sort_from_sorted (l acc : list A) :
  Sorted le acc -> Sorted le (fold_left (fun acc x => Stable.insert leb x acc) l acc).
Proof.
  revert acc. induction l as [|x l IH]; intros acc Hacc; simpl.
  - exact Hacc.
  - apply IH, insert_sorted, Hacc.
Qed.

Lemma sort_perm (l : list A) : Permutation (Stable.sort leb l) l.
Proof. apply (sort_from_perm l []). Qed.

Lemma sort_sorted (l : list A) : Sorted le (Stable.sort leb l).
Proof. apply sort_from_sorted. constructor. Qed.

End SortFacts.

(** ** The distance reconstructor *)

Lemma text_compare_antisym (a b : option string) :
  Sql.text_compare a b = CompOpp (Sql.text_compare b a).
Proof.
  destruct a as [x|], b as [y|]; simpl; try reflexivity.
  apply String.compare_antisym.
Qed.

Lemma tarih_id_leb_total (r1 r2 : Yakit) :
  tarih_id_leb r1 r2 = false -> tarih_id_leb r2 r1 = true.
Proof.
  unfold tarih_id_leb.
  rewrite (text_compare_antisym (y_islem_tarihi r2) (y_islem_tarihi r1)).
  destruct (Sql.text_compare (y_islem_tarihi r1) (y_islem_tarihi r2)); simpl;
    intro H; try reflexivity; try discriminate.
  apply Z.leb_le. apply Z.leb_gt in H. lia.
Qed.

(** The loop, started with a previous reading, adds the positive deltas
    of the readings that follow it. *)
Lemma km_adimi_fold (rows : list Q) (toplam onceki : Q) :
  fst (fold_left km_adimi rows (toplam, Some onceki))
  == toplam + Spec.positive_deltas (onceki :: rows).
Proof.
  revert toplam onceki. induction rows as [|km rows IH]; intros toplam onceki.
  - simpl. ring.
  - cbn [fold_left km_adimi].
    change (Spec.positive_deltas (onceki :: km :: rows))
      with ((if Py.Qltb 0 (km - onceki) then km - onceki else 0)
            + Spec.positive_deltas (km :: rows)).
    destruct (Py.Qltb 0 (km - onceki)); rewrite IH; ring.
Qed.

(** The loop leaves the last reading in [onceki_km]. *)
Lemma km_adimi_last (rows : list Q) (km : Q) (st : Q * option Q) :
  snd (fold_left km_adimi (rows ++ [km]) st) = Some km.
Proof.
  rewrite fold_left_app. simpl.
  destruct (fold_left km_adimi rows st) as [t [o|]]; simpl;
    [destruct (Py.Qltb 0 (km - o))|]; reflexivity.
Qed.

Lemma ardisik_farklar_spec (rows : list Q) :
  ardisik_farklar rows == Spec.positive_deltas rows.
Proof.
  destruct rows as [|a [|b rows]]; try reflexivity.
  unfold ardisik_farklar.
  change (List.length (a :: b :: rows) <? 2)%nat with false.
  cbn [fold_left]. change (km_adimi (0, None) a) with (0, Some a).
  rewrite (km_adimi_fold (b :: rows) 0 a). ring.
Qed.

Lemma positive_deltas_nonneg (rows : list Q) : 0 <= Spec.positive_deltas rows.
Proof.
  induction rows as [|a rows IH]; [apply Qle_refl|].
  destruct rows as [|b rows]; [apply Qle_refl|].
  change (Spec.positive_deltas (a :: b :: rows))
    with ((if Py.Qltb 0 (b - a) then b - a else 0) + Spec.positive_deltas (b :: rows)).
  destruct (Py.Qltb 0 (b - a)) eqn:E.
  - apply Qltb_true in E. lra.
  - lra.
Qed.

(** Appending one reading adds its delta from the last one when that
    delta is positive, and nothing otherwise. *)
Lemma ardisik_farklar_snoc (rows : list Q) (son km : Q) :
  ardisik_farklar ((rows ++ [son]) ++ [km])
  == ardisik_farklar (rows ++ [son]) + (if Py.Qltb 0 (km - son) then km - son else 0).
Proof.
  destruct rows as [|a rows].
  - unfold ardisik_farklar. simpl. destruct (Py.Qltb 0 (km - son)); ring.
  - assert (L1 : (List.length (((a :: rows) ++ [son]) ++ [km]) <? 2)%nat = false).
    { apply Nat.ltb_ge. rewrite !length_app. simpl. lia. }
    assert (L2 : (List.length ((a :: rows) ++ [son]) <? 2)%nat = false).
    { apply Nat.ltb_ge. rewrite !length_app. simpl. lia. }
    unfold ardisik_farklar. rewrite L1, L2.
    rewrite (fold_left_app km_adimi ((a :: rows) ++ [son]) [km]).
    pose proof (km_adimi_last (a :: rows) son (0, None)) as Hl.
    destruct (fold_left km_adimi ((a :: rows) ++ [son]) (0, None)) as [t o].
    simpl in Hl. subst o. simpl.
    destruct (Py.Qltb 0 (km - son)); simpl; ring.
Qed.

(** C1. For every plate, [hesapla_gercek_km] works on the plate's fuel
    records with a present, positive odometer reading, taken by ascending
    date with the insertion id as tie-break, and returns the sum of exactly
    the positive consecutive differences of their readings: a non-positive
    difference adds nothing while its reading is the next [prev].  With
    fewer than two such records the result is 0, and the readings
    [100, 250, 50, 300] give 400. *)
Theorem hesapla_gercek_km_positive_deltas (db : Db) (plaka : string) :
  let rows := km_satirlari db plaka in
  Permutation rows (filter (km_kaydi plaka) (yakit db))
  /\ Sorted (fun r1 r2 => tarih_id_leb r1 r2 = true) rows
  /\ Forall (fun r => exists km, y_km_bilgisi r = Some km /\ 0 < km /\ row_km r = km) rows
  /\ hesapla_gercek_km db plaka == Spec.positive_deltas (map row_km rows)
  /\ ((List.length rows < 2)%nat -> hesapla_gercek_km db plaka = 0)
  /\ ardisik_farklar [100; 250; 50; 300] == 400.
Proof.
  intro rows.
  assert (HP : Permutation rows (filter (km_kaydi plaka) (yakit db)))
    by apply sort_perm.
  split; [exact HP|].
  split; [apply sort_sorted, tarih_id_leb_total|].
  split.
  { apply Forall_forall. intros r Hr.
    apply (Permutation_in _ HP) in Hr. apply filter_In in Hr as [_ Hk].
    unfold km_kaydi in Hk. apply andb_true_iff in Hk as [_ Hk].
    unfold Sql.not_null_gt0 in Hk. unfold row_km.
    destruct (y_km_bilgisi r) as [km|]; [|discriminate].
    exists km. repeat split. apply Qltb_true, Hk. }
  split; [apply ardisik_farklar_spec|].
  split; [|reflexivity].
  intro Hlen. unfold hesapla_gercek_km, ardisik_farklar.
  fold rows. rewrite length_map.
  apply Nat.ltb_lt in Hlen. rewrite Hlen. reflexivity.
Qed.

Lemma hesapla_gercek_km_positive_deltas_witness :
  (List.length (km_satirlari Ornek.db_46AJH283 "34ABC01") < 2)%nat
  /\ hesapla_gercek_km Ornek.db_46AJH283 "34ABC01" = 0
  /\ hesapla_gercek_km Ornek.db_46AJH283 "46AJH283" == 450.
Proof.
  destruct (hesapla_gercek_km_positive_deltas Ornek.db_46AJH283 "34ABC01")
    as (_ & _ & _ & _ & H & _).
  destruct (hesapla_gercek_km_positive_deltas Ornek.db_46AJH283 "46AJH283")
    as (_ & _ & _ & H' & _).
  assert (L : (List.length (km_satirlari Ornek.db_46AJH283 "34ABC01") < 2)%nat).
  { vm_compute. lia. }
  split; [exact L|]. split; [exact (H L)|].
  rewrite H'. reflexivity.
Defined.

(** C9. Appending, after a sequence of readings, a reading whose delta from
    the last one is positive adds exactly that delta to the reconstructed
    distance, so the distance does not decrease. *)
Theorem ardisik_farklar_monotone (rows : list Q) (son km : Q) :
  0 < km - son ->
  ardisik_farklar ((rows ++ [son]) ++ [km]) == ardisik_farklar (rows ++ [son]) + (km - son)
  /\ ardisik_farklar (rows ++ [son]) <= ardisik_farklar ((rows ++ [son]) ++ [km]).
Proof.
  intro Hpos.
  pose proof (ardisik_farklar_snoc rows son km) as H.
  apply Qltb_true in Hpos. rewrite Hpos in H. apply Qltb_true in Hpos.
  split; [exact H|]. rewrite H. lra.
Qed.

Lemma ardisik_farklar_monotone_witness :
  0 < 300 - 50
  /\ ardisik_farklar (([100; 250] ++ [50]) ++ [300])
     == ardisik_farklar ([100; 250] ++ [50]) + (300 - 50)
  /\ ardisik_farklar ([100; 250] ++ [50]) <= ardisik_farklar (([100; 250] ++ [50]) ++ [300]).
Proof.
  assert (H : 0 < 300 - 50) by reflexivity.
  split; [exact H|]. exact (ardisik_farklar_monotone [100; 250] 50 300 H).
Defined.

(** ** Accounting: profit, margin and order *)

Lemma Sorted_weaken {A : Type} (R R' : A -> A -> Prop) (l : list A) :
  (forall a b, R a b -> R' a b) -> Sorted R l -> Sorted R' l.
Proof.
  intros HR. induction 1 as [|a l Hs IH Hh]; constructor.
  - exact IH.
  - destruct Hh; constructor. apply HR. assumption.
Qed.

Lemma net_kar_azalan_total (x y : PlakaBazli) :
  net_kar_azalan x y = false -> net_kar_azalan y x = true.
Proof.
  unfold net_kar_azalan. intro H. apply Qle_bool_iff.
  destruct (Qlt_le_dec (pb_net_kar x) (pb_net_kar y)) as [Hlt|Hle].
  - apply Qlt_le_weak, Hlt.
  - apply Qle_bool_iff in Hle. congruence.
Qed.

Lemma marj_positive (net gelir : Q) : 0 < gelir -> marj net gelir = net / gelir * 100.
Proof.
  intro H. unfold marj. apply Qltb_true in H. rewrite H. reflexivity.
Qed.

Lemma marj_zero (net gelir : Q) : gelir <= 0 -> marj net gelir = 0.
Proof.
  intro H. unfold marj. apply Qltb_false in H. rewrite H. reflexivity.
Qed.

Lemma plaka_satiri_ok (pv : string * PlakaVeri) : Spec.entry_ok (plaka_satiri pv).
Proof.
  unfold Spec.entry_ok, plaka_satiri. cbn [pb_net_kar pb_gelir pb_gider pb_kar_marji].
  split; [reflexivity|]. split; intro H.
  - rewrite (marj_positive _ _ H). reflexivity.
  - rewrite (marj_zero _ _ H). reflexivity.
Qed.

(** [get_muhasebe_data] fails only on a store without the table [araclar]. *)
Lemma get_muhasebe_data_success (db : Db) (b e plaka : option string) :
  araclar db <> None -> exists m, get_muhasebe_data db b e plaka = Success m.
Proof.
  intro H. unfold get_muhasebe_data. destruct (araclar db); [|congruence].
  eexists. reflexivity.
Qed.

(** C4. In every result of [get_muhasebe_data] that is not an error, the
    net profit is the total revenue minus the total cost; the profit
    margin is net profit / revenue * 100 when the revenue is positive and
    0 when the revenue is 0 (or below), for the fleet and for each entry of
    the per-plate list; and that list is in descending order of net
    profit. *)
Theorem get_muhasebe_data_profit (db : Db) (b e plaka : option string) (m : Muhasebe) :
  get_muhasebe_data db b e plaka = Success m ->
  net_kar m == toplam_gelir m - toplam_gider m
  /\ (0 < toplam_gelir m -> kar_marji m == net_kar m / toplam_gelir m * 100)
  /\ (toplam_gelir m <= 0 -> kar_marji m == 0)
  /\ Forall Spec.entry_ok (plaka_bazli m)
  /\ StronglySorted (fun x y => pb_net_kar y <= pb_net_kar x) (plaka_bazli m).
Proof.
  unfold get_muhasebe_data. destruct (araclar db) as [vs|]; [|discriminate].
  intro H. injection H as <-.
  cbn [net_kar toplam_gelir toplam_gider kar_marji plaka_bazli].
  split; [reflexivity|].
  split; [intro Hp; rewrite (marj_positive _ _ Hp); reflexivity|].
  split; [intro Hz; rewrite (marj_zero _ _ Hz); reflexivity|].
  split.
  - apply Forall_forall. intros x Hx.
    apply (Permutation_in _ (sort_perm net_kar_azalan _)) in Hx.
    apply in_map_iff in Hx as [pv [<- _]]. apply plaka_satiri_ok.
  - apply Sorted_StronglySorted.
    + intros x y z Hxy Hyz. apply Qle_trans with (pb_net_kar y); assumption.
    + apply Sorted_weaken with (R := fun x y => net_kar_azalan x y = true).
      * intros x y Hxy. apply Qle_bool_iff, Hxy.
      * apply sort_sorted, net_kar_azalan_total.
Qed.

Lemma get_muhasebe_data_profit_witness :
  exists m,
    get_muhasebe_data Ornek.db_adet None None None = Success m
    /\ net_kar m == toplam_gelir m - toplam_gider m
    /\ Forall Spec.entry_ok (plaka_bazli m)
    /\ StronglySorted (fun x y => pb_net_kar y <= pb_net_kar x) (plaka_bazli m).
Proof.
  eexists. split; [reflexivity|].
  destruct (get_muhasebe_data_profit Ornek.db_adet None None None _ eq_refl)
    as (H1 & _ & _ & H2 & H3).
  split; [exact H1|]. split; [exact H2|exact H3].
Defined.

(** ** Date ranges with a missing endpoint *)

Lemma tarih_params_missing (b e : option string) :
  Py.truthy b = false \/ Py.truthy e = false -> tarih_params b e = None.
Proof.
  intros [H|H]; unfold tarih_params; destruct b, e; try reflexivity;
    rewrite H; try reflexivity.
  rewrite andb_false_r. reflexivity.
Qed.

(** C10. When a date range lacks an endpoint - a start date without an end
    date, or an end date without a start date - [get_muhasebe_data] returns
    what it returns without any date, and every amount in the result of
    [get_arac_performans_analizi] is the one computed without any date:
    only the two date labels echoed in that result differ. *)
Theorem one_sided_date_range_ignored (db : Db) (b e : option string)
  (plaka_m : option string) (plaka : string) :
  Py.truthy b = false \/ Py.truthy e = false ->
  get_muhasebe_data db b e plaka_m = get_muhasebe_data db None None plaka_m
  /\ exists r0,
      get_arac_performans_analizi db plaka None None = Success r0
      /\ get_arac_performans_analizi db plaka b e
         = Success
             (mkPerformans (p_plaka r0)
                (str_or b "Başlangıç") (str_or e "Bugün")
                (p_toplam_yakit r0) (p_toplam_km r0) (p_sefer_sayisi r0)
                (p_ort_yakit_sefer r0) (p_ort_birim_fiyat r0) (p_toplam_maliyet r0)
                (p_toplam_tonaj r0) (p_yuklenme_sayisi r0) (p_ort_tonaj_yuklenme r0)
                (p_yakit_km_orani r0) (p_km_basina_maliyet r0)
                (p_ton_basina_yakit r0) (p_verimlilik_skoru r0)).
Proof.
  intro H. pose proof (tarih_params_missing b e H) as Hp.
  split.
  - unfold get_muhasebe_data. rewrite Hp. reflexivity.
  - eexists. split; [reflexivity|].
    unfold get_arac_performans_analizi. rewrite Hp. reflexivity.
Qed.

Lemma one_sided_date_range_ignored_witness :
  get_muhasebe_data Ornek.db_adet (Some "2024-01-02"%string) None None
  = get_muhasebe_data Ornek.db_adet None None None
  /\ get_muhasebe_data Ornek.db_adet (Some ""%string) (Some "2024-01-01"%string) None
     = get_muhasebe_data Ornek.db_adet None None None.
Proof.
  split.
  - apply (one_sided_date_range_ignored Ornek.db_adet (Some "2024-01-02"%string) None
             None "34ABC01"). right. reflexivity.
  - apply (one_sided_date_range_ignored Ornek.db_adet (Some ""%string)
             (Some "2024-01-01"%string) None "34ABC01"). left. reflexivity.
Defined.

(** ** SQL aggregates as sums *)

Lemma sql_sum_from (col : list (option Q)) (acc : option Q) :
  Py.float_or0
    (fold_left (fun acc v =>
                  match v with
                  | None => acc
                  | Some q => Some (match acc with Some a => a + q | None => q end)
                  end) col acc)
  == Py.float_or0 acc + Py.sum (map Py.float_or0 col).
Proof.
  revert acc. induction col as [|v col IH]; intro acc.
  - simpl. unfold Py.sum. simpl. ring.
  - cbn [fold_left map]. rewrite IH, py_sum_cons.
    destruct v as [q|], acc as [a|]; simpl; ring.
Qed.

Lemma sql_sum_float (col : list (option Q)) :
  Py.float_or0 (Sql.sum col) == Py.sum (map Py.float_or0 col).
Proof.
  unfold Sql.sum. rewrite sql_sum_from. simpl. ring.
Qed.

Lemma py_sum_nonneg (l : list Q) : Forall (fun x => 0 <= x) l -> 0 <= Py.sum l.
Proof.
  induction 1 as [|x l Hx _ IH].
  - apply Qle_refl.
  - rewrite py_sum_cons. lra.
Qed.

(** ** Vehicle performance *)

Lemma performans_toplam_yakit_nonneg (db : Db) (plaka : string)
  (tp : option (string * string)) (ag : list Agirlik) :
  0 <= h_toplam_yakit (hesaplamalar (performans_yakit db plaka tp) ag).
Proof.
  cbn [hesaplamalar h_toplam_yakit]. rewrite sql_sum_float.
  apply py_sum_nonneg. apply Forall_forall. intros x Hx.
  apply in_map_iff in Hx as [o [<- Ho]].
  apply in_map_iff in Ho as [y [<- Hy]].
  apply filter_In in Hy as [_ Hy].
  apply andb_true_iff in Hy as [_ Hy].
  unfold Sql.not_null_gt0 in Hy.
  destruct (y_yakit_miktari y) as [q|]; [|discriminate].
  simpl. apply Qlt_le_weak, Qltb_true, Hy.
Qed.

Lemma round_zero (nd : nat) : Py.round 0 nd == 0.
Proof.
  unfold Py.round.
  assert (E : 0 * inject_Z (10 ^ Z.of_nat nd) == 0) by ring.
  assert (F : Qfloor (0 * inject_Z (10 ^ Z.of_nat nd)) = 0%Z).
  { rewrite E. reflexivity. }
  rewrite F.
  assert (G : Py.Qltb (0 * inject_Z (10 ^ Z.of_nat nd) - inject_Z 0) (1 # 2) = true).
  { apply Qltb_true. rewrite E. reflexivity. }
  rewrite G. unfold Qdiv. change (inject_Z 0) with 0. ring.
Qed.

(** C8, as the code has it. [get_arac_performans_analizi] always succeeds.
    Its fuel-per-distance ratio, cost per distance, tonnage-per-fuel ratio
    and efficiency score are the roundings (to 3, 2, 2 and 2 decimals) of
    amounts computed from the unrounded totals: total fuel / total distance
    and total cost / total distance when the total distance is positive,
    both exactly 0 when it is 0 (or below); (total tonnage / 1000) / total
    fuel when the total fuel is positive; and the unrounded ratio times
    100 for the score. *)
Theorem performans_ratios_rounded (db : Db) (plaka : string) (b e : option string) :
  let tp := tarih_params b e in
  let h := hesaplamalar (performans_yakit db plaka tp) (performans_agirlik db plaka tp) in
  exists r,
    get_arac_performans_analizi db plaka b e = Success r
    /\ p_yakit_km_orani r = Py.round (h_yakit_km_orani h) 3
    /\ p_km_basina_maliyet r = Py.round (h_km_basina_maliyet h) 2
    /\ p_ton_basina_yakit r = Py.round (h_ton_basina_yakit h) 2
    /\ p_verimlilik_skoru r = Py.round (h_verimlilik_skoru h) 2
    /\ (0 < h_toplam_km h ->
        h_yakit_km_orani h == h_toplam_yakit h / h_toplam_km h
        /\ h_km_basina_maliyet h == h_toplam_maliyet h / h_toplam_km h)
    /\ (h_toplam_km h <= 0 ->
        h_yakit_km_orani h = 0 /\ h_km_basina_maliyet h = 0
        /\ p_yakit_km_orani r == 0 /\ p_km_basina_maliyet r == 0)
    /\ (0 < h_toplam_yakit h ->
        h_ton_basina_yakit h == (h_toplam_tonaj h / 1000) / h_toplam_yakit h)
    /\ h_verimlilik_skoru h == h_yakit_km_orani h * 100.
Proof.
  intros tp h. eexists. split; [reflexivity|].
  cbn [p_yakit_km_orani p_km_basina_maliyet p_ton_basina_yakit p_verimlilik_skoru].
  fold tp. fold h.
  pose proof (performans_toplam_yakit_nonneg db plaka tp (performans_agirlik db plaka tp))
    as Hyakit.
  fold h in Hyakit.
  assert (Hpos : 0 < h_toplam_km h ->
                 h_yakit_km_orani h = h_toplam_yakit h / h_toplam_km h
                 /\ h_km_basina_maliyet h = h_toplam_maliyet h / h_toplam_km h).
  { intro Hk. apply Qltb_true in Hk.
    cbn [h hesaplamalar h_yakit_km_orani h_km_basina_maliyet h_toplam_km
           h_toplam_yakit h_toplam_maliyet] in Hk |- *.
    rewrite Hk. split; reflexivity. }
  assert (Hzero : h_toplam_km h <= 0 ->
                  h_yakit_km_orani h = 0 /\ h_km_basina_maliyet h = 0).
  { intro Hk. apply Qltb_false in Hk.
    cbn [h hesaplamalar h_yakit_km_orani h_km_basina_maliyet h_toplam_km] in Hk |- *.
    rewrite Hk. split; reflexivity. }
  repeat split; try reflexivity.
  - destruct (Hpos H) as [-> _]. reflexivity.
  - destruct (Hpos H) as [_ ->]. reflexivity.
  - apply Hzero, H.
  - apply Hzero, H.
  - destruct (Hzero H) as [-> _]. apply round_zero.
  - destruct (Hzero H) as [_ ->]. apply round_zero.
  - intro Hy. apply Qltb_true in Hy.
    cbn [h hesaplamalar h_ton_basina_yakit h_toplam_yakit h_toplam_tonaj] in Hy |- *.
    rewrite Hy. reflexivity.
  - assert (Hs : h_verimlilik_skoru h
                 = if Py.Qltb 0 (h_yakit_km_orani h) then h_yakit_km_orani h * 100 else 0)
      by reflexivity.
    rewrite Hs. destruct (Py.Qltb 0 (h_yakit_km_orani h)) eqn:E; [reflexivity|].
    apply Qltb_false in E.
    destruct (Qlt_le_dec 0 (h_toplam_km h)) as [Hk|Hk].
    + destruct (Hpos Hk) as [Hr _]. rewrite Hr in E |- *.
      assert (Hq : 0 <= h_toplam_yakit h / h_toplam_km h).
      { apply Qle_shift_div_l; [exact Hk|]. lra. }
      assert (Hz : h_toplam_yakit h / h_toplam_km h == 0) by lra.
      rewrite Hz. ring.
    + destruct (Hzero Hk) as [-> _]. ring.
Qed.

Lemma performans_ratios_rounded_witness :
  let h := hesaplamalar (performans_yakit Ornek.db_ucte_bir "34ABC01" None)
             (performans_agirlik Ornek.db_ucte_bir "34ABC01" None) in
  0 < h_toplam_km h
  /\ h_yakit_km_orani h == h_toplam_yakit h / h_toplam_km h
  /\ h_verimlilik_skoru h == h_yakit_km_orani h * 100.
Proof.
  intro h.
  destruct (performans_ratios_rounded Ornek.db_ucte_bir "34ABC01" None None)
    as [r (_ & _ & _ & _ & _ & Hpos & _ & _ & Hs)].
  assert (Hk : 0 < h_toplam_km h) by reflexivity.
  split; [exact Hk|]. split; [apply (Hpos Hk)|exact Hs].
Defined.

(** C8, as the specification words it, fails on one fill-up of 1 litre at
    an odometer reading of 3: the result carries the ratio 0.333, not 1/3,
    and the score 33.33, not 0.333 * 100. *)
Lemma performance_ratios_counterexample :
  exists r,
    get_arac_performans_analizi Ornek.db_ucte_bir "34ABC01" None None = Success r
    /\ p_toplam_yakit r == 1 /\ p_toplam_km r == 3
    /\ p_yakit_km_orani r == 333 # 1000
    /\ p_verimlilik_skoru r == 3333 # 100
    /\ ~ Spec.performance_ratios r.
Proof.
  eexists. split; [reflexivity|].
  repeat split; try reflexivity.
  intros [H _].
  assert (Hk : 0 < 3) by reflexivity.
  destruct (H Hk) as [H1 _]. vm_compute in H1. discriminate H1.
Qed.

(** C3, at a plate with two fill-ups at odometers 100 and 250: the total
    distance of [get_arac_performans_analizi] is [SUM(km_bilgisi)], the sum
    350 of the readings, while the reconstruction gives 150. *)
Lemma performans_toplam_km_is_reading_sum :
  exists r,
    get_arac_performans_analizi Ornek.db_iki_dolum "34ABC01" None None = Success r
    /\ p_toplam_km r == 350
    /\ p_yakit_km_orani r == Py.round (20 / 350) 3
    /\ hesapla_gercek_km Ornek.db_iki_dolum "34ABC01" == 150.
Proof.
  eexists. split; [reflexivity|].
  split; [reflexivity|]. split; reflexivity.
Qed.

(** Whatever the store, the distance column of the performance query is
    the sum of the odometer readings of the plate's fill-ups. *)
Lemma performans_toplam_km_sum (db : Db) (plaka : string) (tp : option (string * string))
  (ag : list Agirlik) :
  h_toplam_km (hesaplamalar (performans_yakit db plaka tp) ag)
  == Py.sum (map (fun y => Py.float_or0 (y_km_bilgisi y)) (performans_yakit db plaka tp)).
Proof.
  cbn [hesaplamalar h_toplam_km]. rewrite sql_sum_float, map_map. reflexivity.
Qed.

Lemma filter_filter_andb {A : Type} (f g : A -> bool) (l : list A) :
  filter f (filter g l) = filter (fun x => f x && g x) l.
Proof.
  induction l as [|x l IH]; [reflexivity|]. cbn [filter].
  destruct (g x); cbn [filter]; rewrite ?andb_true_r, ?andb_false_r, IH; reflexivity.
Qed.

(** Without dates the specification's reconstruction is the code's. *)
Lemma hesapla_gercek_km_all_dates (db : Db) (plaka : string) :
  hesapla_gercek_km db plaka == Spec.true_distance db plaka None None.
Proof.
  unfold hesapla_gercek_km, Spec.true_distance, km_satirlari.
  rewrite ardisik_farklar_spec.
  assert (E : forall l : list Yakit,
             filter (fun r => km_kaydi plaka r && Spec.in_range None None (y_islem_tarihi r)) l
             = filter (km_kaydi plaka) l).
  { intro l. apply filter_ext. intro r. unfold Spec.in_range.
    destruct (y_islem_tarihi r); rewrite ?andb_true_r; reflexivity. }
  rewrite E. reflexivity.
Qed.

(** C2, on the distance function that [app.py] calls with a plate and
    both dates, modelled from section 4.1 of the specification.  Both
    dates are optional: without them the function is the reconstruction of
    [hesapla_gercek_km].  With them it is that reconstruction computed over
    the fuel records whose date lies in the range, and a record whose date
    lies outside the range contributes nothing, wherever it stands in the
    table.  The range includes both ends: a date is in it exactly when it
    is neither before the start date nor after the end date. *)
Theorem hesapla_gercek_km_date_range (db : Db) (plaka : string)
  (baslangic bitis : option string) :
  Eksik.hesapla_gercek_km db plaka None None = hesapla_gercek_km db plaka
  /\ Eksik.hesapla_gercek_km db plaka baslangic bitis
     = hesapla_gercek_km
          (mkDb (filter (fun r => Spec.in_range baslangic bitis (y_islem_tarihi r))
                   (yakit db))
             (agirlik db) (araclar db)) plaka
  /\ (forall once r sonra,
         yakit db = once ++ r :: sonra ->
         Spec.in_range baslangic bitis (y_islem_tarihi r) = false ->
         Eksik.hesapla_gercek_km db plaka baslangic bitis
         = Eksik.hesapla_gercek_km (mkDb (once ++ sonra) (agirlik db) (araclar db))
             plaka baslangic bitis)
  /\ (forall s e d : string,
         Spec.in_range (Some s) (Some e) (Some d) = true
         <-> String.leb s d = true /\ String.leb d e = true)
  /\ (forall s e : string,
         String.leb s e = true ->
         Spec.in_range (Some s) (Some e) (Some s) = true
         /\ Spec.in_range (Some s) (Some e) (Some e) = true).
Proof.
  split; [|split; [|split; [|split]]].
  - unfold Eksik.hesapla_gercek_km, hesapla_gercek_km, km_satirlari.
    assert (E : filter (fun r => km_kaydi plaka r
                                 && Spec.in_range None None (y_islem_tarihi r)) (yakit db)
                = filter (km_kaydi plaka) (yakit db)).
    { apply filter_ext. intro r. unfold Spec.in_range.
      destruct (y_islem_tarihi r); rewrite ?andb_true_r; reflexivity. }
    rewrite E. reflexivity.
  - unfold Eksik.hesapla_gercek_km, hesapla_gercek_km, km_satirlari. cbn [yakit].
    rewrite filter_filter_andb. reflexivity.
  - intros once r sonra E Hr. unfold Eksik.hesapla_gercek_km. cbn [yakit]. rewrite E.
    rewrite !filter_app. cbn [filter]. rewrite Hr, andb_false_r. reflexivity.
  - intros s e d. unfold Spec.in_range. apply andb_true_iff.
  - intros s e H. unfold Spec.in_range. rewrite H.
    assert (R : forall x : string, String.leb x x = true).
    { intro x. destruct (String.leb_total x x); assumption. }
    rewrite !R. split; reflexivity.
Qed.

Lemma hesapla_gercek_km_date_range_witness :
  Eksik.hesapla_gercek_km Ornek.db_dort_gun "34ABC01"
    (Some "2024-01-02"%string) (Some "2024-01-03"%string) == 100
  /\ Eksik.hesapla_gercek_km Ornek.db_dort_gun "34ABC01"
       (Some "2024-01-02"%string) (Some "2024-01-03"%string)
     = Eksik.hesapla_gercek_km
         (mkDb ([ Ornek.yakit_satiri 1 "34ABC01" "2024-01-01" 10 400 100;
                  Ornek.yakit_satiri 2 "34ABC01" "2024-01-02" 10 400 200;
                  Ornek.yakit_satiri 3 "34ABC01" "2024-01-03" 10 400 300 ] ++ [])
            [] None)
         "34ABC01" (Some "2024-01-02"%string) (Some "2024-01-03"%string)
  /\ hesapla_gercek_km Ornek.db_dort_gun "34ABC01" == 400.
Proof.
  split; [reflexivity|]. split; [|reflexivity].
  apply (proj1 (proj2 (proj2 (hesapla_gercek_km_date_range Ornek.db_dort_gun "34ABC01"
                                (Some "2024-01-02"%string) (Some "2024-01-03"%string))))
           [ Ornek.yakit_satiri 1 "34ABC01" "2024-01-01" 10 400 100;
             Ornek.yakit_satiri 2 "34ABC01" "2024-01-02" 10 400 200;
             Ornek.yakit_satiri 3 "34ABC01" "2024-01-03" 10 400 300 ]
           (Ornek.yakit_satiri 4 "34ABC01" "2024-01-04" 10 400 500) []);
    reflexivity.
Defined.

(** ** The missing or empty vehicle table *)

Lemma flat_map_singleton {A : Type} (l : list A) : flat_map (fun x => [x]) l = l.
Proof.
  induction l as [|x l IH]; simpl; [reflexivity|]. rewrite IH. reflexivity.
Qed.

(** [get_yakit_data] falls back to all of [yakit]. *)
Lemma get_yakit_data_fallback (db : Db) :
  araclar db = None \/ araclar db = Some [] -> get_yakit_data db = yakit db.
Proof.
  intros [H|H]; unfold get_yakit_data; rewrite H; [reflexivity|].
  simpl. apply flat_map_singleton.
Qed.

Lemma inner_join_nil {R : Type} (plaka_of : R -> option string) (rows : list R) :
  inner_join plaka_of rows [] = [].
Proof.
  unfold inner_join. induction rows as [|r rows IH]; simpl; [reflexivity|exact IH].
Qed.

(** [get_muhasebe_data] does not: no table is an error. *)
Lemma get_muhasebe_data_no_table (db : Db) (b e plaka : option string) :
  araclar db = None ->
  get_muhasebe_data db b e plaka = Error "no such table: araclar".
Proof.
  intro H. unfold get_muhasebe_data. rewrite H. reflexivity.
Qed.

(** An empty table is an empty report, whatever the records. *)
Lemma get_muhasebe_data_empty_table (db : Db) (b e plaka : option string) :
  araclar db = Some [] ->
  get_muhasebe_data db b e plaka = Success (mkMuhasebe 0 0 (0 - 0) 0 []).
Proof.
  intro H. unfold get_muhasebe_data. rewrite H.
  unfold yakit_query, agirlik_query. rewrite !inner_join_nil. reflexivity.
Qed.

(** The reconstruction and the performance analysis never read [araclar]:
    they work on the raw records whatever that table holds. *)
Lemma araclar_not_consulted (y : list Yakit) (g : list Agirlik)
  (vs vs' : option (list Arac)) (plaka : string) (b e : option string) :
  hesapla_gercek_km (mkDb y g vs) plaka = hesapla_gercek_km (mkDb y g vs') plaka
  /\ get_arac_performans_analizi (mkDb y g vs) plaka b e
     = get_arac_performans_analizi (mkDb y g vs') plaka b e.
Proof. split; reflexivity. Qed.

(** C6, at a store with fuel and weight records of plate 34ABC01: without
    the table [araclar], [get_muhasebe_data] reports an error; with an
    empty table it reports no plate and totals of 0; [get_yakit_data]
    returns every fuel row in both cases. *)
Lemma get_muhasebe_data_no_fallback :
  get_muhasebe_data Ornek.db_araclar_yok None None None = Error "no such table: araclar"
  /\ get_muhasebe_data Ornek.db_araclar_bos None None None
     = Success (mkMuhasebe 0 0 (0 - 0) 0 [])
  /\ get_yakit_data Ornek.db_araclar_yok = yakit Ornek.db_araclar_yok
  /\ get_yakit_data Ornek.db_araclar_bos = yakit Ornek.db_araclar_bos
  /\ List.length (yakit Ornek.db_araclar_bos) = 1%nat
  /\ List.length (agirlik Ornek.db_araclar_bos) = 2%nat.
Proof.
  repeat split; reflexivity.
Qed.

(** ** The comparison endpoint *)

Lemma round_compat (x y : Q) (nd : nat) : x == y -> Py.round x nd == Py.round y nd.
Proof.
  intro H. unfold Py.round. cbv zeta.
  set (s := inject_Z (10 ^ Z.of_nat nd)).
  assert (E : x * s == y * s) by (rewrite H; reflexivity).
  assert (F : Qfloor (x * s) = Qfloor (y * s)) by (rewrite E; reflexivity).
  rewrite F.
  assert (D : x * s - inject_Z (Qfloor (y * s)) == y * s - inject_Z (Qfloor (y * s)))
    by (rewrite E; reflexivity).
  assert (G1 : Py.Qltb (x * s - inject_Z (Qfloor (y * s))) (1 # 2)
               = Py.Qltb (y * s - inject_Z (Qfloor (y * s))) (1 # 2)).
  { unfold Py.Qltb. rewrite D. reflexivity. }
  assert (G2 : Py.Qltb (1 # 2) (x * s - inject_Z (Qfloor (y * s)))
               = Py.Qltb (1 # 2) (y * s - inject_Z (Qfloor (y * s)))).
  { unfold Py.Qltb. rewrite D. reflexivity. }
  rewrite G1, G2. reflexivity.
Qed.

Lemma sonuclar_fold {A B : Type} (f : A -> B) (l : list A) (acc : list B) :
  fold_left (fun sonuclar x => sonuclar ++ [f x]) l acc = acc ++ map f l.
Proof.
  revert acc. induction l as [|x l IH]; intro acc; simpl.
  - rewrite app_nil_r. reflexivity.
  - rewrite IH, <- app_assoc. reflexivity.
Qed.

(** A plate without fuel rows has a reconstructed distance of 0, whatever
    the dates. *)
Lemma eksik_km_unknown_plate (db : Db) (plaka : string) (baslangic bitis : option string) :
  (forall y, In y (yakit db) -> Sql.eq_text (y_plaka y) plaka = false) ->
  Eksik.hesapla_gercek_km db plaka baslangic bitis = 0.
Proof.
  intro H. unfold Eksik.hesapla_gercek_km.
  assert (E : filter (fun r => km_kaydi plaka r
                               && Spec.in_range baslangic bitis (y_islem_tarihi r))
                (yakit db) = []).
  { induction (yakit db) as [|y l IH]; [reflexivity|]. cbn [filter].
    unfold km_kaydi at 1. rewrite (H y (or_introl eq_refl)). cbn [andb].
    apply IH. intros y' Hy'. apply H. right. exact Hy'. }
  rewrite E. reflexivity.
Qed.

(** C7.  The endpoint reads the remote store through [fetch_all_paginated],
    which the sources do not define and which is a parameter here, and
    through the distance function, modelled from section 4.1 of the
    specification over the fuel records [db].  Whatever the store returns,
    [api_performans_karsilastir] answers with success and one row per
    requested plate, in the order of the request.  For a plate without
    fuel records - the store holds none of it and the fetch returns none -
    the total fuel, the total cost, the distance and the average
    consumption of its row are all 0. *)
Theorem api_performans_karsilastir_rows
  (fetch_all_paginated : string -> list (string * string) -> list Yakit)
  (db : Db) (plakalar : list string) (baslangic bitis : option string) :
  exists sonuclar,
    App.api_performans_karsilastir fetch_all_paginated (Eksik.hesapla_gercek_km db)
      plakalar baslangic bitis = Success sonuclar
    /\ map App.k_plaka sonuclar = plakalar
    /\ (forall i plaka,
          nth_error plakalar i = Some plaka ->
          (forall y, In y (yakit db) -> Sql.eq_text (y_plaka y) plaka = false) ->
          fetch_all_paginated "yakit"%string (App.filters_of plaka baslangic bitis) = [] ->
          exists row,
            nth_error sonuclar i = Some row
            /\ App.k_plaka row = plaka
            /\ App.k_toplam_yakit row == 0
            /\ App.k_toplam_maliyet row == 0
            /\ App.k_gercek_km row == 0
            /\ App.k_ortalama_tuketim row == 0).
Proof.
  exists (map (App.karsilastir_satiri fetch_all_paginated (Eksik.hesapla_gercek_km db)
                 baslangic bitis) plakalar).
  split.
  { unfold App.api_performans_karsilastir. rewrite sonuclar_fold. reflexivity. }
  split.
  { rewrite map_map. simpl. apply map_id. }
  intros i plaka Hi Hstore Hfetch.
  exists (App.karsilastir_satiri fetch_all_paginated (Eksik.hesapla_gercek_km db)
            baslangic bitis plaka).
  split.
  { rewrite nth_error_map, Hi. reflexivity. }
  unfold App.karsilastir_satiri.
  rewrite Hfetch, (eksik_km_unknown_plate db plaka baslangic bitis Hstore).
  cbn [App.k_plaka App.k_toplam_yakit App.k_toplam_maliyet App.k_ortalama_tuketim
         App.k_gercek_km map].
  change (Py.sum []) with 0.
  split; [reflexivity|].
  split; [apply round_zero|].
  split; [apply round_zero|].
  split; apply round_zero.
Qed.

Lemma api_performans_karsilastir_rows_witness :
  exists sonuclar row,
    App.api_performans_karsilastir Ornek.fetch_ornek
      (Eksik.hesapla_gercek_km Ornek.db_46AJH283)
      ["46AJH283"; "06XYZ99"]%string None None = Success sonuclar
    /\ map App.k_plaka sonuclar = ["46AJH283"; "06XYZ99"]%string
    /\ nth_error sonuclar 1 = Some row
    /\ App.k_toplam_yakit row == 0
    /\ App.k_gercek_km row == 0.
Proof.
  destruct (api_performans_karsilastir_rows Ornek.fetch_ornek Ornek.db_46AJH283
              ["46AJH283"; "06XYZ99"]%string None None)
    as [sonuclar (Hs & Hm & Hrow)].
  assert (Hstore : forall y, In y (yakit Ornek.db_46AJH283) ->
                             Sql.eq_text (y_plaka y) "06XYZ99" = false).
  { intros y Hy. cbn [Ornek.db_46AJH283 yakit In] in Hy.
    repeat (destruct Hy as [<-|Hy]; [reflexivity|]). destruct Hy. }
  destruct (Hrow 1%nat "06XYZ99"%string eq_refl Hstore eq_refl)
    as [row (Hn & _ & Hy & _ & Hk & _)].
  exists sonuclar, row.
  split; [exact Hs|]. split; [exact Hm|]. split; [exact Hn|].
  split; [exact Hy|exact Hk].
Defined.

(** ** Accounting: revenue and cost per plate *)

Lemma dict_get_update_same (p : string) (f : PlakaVeri -> PlakaVeri)
  (d : list (string * PlakaVeri)) :
  dict_get p (dict_update p f d)
  = Some (f (match dict_get p d with Some v => v | None => mkPlakaVeri 0 0 end)).
Proof.
  induction d as [|[k v] d IH]; simpl.
  - rewrite String.eqb_refl. reflexivity.
  - destruct (String.eqb k p) eqn:E; simpl; rewrite E; [reflexivity|exact IH].
Qed.

Lemma dict_get_update_other (p q : string) (f : PlakaVeri -> PlakaVeri)
  (d : list (string * PlakaVeri)) :
  p <> q -> dict_get q (dict_update p f d) = dict_get q d.
Proof.
  intro N. induction d as [|[k v] d IH]; simpl.
  - destruct (String.eqb_spec p q); [contradiction|reflexivity].
  - destruct (String.eqb_spec k p) as [->|Hkp]; simpl.
    + destruct (String.eqb_spec p q); [contradiction|reflexivity].
    + destruct (String.eqb k q); [reflexivity|exact IH].
Qed.

Lemma dict_update_keys (p q : string) (f : PlakaVeri -> PlakaVeri)
  (d : list (string * PlakaVeri)) :
  In q (map fst (dict_update p f d)) <-> q = p \/ In q (map fst d).
Proof.
  induction d as [|[k v] d IH]; simpl.
  - intuition.
  - destruct (String.eqb_spec k p) as [->|Hkp]; simpl.
    + intuition.
    + rewrite IH. intuition.
Qed.

Lemma dict_update_nodup (p : string) (f : PlakaVeri -> PlakaVeri)
  (d : list (string * PlakaVeri)) :
  NoDup (map fst d) -> NoDup (map fst (dict_update p f d)).
Proof.
  induction d as [|[k v] d IH]; simpl; intro H.
  - constructor; [intros []|constructor].
  - inversion H as [|? ? Hk Hd]; subst.
    destruct (String.eqb_spec k p) as [->|Hkp]; simpl.
    + constructor; assumption.
    + constructor; [|apply IH, Hd].
      intro Hin. apply dict_update_keys in Hin as [->|Hin]; [congruence|contradiction].
Qed.

Lemma dict_get_in (p : string) (v : PlakaVeri) (d : list (string * PlakaVeri)) :
  NoDup (map fst d) -> In (p, v) d -> dict_get p d = Some v.
Proof.
  induction d as [|[k w] d IH]; simpl; intros H Hin; [contradiction|].
  inversion H as [|? ? Hk Hd]; subst.
  destruct Hin as [E|Hin].
  - injection E as -> ->. rewrite String.eqb_refl. reflexivity.
  - destruct (String.eqb_spec k p) as [->|Hkp]; [|apply IH; assumption].
    exfalso. apply Hk. apply (in_map fst) in Hin. exact Hin.
Qed.

(** One pass [for row in rows] over the result of a GROUP BY query: it
    sets one field of the entries of the plates in the result. *)
Section DictPass.
Variable set : Q -> PlakaVeri -> PlakaVeri.
Variables this other : PlakaVeri -> Q.
Hypothesis this_set : forall x v, this (set x v) = x.
Hypothesis other_set : forall x v, other (set x v) = other v.
Variable F : string -> option Q.

Local Abbreviation pass :=
  (fold_left (fun d (row : string * option Q) =>
                dict_update (fst row) (set (Py.float_or0 (snd row))) d)).
Local Abbreviation old d p :=
  (match dict_get p d with Some v => v | None => mkPlakaVeri 0 0 end).

Lemma pass_nodup (rows : list (string * option Q)) (d : list (string * PlakaVeri)) :
  NoDup (map fst d) -> NoDup (map fst (pass rows d)).
Proof.
  revert d. induction rows as [|row rows IH]; intros d H; simpl; [exact H|].
  apply IH, dict_update_nodup, H.
Qed.

Lemma pass_get (keys : list string) (d : list (string * PlakaVeri)) (p : string) :
  match dict_get p (pass (map (fun k => (k, F k)) keys) d) with
  | Some v =>
      (In p keys /\ this v = Py.float_or0 (F p) /\ other v = other (old d p))
      \/ (~ In p keys /\ dict_get p d = Some v)
  | None => ~ In p keys /\ dict_get p d = None
  end.
Proof.
  revert d. induction keys as [|k keys IH]; intro d.
  - simpl. destruct (dict_get p d); [right|]; split; auto.
  - cbn [map fold_left fst snd].
    specialize (IH (dict_update k (set (Py.float_or0 (F k))) d)).
    destruct (dict_get p (pass (map (fun k => (k, F k)) keys)
                            (dict_update k (set (Py.float_or0 (F k))) d))) as [v|].
    + destruct (String.eqb_spec k p) as [->|Hkp].
      * left. rewrite dict_get_update_same in IH.
        destruct IH as [(Hin & Ht & Ho)|(Hn & Hg)].
        -- split; [right; exact Hin|]. split; [exact Ht|].
           rewrite Ho. apply other_set.
        -- injection Hg as <-. split; [left; reflexivity|].
           split; [apply this_set|apply other_set].
      * rewrite (dict_get_update_other k p _ d Hkp) in IH.
        destruct IH as [(Hin & Ht & Ho)|(Hn & Hg)].
        -- left. split; [right; exact Hin|]. split; assumption.
        -- right. split; [|exact Hg]. intros [E|Hin]; [contradiction|auto].
    + destruct IH as [Hn Hg].
      destruct (String.eqb_spec k p) as [->|Hkp].
      * rewrite dict_get_update_same in Hg. discriminate Hg.
      * rewrite (dict_get_update_other k p _ d Hkp) in Hg.
        split; [|exact Hg]. intros [E|Hin]; [contradiction|auto].
Qed.

End DictPass.

Lemma group_keys_in (p : string) (keys : list string) :
  In p (Sql.group_keys keys) <-> In p keys.
Proof.
  induction keys as [|k keys IH]; simpl; [tauto|].
  rewrite filter_In, IH, negb_true_iff.
  destruct (String.eqb_spec p k) as [->|N]; [tauto|].
  split; [tauto|]. intros [E|H]; [congruence|auto].
Qed.

Lemma in_inner_join {R : Type} (plaka_of : R -> option string)
  (rows : list R) (vs : list Arac) (r : R) (a : Arac) :
  In (r, a) (inner_join plaka_of rows vs)
  <-> In r rows /\ In a vs /\ Sql.eq_text (plaka_of r) (a_plaka a) = true.
Proof.
  unfold inner_join. rewrite in_flat_map. split.
  - intros [r' [Hr Hin]]. apply in_map_iff in Hin as [a' [E Ha]].
    injection E as -> ->. apply filter_In in Ha. tauto.
  - intros (Hr & Ha & He). exists r. split; [exact Hr|].
    apply in_map_iff. exists a. split; [reflexivity|].
    apply filter_In. split; assumption.
Qed.

Lemma eq_text_true (col : option string) (v : string) :
  Sql.eq_text col v = true <-> col = Some v.
Proof.
  destruct col as [c|]; simpl.
  - rewrite String.eqb_eq. split; congruence.
  - split; discriminate.
Qed.

Lemma filter_nil_iff {A : Type} (f : A -> bool) (l : list A) :
  (forall x, In x l -> f x = false) -> filter f l = [].
Proof.
  induction l as [|x l IH]; intro H; simpl; [reflexivity|].
  rewrite (H x (or_introl eq_refl)). apply IH. intros y Hy. apply H. right. exact Hy.
Qed.

(** In a table with unique plates a row matches one vehicle at most. *)
Lemma unique_match (vs : list Arac) (a : Arac) :
  NoDup (map a_plaka vs) -> In a vs ->
  filter (fun a' => Sql.eq_text (Some (a_plaka a)) (a_plaka a')) vs = [a].
Proof.
  induction vs as [|a0 vs IH]; simpl; intros H Hin; [contradiction|].
  inversion H as [|? ? Hn Hd]; subst.
  destruct Hin as [->|Hin].
  - rewrite String.eqb_refl. f_equal.
    apply filter_nil_iff. intros a' Ha'.
    destruct (String.eqb_spec (a_plaka a) (a_plaka a')) as [E|]; [|reflexivity].
    exfalso. apply Hn. rewrite E. apply in_map, Ha'.
  - destruct (String.eqb_spec (a_plaka a) (a_plaka a0)) as [E|]; [|apply IH; assumption].
    exfalso. apply Hn. rewrite <- E. apply in_map, Hin.
Qed.

(** The joined rows of one active cargo vehicle are the table rows of its
    plate that pass the row condition, each once. *)
Lemma join_of_plate {R : Type} (plaka_of : R -> option string) (c : R -> bool)
  (rows : list R) (vs : list Arac) (a : Arac) :
  NoDup (map a_plaka vs) -> In a vs -> aktif_kargo a = true ->
  map fst
    (filter (fun ra => String.eqb (a_plaka (snd ra)) (a_plaka a))
       (filter (fun ra => c (fst ra) && aktif_kargo (snd ra))
          (inner_join plaka_of rows vs)))
  = filter (fun r => c r && Sql.eq_text (plaka_of r) (a_plaka a)) rows.
Proof.
  intros Hnd Hin Hak. unfold inner_join.
  induction rows as [|r rows IH]; [reflexivity|].
  cbn [flat_map]. rewrite !filter_app, map_app, IH. cbn [filter].
  destruct (Sql.eq_text (plaka_of r) (a_plaka a)) eqn:E.
  - apply eq_text_true in E. rewrite E, (unique_match vs a Hnd Hin).
    cbn [map filter fst snd]. rewrite Hak, andb_true_r.
    destruct (c r); cbn [filter snd map fst]; [|reflexivity].
    rewrite String.eqb_refl. reflexivity.
  - rewrite andb_false_r.
    rewrite (filter_nil_iff (fun ra => String.eqb (a_plaka (snd ra)) (a_plaka a))
               (filter _ (map _ _))); [reflexivity|].
    intros [r' a'] Hra. apply filter_In in Hra as [Hra _].
    apply in_map_iff in Hra as [a'' [Eq Ha'']]. injection Eq as <- <-.
    apply filter_In in Ha'' as [_ Ha'']. cbn [snd].
    destruct (String.eqb_spec (a_plaka a'') (a_plaka a)) as [E'|]; [|reflexivity].
    rewrite E' in Ha''. congruence.
Qed.

Lemma py_sum_scale (l : list (option Q)) (c : Q) :
  Py.sum (map Py.float_or0 (map (option_map (fun w => w * c)) l))
  == Py.sum (map Py.float_or0 l) * c.
Proof.
  induction l as [|x l IH]; cbn [map].
  - unfold Py.sum. simpl. ring.
  - rewrite !py_sum_cons, IH. destruct x; simpl; ring.
Qed.

(** What a pass over the groups of [rows] finds for a plate: the sum of
    the joined rows of that plate, also when the plate has none. *)
Lemma grupla_rows {R : Type} (deger : R -> option Q) (rows : list (R * Arac)) :
  grupla deger rows
  = map (fun k =>
           (k, Sql.sum (map (fun ra => deger (fst ra))
                          (filter (fun ra => String.eqb (a_plaka (snd ra)) k) rows))))
      (Sql.group_keys (map (fun ra => a_plaka (snd ra)) rows)).
Proof. reflexivity. Qed.

Lemma no_group_no_rows {R : Type} (rows : list (R * Arac)) (p : string) :
  ~ In p (Sql.group_keys (map (fun ra => a_plaka (snd ra)) rows)) ->
  filter (fun ra => String.eqb (a_plaka (snd ra)) p) rows = [].
Proof.
  intro H. apply filter_nil_iff. intros ra Hra.
  destruct (String.eqb_spec (a_plaka (snd ra)) p) as [E|]; [|reflexivity].
  exfalso. apply H, group_keys_in. rewrite <- E.
  apply (in_map (fun ra => a_plaka (snd ra))), Hra.
Qed.

(** A group comes from a joined row: its plate is that of an active cargo
    vehicle, and it passes the plate clause of the query. *)
Lemma group_vehicle {R : Type} (plaka_of : R -> option string) (c : R -> bool)
  (plaka : option string) (rows : list R) (vs : list Arac) (p : string) :
  (forall r, c r = true -> plaka_kosulu plaka (plaka_of r) = true) ->
  In p (Sql.group_keys
          (map (fun ra => a_plaka (snd ra))
             (filter (fun ra => c (fst ra) && aktif_kargo (snd ra))
                (inner_join plaka_of rows vs)))) ->
  (exists a, In a vs /\ a_plaka a = p /\ aktif_kargo a = true)
  /\ plaka_kosulu plaka (Some p) = true.
Proof.
  intros Hc H. apply (proj1 (group_keys_in _ _)) in H.
  apply in_map_iff in H as [[r a] [E Hra]].
  cbn [snd] in E. apply filter_In in Hra as [Hj Hcond]. cbn [fst snd] in Hcond.
  apply andb_true_iff in Hcond as [Hcr Hak].
  apply in_inner_join in Hj as (_ & Ha & He).
  split; [exists a; auto|].
  apply eq_text_true in He. rewrite <- E, <- He. apply Hc, Hcr.
Qed.

(** The two passes of [get_muhasebe_data] over its query results leave,
    for each plate of the dictionary, the two sums of its joined rows. *)
Lemma plaka_veriler_entry {Ry Ra : Type} (dy : Ry -> option Q) (da : Ra -> option Q)
  (Jy : list (Ry * Arac)) (Ja : list (Ra * Arac)) (p : string) (v : PlakaVeri) :
  In (p, v)
    (fold_left (fun d row =>
                  dict_update (fst row)
                    (fun v => mkPlakaVeri (Py.float_or0 (snd row)) (gider v)) d)
       (grupla da Ja)
       (fold_left (fun d row =>
                     dict_update (fst row)
                       (fun v => mkPlakaVeri (gelir v) (Py.float_or0 (snd row))) d)
          (grupla dy Jy) [])) ->
  (In p (Sql.group_keys (map (fun ra => a_plaka (snd ra)) Jy))
   \/ In p (Sql.group_keys (map (fun ra => a_plaka (snd ra)) Ja)))
  /\ gelir v
     = Py.float_or0
         (Sql.sum (map (fun ra => da (fst ra))
                     (filter (fun ra => String.eqb (a_plaka (snd ra)) p) Ja)))
  /\ gider v
     = Py.float_or0
         (Sql.sum (map (fun ra => dy (fst ra))
                     (filter (fun ra => String.eqb (a_plaka (snd ra)) p) Jy))).
Proof.
  set (Fy := fun k => Sql.sum (map (fun ra => dy (fst ra))
                                 (filter (fun ra => String.eqb (a_plaka (snd ra)) k) Jy))).
  set (Fa := fun k => Sql.sum (map (fun ra => da (fst ra))
                                 (filter (fun ra => String.eqb (a_plaka (snd ra)) k) Ja))).
  set (keysY := Sql.group_keys (map (fun ra => a_plaka (snd ra)) Jy)).
  set (keysA := Sql.group_keys (map (fun ra => a_plaka (snd ra)) Ja)).
  set (set_gider := fun (x : Q) (v : PlakaVeri) => mkPlakaVeri (gelir v) x).
  set (set_gelir := fun (x : Q) (v : PlakaVeri) => mkPlakaVeri x (gider v)).
  assert (Ey : grupla dy Jy = map (fun k => (k, Fy k)) keysY) by reflexivity.
  assert (Ea : grupla da Ja = map (fun k => (k, Fa k)) keysA) by reflexivity.
  rewrite Ey, Ea.
  set (d_y := fold_left _ (map (fun k => (k, Fy k)) keysY) []).
  intro Hin.
  change ((In p keysY \/ In p keysA)
          /\ gelir v = Py.float_or0 (Fa p) /\ gider v = Py.float_or0 (Fy p)).
  assert (Hnd_y : NoDup (map fst d_y)).
  { apply (pass_nodup set_gider). constructor. }
  pose proof (pass_nodup set_gelir (map (fun k => (k, Fa k)) keysA) d_y Hnd_y) as Hnd.
  pose proof (dict_get_in p v _ Hnd Hin) as Hget.
  pose proof (pass_get set_gelir gelir gider (fun _ _ => eq_refl) (fun _ _ => eq_refl)
                Fa keysA d_y p) as H2.
  cbv beta in H2. rewrite Hget in H2.
  pose proof (pass_get set_gider gider gelir (fun _ _ => eq_refl) (fun _ _ => eq_refl)
                Fy keysY [] p) as H1.
  cbv beta in H1. cbn [dict_get gelir gider] in H1.
  change (match dict_get p d_y with
          | Some v0 =>
              (In p keysY /\ gider v0 = Py.float_or0 (Fy p) /\ gelir v0 = 0)
              \/ (~ In p keysY /\ None = Some v0)
          | None => ~ In p keysY /\ @None PlakaVeri = None
          end) in H1.
  assert (NY : ~ In p keysY -> Py.float_or0 (Fy p) = 0).
  { intro N. unfold Fy. rewrite (no_group_no_rows Jy p N). reflexivity. }
  assert (NA : ~ In p keysA -> Py.float_or0 (Fa p) = 0).
  { intro N. unfold Fa. rewrite (no_group_no_rows Ja p N). reflexivity. }
  destruct H2 as [(Hia & Hg & Ho)|(Hna & Hgy)].
  - destruct (dict_get p d_y) as [v1|].
    + destruct H1 as [(Hiy & Hg1 & _)|(_ & Hf)]; [|discriminate Hf].
      split; [left; exact Hiy|]. split; [exact Hg|]. rewrite Ho. exact Hg1.
    + destruct H1 as [Hny _].
      split; [right; exact Hia|]. split; [exact Hg|].
      rewrite Ho, (NY Hny). reflexivity.
  - rewrite Hgy in H1.
    destruct H1 as [(Hiy & Hg1 & Ho1)|(_ & Hf)]; [|discriminate Hf].
    split; [left; exact Hiy|]. split; [|exact Hg1].
    rewrite Ho1, (NA Hna). reflexivity.
Qed.

(** The entries of a report, on a store whose table [araclar] holds each
    plate once: each belongs to an active cargo vehicle and carries the
    two sums of the rows of its plate that pass the conditions of the
    queries. *)
Lemma muhasebe_entries (db : Db) (vs : list Arac)
  (b e plaka : option string) (m : Muhasebe) :
  araclar db = Some vs ->
  NoDup (map a_plaka vs) ->
  get_muhasebe_data db b e plaka = Success m ->
  let tp := tarih_params b e in
  Forall (fun x =>
            (exists a, In a vs /\ a_plaka a = pb_plaka x
                       /\ a_aktif a = 1%Z /\ a_arac_tipi a = "KARGO ARACI"%string)
            /\ plaka_kosulu plaka (Some (pb_plaka x)) = true
            /\ pb_gelir x
               == Py.sum (map (fun g => Py.float_or0 (ag_net_agirlik g))
                            (filter (fun g =>
                                       Sql.eq_text (ag_plaka g) (pb_plaka x)
                                       && tarih_filtre tp (ag_tarih g)
                                       && Sql.not_in (ag_birim g)
                                            ["Adet"; "adet"; "ADET"]%string)
                               (agirlik db))) * (1 # 2)
            /\ pb_gider x
               == Py.sum (map (fun y => Py.float_or0 (y_satir_tutari y))
                            (filter (fun y =>
                                       Sql.eq_text (y_plaka y) (pb_plaka x)
                                       && tarih_filtre tp (y_islem_tarihi y))
                               (yakit db))))
    (plaka_bazli m).
Proof.
  intros Hvs Hnd Hres tp.
  unfold get_muhasebe_data in Hres. rewrite Hvs in Hres. injection Hres as <-.
  cbn [plaka_bazli]. fold tp.
  apply Forall_forall. intros x Hx.
  apply (Permutation_in _ (sort_perm net_kar_azalan _)) in Hx.
  apply in_map_iff in Hx as [[p v] [<- Hpv]].
  cbn [plaka_satiri pb_plaka pb_gelir pb_gider fst snd].
  set (cy := fun y : Yakit =>
               tarih_filtre tp (y_islem_tarihi y) && plaka_kosulu plaka (y_plaka y)).
  set (ca := fun g : Agirlik =>
               tarih_filtre tp (ag_tarih g) && plaka_kosulu plaka (ag_plaka g)
               && Sql.not_in (ag_birim g) ["Adet"; "adet"; "ADET"]%string).
  set (Jy := filter (fun ya => cy (fst ya) && aktif_kargo (snd ya))
               (inner_join y_plaka (yakit db) vs)).
  set (Ja := filter (fun ga => ca (fst ga) && aktif_kargo (snd ga))
               (inner_join ag_plaka (agirlik db) vs)).
  pose proof (plaka_veriler_entry y_satir_tutari
                (fun g => option_map (fun w => w * (1 # 2)) (ag_net_agirlik g))
                Jy Ja p v Hpv) as (Hkey & Hgelir & Hgider).
  assert (Hcy : forall y, cy y = true -> plaka_kosulu plaka (y_plaka y) = true).
  { intros y H. apply andb_true_iff in H. tauto. }
  assert (Hca : forall g, ca g = true -> plaka_kosulu plaka (ag_plaka g) = true).
  { intros g H. apply andb_true_iff in H as [H _]. apply andb_true_iff in H. tauto. }
  assert (Hveh : (exists a, In a vs /\ a_plaka a = p /\ aktif_kargo a = true)
                 /\ plaka_kosulu plaka (Some p) = true).
  { destruct Hkey as [H|H].
    - exact (group_vehicle y_plaka cy plaka (yakit db) vs p Hcy H).
    - exact (group_vehicle ag_plaka ca plaka (agirlik db) vs p Hca H). }
  destruct Hveh as [[a (Ha & Hap & Hak)] Hpk].
  split.
  { exists a. unfold aktif_kargo, aktif in Hak.
    apply andb_true_iff in Hak as [H1 H2].
    apply Z.eqb_eq in H1. apply String.eqb_eq in H2. auto. }
  split; [exact Hpk|].
  assert (Hrow : forall col, Sql.eq_text col p = true -> plaka_kosulu plaka col = true).
  { intros col H. apply eq_text_true in H. rewrite H. exact Hpk. }
  subst p. split.
  - assert (M : forall L : list (Agirlik * Arac),
               map (fun ra => option_map (fun w => w * (1 # 2)) (ag_net_agirlik (fst ra))) L
               = map (option_map (fun w => w * (1 # 2)))
                   (map ag_net_agirlik (map fst L))).
    { intro L. rewrite !map_map. reflexivity. }
    rewrite Hgelir, sql_sum_float, M. unfold Ja.
    rewrite (join_of_plate ag_plaka ca _ vs a Hnd Ha Hak), py_sum_scale, map_map.
    assert (E : filter (fun r => ca r && Sql.eq_text (ag_plaka r) (a_plaka a)) (agirlik db)
                = filter (fun g => Sql.eq_text (ag_plaka g) (a_plaka a)
                                   && tarih_filtre tp (ag_tarih g)
                                   && Sql.not_in (ag_birim g) ["Adet"; "adet"; "ADET"]%string)
                    (agirlik db)).
    { apply filter_ext. intro g. unfold ca.
      destruct (Sql.eq_text (ag_plaka g) (a_plaka a)) eqn:Eg.
      - rewrite (Hrow _ Eg), !andb_true_r. reflexivity.
      - rewrite andb_false_r. reflexivity. }
    rewrite E. reflexivity.
  - assert (M : forall L : list (Yakit * Arac),
               map (fun ra => y_satir_tutari (fst ra)) L
               = map y_satir_tutari (map fst L)).
    { intro L. rewrite map_map. reflexivity. }
    rewrite Hgider, sql_sum_float, M. unfold Jy.
    rewrite (join_of_plate y_plaka cy _ vs a Hnd Ha Hak), map_map.
    assert (E : filter (fun r => cy r && Sql.eq_text (y_plaka r) (a_plaka a)) (yakit db)
                = filter (fun y => Sql.eq_text (y_plaka y) (a_plaka a)
                                   && tarih_filtre tp (y_islem_tarihi y))
                    (yakit db)).
    { apply filter_ext. intro y. unfold cy.
      destruct (Sql.eq_text (y_plaka y) (a_plaka a)) eqn:Ey.
      - rewrite (Hrow _ Ey), !andb_true_r. reflexivity.
      - rewrite andb_false_r. reflexivity. }
    rewrite E. reflexivity.
Qed.

Lemma dict_get_some_in (p : string) (v : PlakaVeri) (d : list (string * PlakaVeri)) :
  dict_get p d = Some v -> In (p, v) d.
Proof.
  induction d as [|[k w] d IH]; simpl; [discriminate|].
  destruct (String.eqb_spec k p) as [->|N]; intro H.
  - injection H as ->. left. reflexivity.
  - right. apply IH, H.
Qed.

(** Conversely, every plate of a group of either query has its entry in
    the dictionary. *)
Lemma plaka_veriler_keys {Ry Ra : Type} (dy : Ry -> option Q) (da : Ra -> option Q)
  (Jy : list (Ry * Arac)) (Ja : list (Ra * Arac)) (p : string) :
  In p (Sql.group_keys (map (fun ra => a_plaka (snd ra)) Jy))
  \/ In p (Sql.group_keys (map (fun ra => a_plaka (snd ra)) Ja)) ->
  exists v,
    In (p, v)
      (fold_left (fun d row =>
                    dict_update (fst row)
                      (fun v => mkPlakaVeri (Py.float_or0 (snd row)) (gider v)) d)
         (grupla da Ja)
         (fold_left (fun d row =>
                       dict_update (fst row)
                         (fun v => mkPlakaVeri (gelir v) (Py.float_or0 (snd row))) d)
            (grupla dy Jy) [])).
Proof.
  set (Fy := fun k => Sql.sum (map (fun ra => dy (fst ra))
                                 (filter (fun ra => String.eqb (a_plaka (snd ra)) k) Jy))).
  set (Fa := fun k => Sql.sum (map (fun ra => da (fst ra))
                                 (filter (fun ra => String.eqb (a_plaka (snd ra)) k) Ja))).
  set (keysY := Sql.group_keys (map (fun ra => a_plaka (snd ra)) Jy)).
  set (keysA := Sql.group_keys (map (fun ra => a_plaka (snd ra)) Ja)).
  set (set_gider := fun (x : Q) (v : PlakaVeri) => mkPlakaVeri (gelir v) x).
  set (set_gelir := fun (x : Q) (v : PlakaVeri) => mkPlakaVeri x (gider v)).
  assert (Ey : grupla dy Jy = map (fun k => (k, Fy k)) keysY) by reflexivity.
  assert (Ea : grupla da Ja = map (fun k => (k, Fa k)) keysA) by reflexivity.
  rewrite Ey, Ea.
  set (d_y := fold_left _ (map (fun k => (k, Fy k)) keysY) []).
  intro H.
  pose proof (pass_get set_gelir gelir gider (fun _ _ => eq_refl) (fun _ _ => eq_refl)
                Fa keysA d_y p) as H2.
  cbv beta in H2.
  pose proof (pass_get set_gider gider gelir (fun _ _ => eq_refl) (fun _ _ => eq_refl)
                Fy keysY [] p) as H1.
  cbv beta in H1. cbn [dict_get gelir gider] in H1.
  change (match dict_get p d_y with
          | Some v0 =>
              (In p keysY /\ gider v0 = Py.float_or0 (Fy p) /\ gelir v0 = 0)
              \/ (~ In p keysY /\ None = Some v0)
          | None => ~ In p keysY /\ @None PlakaVeri = None
          end) in H1.
  match type of H2 with
  | match dict_get p ?D with _ => _ end => destruct (dict_get p D) as [v|] eqn:G
  end.
  - exists v. apply dict_get_some_in. exact G.
  - destruct H2 as [Hna Hgy]. rewrite Hgy in H1. destruct H1 as [Hny _].
    destruct H; contradiction.
Qed.

(** The plates of the groups of a query: those of the active cargo
    vehicles that a row passing the row condition is joined to. *)
Lemma group_of_row {R : Type} (plaka_of : R -> option string) (c : R -> bool)
  (rows : list R) (vs : list Arac) (p : string) :
  In p (Sql.group_keys
          (map (fun ra => a_plaka (snd ra))
             (filter (fun ra => c (fst ra) && aktif_kargo (snd ra))
                (inner_join plaka_of rows vs))))
  <-> exists r a, In r rows /\ In a vs /\ plaka_of r = Some p /\ a_plaka a = p
                  /\ c r = true /\ aktif_kargo a = true.
Proof.
  rewrite group_keys_in, in_map_iff. split.
  - intros [[r a] [E H]]. cbn [snd] in E. apply filter_In in H as [Hj Hc].
    cbn [fst snd] in Hc. apply andb_true_iff in Hc as [Hc Hak].
    apply in_inner_join in Hj as (Hr & Ha & He). apply eq_text_true in He.
    exists r, a. rewrite <- E. auto 7.
  - intros (r & a & Hr & Ha & Hp & Hap & Hc & Hak). exists (r, a).
    split; [exact Hap|]. apply filter_In. split.
    + apply in_inner_join. split; [exact Hr|]. split; [exact Ha|].
      apply eq_text_true. rewrite Hap. exact Hp.
    + cbn [fst snd]. rewrite Hc, Hak. reflexivity.
Qed.

Lemma not_in_listed (unit : option string) :
  unit <> None ->
  Sql.not_in unit ["Adet"; "adet"; "ADET"]%string = negb (Spec.count_unit_listed unit).
Proof.
  destruct unit as [u|]; [reflexivity|]. intro H. contradiction.
Qed.

Lemma aktif_kargo_true (a : Arac) :
  aktif_kargo a = true <-> a_aktif a = 1%Z /\ a_arac_tipi a = "KARGO ARACI"%string.
Proof.
  unfold aktif_kargo, aktif. rewrite andb_true_iff, Z.eqb_eq, String.eqb_eq. reflexivity.
Qed.

(** The plates of a report: those of the active cargo vehicles, the
    requested one only when a plate was requested, that have a fuel row or
    a weight row passing the conditions of the queries. *)
Lemma muhasebe_plates (db : Db) (vs : list Arac) (b e plaka : option string)
  (m : Muhasebe) (p : string) :
  araclar db = Some vs ->
  get_muhasebe_data db b e plaka = Success m ->
  let tp := tarih_params b e in
  In p (map pb_plaka (plaka_bazli m))
  <-> (exists a, In a vs /\ a_plaka a = p /\ aktif_kargo a = true)
      /\ plaka_kosulu plaka (Some p) = true
      /\ (filter (fun y => Sql.eq_text (y_plaka y) p && tarih_filtre tp (y_islem_tarihi y))
            (yakit db) <> []
          \/ filter (fun g => Sql.eq_text (ag_plaka g) p && tarih_filtre tp (ag_tarih g)
                              && Sql.not_in (ag_birim g) ["Adet"; "adet"; "ADET"]%string)
               (agirlik db) <> []).
Proof.
  intros Hvs Hres tp.
  unfold get_muhasebe_data in Hres. rewrite Hvs in Hres. injection Hres as <-.
  cbn [plaka_bazli]. fold tp.
  set (cy := fun y : Yakit =>
               tarih_filtre tp (y_islem_tarihi y) && plaka_kosulu plaka (y_plaka y)).
  set (ca := fun g : Agirlik =>
               tarih_filtre tp (ag_tarih g) && plaka_kosulu plaka (ag_plaka g)
               && Sql.not_in (ag_birim g) ["Adet"; "adet"; "ADET"]%string).
  set (Jy := filter (fun ya => cy (fst ya) && aktif_kargo (snd ya))
               (inner_join y_plaka (yakit db) vs)).
  set (Ja := filter (fun ga => ca (fst ga) && aktif_kargo (snd ga))
               (inner_join ag_plaka (agirlik db) vs)).
  assert (Hcy : forall y, cy y = true -> plaka_kosulu plaka (y_plaka y) = true).
  { intros y H. apply andb_true_iff in H. tauto. }
  assert (Hca : forall g, ca g = true -> plaka_kosulu plaka (ag_plaka g) = true).
  { intros g H. apply andb_true_iff in H as [H _]. apply andb_true_iff in H. tauto. }
  split.
  - intro Hin. apply in_map_iff in Hin as [x [Hx Hin]].
    apply (Permutation_in _ (sort_perm net_kar_azalan _)) in Hin.
    apply in_map_iff in Hin as [[q v] [<- Hpv]].
    cbn [plaka_satiri pb_plaka fst] in Hx. subst q.
    pose proof (plaka_veriler_entry y_satir_tutari
                  (fun g => option_map (fun w => w * (1 # 2)) (ag_net_agirlik g))
                  Jy Ja p v Hpv) as (Hkey & _ & _).
    destruct Hkey as [H|H].
    + destruct (group_vehicle y_plaka cy plaka (yakit db) vs p Hcy H) as [Hv Hk].
      split; [exact Hv|]. split; [exact Hk|]. left.
      apply group_of_row in H as (y & a & Hy & _ & Hp & _ & Hc & _).
      intro Hnil. assert (Hy' : In y []); [|destruct Hy'].
      rewrite <- Hnil. apply filter_In. split; [exact Hy|].
      unfold cy in Hc. apply andb_true_iff in Hc as [Hc _].
      rewrite Hc, Hp. simpl. rewrite String.eqb_refl. reflexivity.
    + destruct (group_vehicle ag_plaka ca plaka (agirlik db) vs p Hca H) as [Hv Hk].
      split; [exact Hv|]. split; [exact Hk|]. right.
      apply group_of_row in H as (g & a & Hg & _ & Hp & _ & Hc & _).
      intro Hnil. assert (Hg' : In g []); [|destruct Hg'].
      rewrite <- Hnil. apply filter_In. split; [exact Hg|].
      unfold ca in Hc. apply andb_true_iff in Hc as [Hc Hu].
      apply andb_true_iff in Hc as [Hc _].
      rewrite Hc, Hu, Hp. simpl. rewrite String.eqb_refl. reflexivity.
  - intros ([a (Ha & Hap & Hak)] & Hk & Hrec).
    assert (Hkey : In p (Sql.group_keys (map (fun ra => a_plaka (snd ra)) Jy))
                   \/ In p (Sql.group_keys (map (fun ra => a_plaka (snd ra)) Ja))).
    { destruct Hrec as [Hrec|Hrec].
      - left. destruct (filter _ (yakit db)) as [|y l] eqn:E; [contradiction|].
        assert (Hy : In y (y :: l)) by (left; reflexivity).
        rewrite <- E in Hy. apply filter_In in Hy as [Hy Hc].
        apply andb_true_iff in Hc as [Hp Ht]. apply eq_text_true in Hp.
        apply group_of_row. exists y, a.
        split; [exact Hy|]. split; [exact Ha|]. split; [exact Hp|].
        split; [exact Hap|]. split; [|exact Hak].
        unfold cy. rewrite Ht, Hp, Hk. reflexivity.
      - right. destruct (filter _ (agirlik db)) as [|g l] eqn:E; [contradiction|].
        assert (Hg : In g (g :: l)) by (left; reflexivity).
        rewrite <- E in Hg. apply filter_In in Hg as [Hg Hc].
        apply andb_true_iff in Hc as [Hc Hu]. apply andb_true_iff in Hc as [Hp Ht].
        apply eq_text_true in Hp.
        apply group_of_row. exists g, a.
        split; [exact Hg|]. split; [exact Ha|]. split; [exact Hp|].
        split; [exact Hap|]. split; [|exact Hak].
        unfold ca. rewrite Ht, Hp, Hk, Hu. reflexivity. }
    destruct (plaka_veriler_keys y_satir_tutari
                (fun g => option_map (fun w => w * (1 # 2)) (ag_net_agirlik g))
                Jy Ja p Hkey) as [v Hv].
    apply in_map_iff. exists (plaka_satiri (p, v)). split; [reflexivity|].
    apply (Permutation_in _ (Permutation_sym (sort_perm net_kar_azalan _))).
    apply in_map. exact Hv.
Qed.

(** C5, as the code has it.  On a store whose table [araclar] holds each
    plate once and whose weight records all carry a unit, the per-plate
    list of [get_muhasebe_data] has an entry exactly for the plates of the
    active vehicles of type KARGO ARACI - the requested plate only, when
    one was requested - that have a fuel record, or a weight record whose
    unit is none of the spellings "Adet", "adet", "ADET", within the date
    range in effect.  The revenue of an entry is 0.5 times the sum of the
    net weights of these weight records of its plate, so a record in one
    of the three spellings adds nothing to it; its cost is the sum of the
    line totals of these fuel records of its plate.  An absent amount
    counts as 0. *)
Theorem get_muhasebe_data_revenue_cost (db : Db) (vs : list Arac)
  (b e plaka : option string) (m : Muhasebe) :
  araclar db = Some vs ->
  NoDup (map a_plaka vs) ->
  (forall g, In g (agirlik db) -> ag_birim g <> None) ->
  get_muhasebe_data db b e plaka = Success m ->
  let tp := tarih_params b e in
  let yakitlar :=
    fun p => filter (fun y => Sql.eq_text (y_plaka y) p
                              && tarih_filtre tp (y_islem_tarihi y)) (yakit db) in
  let tartilar :=
    fun p => filter (fun g => Sql.eq_text (ag_plaka g) p
                              && tarih_filtre tp (ag_tarih g)
                              && negb (Spec.count_unit_listed (ag_birim g))) (agirlik db) in
  (forall p,
      In p (map pb_plaka (plaka_bazli m))
      <-> (exists a, In a vs /\ a_plaka a = p
                     /\ a_aktif a = 1%Z /\ a_arac_tipi a = "KARGO ARACI"%string)
          /\ plaka_kosulu plaka (Some p) = true
          /\ (yakitlar p <> [] \/ tartilar p <> []))
  /\ Forall (fun x =>
               pb_gelir x
               == Py.sum (map (fun g => Py.float_or0 (ag_net_agirlik g))
                            (tartilar (pb_plaka x))) * (1 # 2)
               /\ pb_gider x
                  == Py.sum (map (fun y => Py.float_or0 (y_satir_tutari y))
                               (yakitlar (pb_plaka x))))
       (plaka_bazli m).
Proof.
  intros Hvs Hnd Hunit Hres tp yakitlar tartilar.
  assert (Et : forall p,
             filter (fun g => Sql.eq_text (ag_plaka g) p && tarih_filtre tp (ag_tarih g)
                              && Sql.not_in (ag_birim g) ["Adet"; "adet"; "ADET"]%string)
               (agirlik db) = tartilar p).
  { intro p. apply filter_ext_in. intros g Hg.
    rewrite (not_in_listed _ (Hunit g Hg)). reflexivity. }
  split.
  - intro p. pose proof (muhasebe_plates db vs b e plaka m p Hvs Hres) as H.
    cbv zeta in H. fold tp in H. rewrite Et in H. rewrite H.
    assert (Ev : (exists a, In a vs /\ a_plaka a = p /\ aktif_kargo a = true)
                 <-> (exists a, In a vs /\ a_plaka a = p /\ a_aktif a = 1%Z
                                /\ a_arac_tipi a = "KARGO ARACI"%string)).
    { split; intros [a (H1 & H2 & H3)]; exists a;
        (split; [exact H1|]; split; [exact H2|]); apply aktif_kargo_true; exact H3. }
    rewrite Ev. reflexivity.
  - pose proof (muhasebe_entries db vs b e plaka m Hvs Hnd Hres) as H.
    cbv zeta in H. fold tp in H.
    eapply Forall_impl; [|exact H].
    intros x (_ & _ & Hg & Hy). cbv beta. rewrite <- Et. split; [exact Hg|exact Hy].
Qed.

Lemma get_muhasebe_data_revenue_cost_witness :
  exists m x,
    get_muhasebe_data Ornek.db_adet None None None = Success m
    /\ plaka_bazli m = [x]
    /\ pb_plaka x = "34ABC01"%string
    /\ pb_gelir x
       == Py.sum (map (fun g => Py.float_or0 (ag_net_agirlik g))
                    (filter (fun g => Sql.eq_text (ag_plaka g) "34ABC01"
                                      && tarih_filtre None (ag_tarih g)
                                      && negb (Spec.count_unit_listed (ag_birim g)))
                       (agirlik Ornek.db_adet))) * (1 # 2).
Proof.
  assert (Hnd : NoDup (map a_plaka [mkArac "34ABC01" "BİZİM" "KARGO ARACI" 1])).
  { constructor; [intros []|constructor]. }
  assert (Hunit : forall g, In g (agirlik Ornek.db_adet) -> ag_birim g <> None).
  { intros g [<-|[<-|[]]]; discriminate. }
  eexists. eexists. split; [reflexivity|]. split; [reflexivity|].
  split; [reflexivity|].
  pose proof (get_muhasebe_data_revenue_cost Ornek.db_adet _ None None None _
                eq_refl Hnd Hunit eq_refl) as H.
  cbv zeta in H. destruct H as [_ H].
  inversion H as [|x l [Hg _] _]; subst. exact Hg.
Defined.

(** C5, as the specification words it, fails on a weight ticket whose unit
    is spelled "ADet": it is a count unit in any letter case, yet its net
    weight of 100 enters the revenue of the plate, 550 instead of 500. *)
Lemma revenue_counts_other_spelling :
  exists m x,
    get_muhasebe_data Ornek.db_adet None None None = Success m
    /\ plaka_bazli m = [x]
    /\ pb_plaka x = "34ABC01"%string
    /\ Spec.count_unit (Some "ADet"%string) = true
    /\ pb_gelir x == 550
    /\ Spec.revenue Ornek.db_adet "34ABC01" == 500
    /\ ~ pb_gelir x == Spec.revenue Ornek.db_adet (pb_plaka x).
Proof.
  eexists. eexists. split; [reflexivity|].
  split; [reflexivity|]. split; [reflexivity|]. split; [reflexivity|].
  split; [reflexivity|]. split; [reflexivity|].
  intro H. vm_compute in H. discriminate H.
Qed.

(** * Further properties of the code *)

(** ** The reconstructed distance: its sign *)

(** The reconstructed distance of a plate is never negative. *)
Theorem hesapla_gercek_km_nonneg (db : Db) (plaka : string) :
  0 <= hesapla_gercek_km db plaka.
Proof.
  unfold hesapla_gercek_km. rewrite ardisik_farklar_spec.
  apply positive_deltas_nonneg.
Qed.

(** ** The reconstructed distance: which rows count *)

(** A fuel row of another plate, or without a positive odometer reading,
    changes nothing in the reconstructed distance of a plate, wherever it
    stands in the table. *)
Theorem hesapla_gercek_km_foreign_row (y1 y2 : list Yakit) (r : Yakit)
  (g : list Agirlik) (vs : option (list Arac)) (plaka : string) :
  y_plaka r <> Some plaka \/ Sql.not_null_gt0 (y_km_bilgisi r) = false ->
  hesapla_gercek_km (mkDb (y1 ++ r :: y2) g vs) plaka
  = hesapla_gercek_km (mkDb (y1 ++ y2) g vs) plaka.
Proof.
  intro H. unfold hesapla_gercek_km, km_satirlari. cbn [yakit].
  rewrite !filter_app. cbn [filter].
  assert (E : km_kaydi plaka r = false).
  { unfold km_kaydi. destruct H as [H|H].
    - destruct (Sql.eq_text (y_plaka r) plaka) eqn:Et; [|reflexivity].
      apply eq_text_true in Et. contradiction.
    - rewrite H. apply andb_false_r. }
  rewrite E. reflexivity.
Qed.

Lemma hesapla_gercek_km_foreign_row_witness :
  hesapla_gercek_km
    (mkDb ([Ornek.yakit_satiri 1 "34ABC01" "2024-01-01" 10 400 100]
           ++ Ornek.yakit_satiri 9 "06XYZ99" "2024-01-01" 10 400 90000
              :: [Ornek.yakit_satiri 2 "34ABC01" "2024-01-02" 10 400 250]) [] None)
    "34ABC01"
  = hesapla_gercek_km
      (mkDb ([Ornek.yakit_satiri 1 "34ABC01" "2024-01-01" 10 400 100]
             ++ [Ornek.yakit_satiri 2 "34ABC01" "2024-01-02" 10 400 250]) [] None)
      "34ABC01".
Proof.
  apply hesapla_gercek_km_foreign_row. left. discriminate.
Defined.

(** ** The reconstructed distance: the order of the table *)

Lemma string_compare_OT (a b : string) :
  String.compare a b = OrdersEx.String_as_OT.compare a b.
Proof.
  revert b. induction a as [|c a IH]; intros [|d b]; reflexivity.
Qed.

Lemma string_compare_trans (a b c : string) :
  String.compare a b = Lt -> String.compare b c = Lt -> String.compare a c = Lt.
Proof.
  rewrite !string_compare_OT.
  apply (@StrictOrder_Transitive _ _ OrdersEx.String_as_OT.lt_strorder).
Qed.

Lemma string_compare_refl (a : string) : String.compare a a = Eq.
Proof.
  destruct (String.compare a a) eqn:E; [reflexivity| |];
    pose proof (String.compare_antisym a a) as H; rewrite E in H; discriminate H.
Qed.

Lemma text_compare_eq (a b : option string) : Sql.text_compare a b = Eq -> a = b.
Proof.
  destruct a as [x|], b as [y|]; simpl; intro H; try discriminate; [|reflexivity].
  f_equal. apply String.compare_eq_iff, H.
Qed.

Lemma text_compare_refl (a : option string) : Sql.text_compare a a = Eq.
Proof. destruct a; simpl; [apply string_compare_refl|reflexivity]. Qed.

Lemma text_compare_trans (a b c : option string) :
  Sql.text_compare a b = Lt -> Sql.text_compare b c = Lt -> Sql.text_compare a c = Lt.
Proof.
  destruct a as [x|], b as [y|], c as [z|]; simpl; try congruence.
  apply string_compare_trans.
Qed.

Lemma tarih_id_leb_trans (r1 r2 r3 : Yakit) :
  tarih_id_leb r1 r2 = true -> tarih_id_leb r2 r3 = true -> tarih_id_leb r1 r3 = true.
Proof.
  unfold tarih_id_leb.
  destruct (Sql.text_compare (y_islem_tarihi r1) (y_islem_tarihi r2)) eqn:E12;
    destruct (Sql.text_compare (y_islem_tarihi r2) (y_islem_tarihi r3)) eqn:E23;
    intros H1 H2; try discriminate.
  - apply text_compare_eq in E12, E23. rewrite E12, E23, text_compare_refl.
    apply Z.leb_le in H1, H2. apply Z.leb_le. lia.
  - apply text_compare_eq in E12. rewrite E12, E23. reflexivity.
  - apply text_compare_eq in E23. rewrite <- E23, E12. reflexivity.
  - rewrite (text_compare_trans _ _ _ E12 E23). reflexivity.
Qed.

Lemma tarih_id_leb_antisym (r1 r2 : Yakit) :
  tarih_id_leb r1 r2 = true -> tarih_id_leb r2 r1 = true -> y_id r1 = y_id r2.
Proof.
  unfold tarih_id_leb.
  rewrite (text_compare_antisym (y_islem_tarihi r2) (y_islem_tarihi r1)).
  destruct (Sql.text_compare (y_islem_tarihi r1) (y_islem_tarihi r2)); simpl;
    intros H1 H2; try discriminate.
  apply Z.leb_le in H1, H2. lia.
Qed.

(** Two sorted arrangements of the same elements are the same list when
    elements that precede each other are equal. *)
Lemma sorted_perm_unique {A : Type} (leb : A -> A -> bool) (l1 l2 : list A) :
  (forall a b c, leb a b = true -> leb b c = true -> leb a c = true) ->
  (forall a b, In a l1 -> In b l1 -> leb a b = true -> leb b a = true -> a = b) ->
  Sorted (fun a b => leb a b = true) l1 ->
  Sorted (fun a b => leb a b = true) l2 ->
  Permutation l1 l2 -> l1 = l2.
Proof.
  intros Htr. revert l2. induction l1 as [|a t1 IH]; intros l2 Hanti S1 S2 P.
  - apply Permutation_nil in P. congruence.
  - destruct l2 as [|b t2]; [apply Permutation_sym, Permutation_nil in P; discriminate|].
    apply Sorted_StronglySorted in S1; [|intros x y z; apply Htr].
    apply Sorted_StronglySorted in S2; [|intros x y z; apply Htr].
    inversion S1 as [|? ? S1' F1]; inversion S2 as [|? ? S2' F2]; subst.
    assert (Eab : a = b).
    { assert (Hb : In b (a :: t1)).
      { apply (Permutation_in _ (Permutation_sym P)). left. reflexivity. }
      assert (Ha : In a (b :: t2)).
      { apply (Permutation_in _ P). left. reflexivity. }
      destruct Hb as [E|Hb]; [exact E|].
      destruct Ha as [E|Ha]; [symmetry; exact E|].
      apply Hanti; [left; reflexivity|right; exact Hb| |].
      - rewrite Forall_forall in F1. apply F1, Hb.
      - rewrite Forall_forall in F2. apply F2, Ha. }
    subst b. f_equal. apply IH.
    + intros x y Hx Hy. apply Hanti; right; assumption.
    + apply StronglySorted_Sorted, S1'.
    + apply StronglySorted_Sorted, S2'.
    + apply Permutation_cons_inv with a, P.
Qed.

Lemma nodup_map_inj {A B : Type} (f : A -> B) (l : list A) (x y : A) :
  NoDup (map f l) -> In x l -> In y l -> f x = f y -> x = y.
Proof.
  induction l as [|a l IH]; simpl; intros H Hx Hy E; [contradiction|].
  inversion H as [|? ? Hn Hd]; subst.
  destruct Hx as [->|Hx], Hy as [->|Hy].
  - reflexivity.
  - exfalso. apply Hn. rewrite E. apply in_map, Hy.
  - exfalso. apply Hn. rewrite <- E. apply in_map, Hx.
  - apply IH; assumption.
Qed.

Lemma filter_perm {A : Type} (f : A -> bool) (l l' : list A) :
  Permutation l l' -> Permutation (filter f l) (filter f l').
Proof.
  induction 1 as [|x l l' P IH|x z l|l l' l'' P1 IH1 P2 IH2]; simpl.
  - constructor.
  - destruct (f x); [apply perm_skip|]; exact IH.
  - destruct (f x), (f z); try apply Permutation_refl. apply perm_swap.
  - eapply perm_trans; eassumption.
Qed.

(** With row ids that are unique, the reconstructed distance does not
    depend on the order in which the table holds its rows: the query's
    [ORDER BY islem_tarihi, id] fixes the sequence of readings. *)
Theorem hesapla_gercek_km_table_order (y y' : list Yakit) (g g' : list Agirlik)
  (vs vs' : option (list Arac)) (plaka : string) :
  NoDup (map y_id y) ->
  Permutation y y' ->
  km_satirlari (mkDb y g vs) plaka = km_satirlari (mkDb y' g' vs') plaka
  /\ hesapla_gercek_km (mkDb y g vs) plaka = hesapla_gercek_km (mkDb y' g' vs') plaka.
Proof.
  intros Hnd P.
  assert (E : km_satirlari (mkDb y g vs) plaka = km_satirlari (mkDb y' g' vs') plaka).
  { unfold km_satirlari, Sql.order_by. cbn [yakit].
    apply (sorted_perm_unique tarih_id_leb).
    - exact tarih_id_leb_trans.
    - intros a b Ha Hb H1 H2.
      apply (Permutation_in _ (sort_perm tarih_id_leb _)) in Ha, Hb.
      apply filter_In in Ha as [Ha _]. apply filter_In in Hb as [Hb _].
      apply (nodup_map_inj y_id y a b Hnd Ha Hb).
      apply tarih_id_leb_antisym; assumption.
    - apply sort_sorted, tarih_id_leb_total.
    - apply sort_sorted, tarih_id_leb_total.
    - eapply perm_trans; [apply sort_perm|].
      eapply perm_trans; [|apply Permutation_sym, sort_perm].
      apply filter_perm, P. }
  split; [exact E|]. unfold hesapla_gercek_km. rewrite E. reflexivity.
Qed.

Lemma hesapla_gercek_km_table_order_witness :
  hesapla_gercek_km
    (mkDb [Ornek.yakit_satiri 1 "34ABC01" "2024-01-01" 10 400 100;
           Ornek.yakit_satiri 2 "34ABC01" "2024-01-02" 10 400 250] [] None) "34ABC01"
  = hesapla_gercek_km
      (mkDb [Ornek.yakit_satiri 2 "34ABC01" "2024-01-02" 10 400 250;
             Ornek.yakit_satiri 1 "34ABC01" "2024-01-01" 10 400 100] [] None) "34ABC01".
Proof.
  apply hesapla_gercek_km_table_order.
  - repeat constructor; simpl; intuition discriminate.
  - apply perm_swap.
Defined.

(** ** The readers of the tables *)

Lemma forallb_filter {A : Type} (m q : A -> bool) (l : list A) :
  forallb q (filter m l) = forallb (fun a => negb (m a) || q a) l.
Proof.
  induction l as [|a l IH]; simpl; [reflexivity|].
  destruct (m a); simpl; rewrite IH; reflexivity.
Qed.

(** In a table with unique plates a row matches no vehicle or one. *)
Lemma matches_at_most_one (vs : list Arac) (col : option string) :
  NoDup (map a_plaka vs) ->
  filter (fun a => Sql.eq_text col (a_plaka a)) vs = []
  \/ exists a, filter (fun a => Sql.eq_text col (a_plaka a)) vs = [a].
Proof.
  intro Hnd.
  destruct (filter (fun a => Sql.eq_text col (a_plaka a)) vs) as [|a ms] eqn:E;
    [left; reflexivity|right].
  assert (Ha : In a (filter (fun a => Sql.eq_text col (a_plaka a)) vs)).
  { rewrite E. left. reflexivity. }
  apply filter_In in Ha as [Ha Hm]. apply eq_text_true in Hm. subst col.
  rewrite (unique_match vs a Hnd Ha) in E. injection E as <-. exists a. reflexivity.
Qed.

Lemma left_join_rows {R : Type} (plaka_of : R -> option string) (vs : list Arac)
  (rows : list R) :
  NoDup (map a_plaka vs) ->
  flat_map (fun r =>
              match filter (fun a => Sql.eq_text (plaka_of r) (a_plaka a)) vs with
              | [] => [r]
              | ms => map (fun _ => r) (filter aktif ms)
              end) rows
  = filter (fun r =>
              forallb aktif (filter (fun a => Sql.eq_text (plaka_of r) (a_plaka a)) vs))
      rows.
Proof.
  intro Hnd.
  set (f := fun r : R =>
              match filter (fun a => Sql.eq_text (plaka_of r) (a_plaka a)) vs with
              | [] => [r]
              | ms => map (fun _ => r) (filter aktif ms)
              end).
  set (q := fun r : R =>
              forallb aktif (filter (fun a => Sql.eq_text (plaka_of r) (a_plaka a)) vs)).
  induction rows as [|r rows IH]; [reflexivity|].
  change (f r ++ flat_map f rows = if q r then r :: filter q rows else filter q rows).
  rewrite IH. unfold f, q.
  destruct (matches_at_most_one vs (plaka_of r) Hnd) as [E|[a E]]; rewrite E.
  - reflexivity.
  - cbn [filter forallb]. destruct (aktif a); reflexivity.
Qed.

(** With each plate held once in [araclar], [get_yakit_data] and
    [get_agirlik_data] return, in table order and each once, exactly the
    rows whose plate is not that of an inactive vehicle: rows of unknown
    plates and rows without a plate are kept. *)
Theorem get_data_active_rows (db : Db) (vs : list Arac) :
  araclar db = Some vs ->
  NoDup (map a_plaka vs) ->
  get_yakit_data db
  = filter (fun y =>
              forallb aktif (filter (fun a => Sql.eq_text (y_plaka y) (a_plaka a)) vs))
      (yakit db)
  /\ Tablolar.get_agirlik_data db
     = filter (fun g =>
                 forallb aktif (filter (fun a => Sql.eq_text (ag_plaka g) (a_plaka a)) vs))
         (agirlik db).
Proof.
  intros Hvs Hnd. unfold get_yakit_data, Tablolar.get_agirlik_data. rewrite Hvs.
  split; apply left_join_rows, Hnd.
Qed.

Lemma get_data_active_rows_witness :
  get_yakit_data
    (mkDb (yakit Ornek.db_46AJH283) []
       (Some [mkArac "46AJH283" "BİZİM" "KARGO ARACI" 0]))
  = [Ornek.yakit_satiri 5 "34ABC01" "2024-01-02" 20 800 77000].
Proof.
  destruct (get_data_active_rows
              (mkDb (yakit Ornek.db_46AJH283) []
                 (Some [mkArac "46AJH283" "BİZİM" "KARGO ARACI" 0]))
              [mkArac "46AJH283" "BİZİM" "KARGO ARACI" 0] eq_refl) as [H _].
  - constructor; [intros []|constructor].
  - rewrite H. reflexivity.
Defined.

(** Without the table [araclar], or with an empty one, both readers return
    every row of their table. *)
Theorem get_data_fallback (db : Db) :
  araclar db = None \/ araclar db = Some [] ->
  get_yakit_data db = yakit db /\ Tablolar.get_agirlik_data db = agirlik db.
Proof.
  intros [H|H]; unfold get_yakit_data, Tablolar.get_agirlik_data; rewrite H;
    split; try reflexivity; simpl; apply flat_map_singleton.
Qed.

Lemma get_data_fallback_witness :
  get_yakit_data Ornek.db_araclar_bos = yakit Ornek.db_araclar_bos
  /\ Tablolar.get_agirlik_data Ornek.db_araclar_bos = agirlik Ornek.db_araclar_bos.
Proof.
  apply get_data_fallback. right. reflexivity.
Defined.

Lemma group_keys_nodup (keys : list string) : NoDup (Sql.group_keys keys).
Proof.
  induction keys as [|k keys IH]; simpl; constructor.
  - intro H. apply filter_In in H as [_ H].
    rewrite String.eqb_refl in H. discriminate H.
  - apply NoDup_filter, IH.
Qed.

Lemma in_non_null (p : string) (col : list (option string)) :
  In p (Tablolar.non_null col) <-> In (Some p) col.
Proof.
  unfold Tablolar.non_null. rewrite in_flat_map. split.
  - intros [[q|] [Hq Hp]]; simpl in Hp; [|contradiction].
    destruct Hp as [->|[]]. exact Hq.
  - intro H. exists (Some p). split; [exact H|left; reflexivity].
Qed.

Lemma sorted_nodup_strict (l : list string) :
  NoDup l -> Sorted (fun a b => String.leb a b = true) l ->
  Sorted (fun a b => String.ltb a b = true) l.
Proof.
  induction l as [|a l IH]; intros Hnd Hs; constructor.
  - apply IH; [inversion Hnd; assumption|inversion Hs; assumption].
  - inversion Hs as [|? ? _ Hh]; subst. inversion Hnd as [|? ? Hn _]; subst.
    destruct Hh as [|b l Hab]; constructor.
    unfold String.leb in Hab. unfold String.ltb.
    destruct (String.compare a b) eqn:E; [|reflexivity|discriminate Hab].
    apply String.compare_eq_iff in E. subst b. exfalso. apply Hn. left. reflexivity.
Qed.

(** [get_all_plakas] lists, in strictly ascending order, the plates that
    occur in [yakit], [agirlik] or [arac_takip]; when [araclar] exists and
    holds an active vehicle, only the plates of active vehicles among
    them; with no active vehicle at all the list is not narrowed. *)
Theorem get_all_plakas_spec (db : Db) (arac_takip : list (option string)) (p : string) :
  Sorted (fun a b => String.ltb a b = true) (Tablolar.get_all_plakas db arac_takip)
  /\ (In p (Tablolar.get_all_plakas db arac_takip)
      <-> (In (Some p) (map y_plaka (yakit db))
           \/ In (Some p) (map ag_plaka (agirlik db))
           \/ In (Some p) arac_takip)
          /\ match araclar db with
             | Some vs =>
                 filter aktif vs = []
                 \/ exists a, In a vs /\ aktif a = true /\ a_plaka a = p
             | None => True
             end).
Proof.
  unfold Tablolar.get_all_plakas.
  set (all := Sql.group_keys _).
  assert (Hall : In p all
                 <-> In (Some p) (map y_plaka (yakit db))
                     \/ In (Some p) (map ag_plaka (agirlik db))
                     \/ In (Some p) arac_takip).
  { unfold all. rewrite group_keys_in, !in_app_iff, !in_non_null. reflexivity. }
  assert (Hnd : NoDup all) by apply group_keys_nodup.
  set (narrowed := match araclar db with Some vs => _ | None => all end).
  assert (Hn : NoDup narrowed
               /\ (In p narrowed
                   <-> In p all
                       /\ match araclar db with
                          | Some vs =>
                              filter aktif vs = []
                              \/ exists a, In a vs /\ aktif a = true /\ a_plaka a = p
                          | None => True
                          end)).
  { unfold narrowed. destruct (araclar db) as [vs|]; [|split; [exact Hnd|tauto]].
    destruct (filter aktif vs) as [|a0 act] eqn:Ea; cbn [map].
    - split; [exact Hnd|]. split; [intro H; split; [exact H|left; reflexivity]|tauto].
    - split; [apply NoDup_filter, Hnd|].
      rewrite filter_In, existsb_exists. split.
      + intros [Hp [q [Hq Hpq]]]. split; [exact Hp|right].
        apply String.eqb_eq in Hpq. subst q.
        change (a_plaka a0 :: map a_plaka act) with (map a_plaka (a0 :: act)) in Hq.
        rewrite <- Ea in Hq. apply in_map_iff in Hq as [a [Hap Ha]].
        apply filter_In in Ha as [Ha Hak]. exists a. auto.
      + intros [Hp [Hf|[a (Ha & Hak & Hap)]]]; [discriminate Hf|].
        split; [exact Hp|]. exists p. split; [|apply String.eqb_refl].
        change (a_plaka a0 :: map a_plaka act) with (map a_plaka (a0 :: act)).
        rewrite <- Ea, <- Hap. apply in_map, filter_In. auto. }
  destruct Hn as [Hnn Hin].
  split.
  - apply sorted_nodup_strict.
    + apply (Permutation_NoDup (Permutation_sym (sort_perm String.leb narrowed))), Hnn.
    + apply sort_sorted. intros a b H.
      destruct (String.leb_total a b) as [H'|H']; [congruence|exact H'].
  - rewrite <- Hall, <- Hin. split; intro H.
    + apply (Permutation_in _ (sort_perm String.leb narrowed)), H.
    + apply (Permutation_in _ (Permutation_sym (sort_perm String.leb narrowed))), H.
Qed.

Lemma get_all_plakas_spec_witness :
  In "34ABC01"%string (Tablolar.get_all_plakas Ornek.db_adet [Some "06XYZ99"%string])
  /\ ~ In "06XYZ99"%string (Tablolar.get_all_plakas Ornek.db_adet [Some "06XYZ99"%string]).
Proof.
  split.
  - apply (proj2 (get_all_plakas_spec Ornek.db_adet [Some "06XYZ99"%string] "34ABC01")).
    split; [left; left; reflexivity|].
    right. eexists. split; [left; reflexivity|]. split; reflexivity.
  - intro H.
    apply (proj2 (get_all_plakas_spec Ornek.db_adet [Some "06XYZ99"%string] "06XYZ99")) in H.
    destruct H as [_ [H|[a (Ha & _ & Hp)]]]; [discriminate H|].
    destruct Ha as [<-|[]]. discriminate Hp.
Defined.

(** ** The lists of active vehicles *)

Lemma aktif_tip_weaken (tip : string) (a : Arac) :
  Tablolar.aktif_tip tip false a = true -> Tablolar.aktif_tip tip true a = true.
Proof.
  unfold Tablolar.aktif_tip. intro H. apply andb_true_iff in H. tauto.
Qed.

Lemma aktif_tip_type (tip : string) (dahil : bool) (a : Arac) :
  Tablolar.aktif_tip tip dahil a = true -> a_aktif a = 1%Z /\ a_arac_tipi a = tip.
Proof.
  unfold Tablolar.aktif_tip, aktif. destruct dahil; intro H.
  - apply andb_true_iff in H as [H1 H2].
    apply Z.eqb_eq in H1. apply String.eqb_eq in H2. auto.
  - apply andb_true_iff in H as [H _]. apply andb_true_iff in H as [H1 H2].
    apply Z.eqb_eq in H1. apply String.eqb_eq in H2. auto.
Qed.

Lemma kargo_as_tip (dahil : bool) (a : Arac) :
  (if dahil then aktif_kargo a
   else aktif_kargo a && String.eqb (a_sahip a) "BİZİM")
  = Tablolar.aktif_tip "KARGO ARACI" dahil a.
Proof. destruct dahil; reflexivity. Qed.

(** Every plate of the three lists of active vehicles is that of an
    active vehicle of the list's type; the lists of own vehicles are
    contained in the lists that include the subcontractors; and with each
    plate held once in [araclar], no plate is in the lists of two types. *)
Theorem aktif_lists (db : Db) (vs : list Arac) (d1 d2 : bool) (p : string) :
  araclar db = Some vs ->
  NoDup (map a_plaka vs) ->
  (In p (get_aktif_kargo_araclari db false) -> In p (get_aktif_kargo_araclari db true))
  /\ (In p (Tablolar.get_aktif_binek_araclar db false)
      -> In p (Tablolar.get_aktif_binek_araclar db true))
  /\ (In p (Tablolar.get_aktif_is_makineleri db false)
      -> In p (Tablolar.get_aktif_is_makineleri db true))
  /\ (In p (get_aktif_kargo_araclari db d1) ->
      exists a, In a vs /\ a_plaka a = p /\ a_aktif a = 1%Z
                /\ a_arac_tipi a = "KARGO ARACI"%string)
  /\ ~ (In p (get_aktif_kargo_araclari db d1)
        /\ In p (Tablolar.get_aktif_binek_araclar db d2))
  /\ ~ (In p (get_aktif_kargo_araclari db d1)
        /\ In p (Tablolar.get_aktif_is_makineleri db d2))
  /\ ~ (In p (Tablolar.get_aktif_binek_araclar db d1)
        /\ In p (Tablolar.get_aktif_is_makineleri db d2)).
Proof.
  intros Hvs Hnd.
  unfold get_aktif_kargo_araclari, Tablolar.get_aktif_binek_araclar,
    Tablolar.get_aktif_is_makineleri.
  rewrite Hvs.
  assert (K : forall dahil : bool,
             filter (fun a => if dahil then aktif_kargo a
                              else aktif_kargo a && String.eqb (a_sahip a) "BİZİM") vs
             = filter (Tablolar.aktif_tip "KARGO ARACI" dahil) vs).
  { intro dahil. apply filter_ext. intro a. apply kargo_as_tip. }
  rewrite !K.
  assert (W : forall tip,
             In p (map a_plaka (filter (Tablolar.aktif_tip tip false) vs)) ->
             In p (map a_plaka (filter (Tablolar.aktif_tip tip true) vs))).
  { intros tip H. apply in_map_iff in H as [a [Hp Ha]].
    apply filter_In in Ha as [Ha Ht]. apply in_map_iff. exists a.
    split; [exact Hp|]. apply filter_In. split; [exact Ha|apply aktif_tip_weaken, Ht]. }
  assert (T : forall tip dahil,
             In p (map a_plaka (filter (Tablolar.aktif_tip tip dahil) vs)) ->
             exists a, In a vs /\ a_plaka a = p /\ a_aktif a = 1%Z /\ a_arac_tipi a = tip).
  { intros tip dahil H. apply in_map_iff in H as [a [Hp Ha]].
    apply filter_In in Ha as [Ha Ht]. apply aktif_tip_type in Ht as [H1 H2].
    exists a. auto. }
  assert (D : forall tip tip' dahil dahil',
             tip <> tip' ->
             ~ (In p (map a_plaka (filter (Tablolar.aktif_tip tip dahil) vs))
                /\ In p (map a_plaka (filter (Tablolar.aktif_tip tip' dahil') vs)))).
  { intros tip tip' dahil dahil' N [H1 H2].
    apply T in H1 as [a (Ha & Hp & _ & Ht)]. apply T in H2 as [a' (Ha' & Hp' & _ & Ht')].
    assert (a = a') by (apply (nodup_map_inj a_plaka vs a a' Hnd Ha Ha'); congruence).
    subst a'. congruence. }
  split; [apply W|]. split; [apply W|]. split; [apply W|].
  split; [apply T|].
  split; [apply D; discriminate|]. split; apply D; discriminate.
Qed.

Lemma aktif_lists_witness :
  In "34ABC01"%string (get_aktif_kargo_araclari Ornek.db_adet true)
  /\ ~ In "34ABC01"%string (Tablolar.get_aktif_binek_araclar Ornek.db_adet true).
Proof.
  assert (Hnd : NoDup (map a_plaka [mkArac "34ABC01" "BİZİM" "KARGO ARACI" 1])).
  { constructor; [intros []|constructor]. }
  destruct (aktif_lists Ornek.db_adet _ true true "34ABC01" eq_refl Hnd)
    as (W & _ & _ & _ & D & _).
  assert (H : In "34ABC01"%string (get_aktif_kargo_araclari Ornek.db_adet true)).
  { apply W. left. reflexivity. }
  split; [exact H|]. intro H'. apply D. split; assumption.
Defined.

(** ** The vehicle table: add, update, delete *)

Lemma kayitli_in (plaka : string) (rows : list Araclar.AracSatiri) :
  Araclar.kayitli plaka rows = true <-> In plaka (map Araclar.s_plaka rows).
Proof.
  unfold Araclar.kayitli. rewrite existsb_exists, in_map_iff.
  split; intros [s [H1 H2]]; exists s.
  - apply String.eqb_eq in H2. auto.
  - split; [exact H2|]. apply String.eqb_eq, H1.
Qed.

Lemma kayitli_not_in (plaka : string) (rows : list Araclar.AracSatiri) :
  Araclar.kayitli plaka rows = false <-> ~ In plaka (map Araclar.s_plaka rows).
Proof.
  rewrite <- kayitli_in. destruct (Araclar.kayitli plaka rows); split; congruence.
Qed.

Lemma kayitli_app (p : string) (l1 l2 : list Araclar.AracSatiri) :
  Araclar.kayitli p (l1 ++ l2) = Araclar.kayitli p l1 || Araclar.kayitli p l2.
Proof. unfold Araclar.kayitli. apply existsb_app. Qed.

Lemma delete_absent (plaka : string) (rows : list Araclar.AracSatiri) :
  Araclar.kayitli plaka rows = false ->
  filter (fun s => negb (String.eqb (Araclar.s_plaka s) plaka)) rows = rows.
Proof.
  intro H. apply kayitli_not_in in H.
  induction rows as [|s rows IH]; [reflexivity|]. simpl.
  destruct (String.eqb_spec (Araclar.s_plaka s) plaka) as [E|N]; simpl.
  - exfalso. apply H. left. exact E.
  - f_equal. apply IH. intro Hin. apply H. right. exact Hin.
Qed.



(** Deleting a plate that was just added gives back the table as it was;
    deleting leaves no row of the plate, keeps every other row, and
    deleting again changes nothing. *)
Theorem delete_arac_spec (rows : list Araclar.AracSatiri) (plaka sahip arac_tipi notlar : string) :
  (Araclar.kayitli plaka rows = false ->
   forall kilit,
     fst (Araclar.delete_arac
            (fst (fst (Araclar.add_arac kilit (Some rows) plaka sahip arac_tipi notlar)))
            plaka)
     = Some rows)
  /\ exists rows',
      fst (Araclar.delete_arac (Some rows) plaka) = Some rows'
      /\ Araclar.kayitli plaka rows' = false
      /\ (forall s, In s rows' <-> In s rows /\ Araclar.s_plaka s <> plaka)
      /\ fst (Araclar.delete_arac (Some rows') plaka) = Some rows'.
Proof.
  split.
  - intros K kilit. unfold Araclar.add_arac. rewrite K.
    destruct kilit; cbn [fst Araclar.delete_arac].
    + rewrite filter_app, (delete_absent plaka rows K). cbn [filter Araclar.s_plaka].
      rewrite String.eqb_refl. cbn [negb]. rewrite app_nil_r. reflexivity.
    + rewrite (delete_absent plaka rows K). reflexivity.
  - cbn [Araclar.delete_arac fst]. eexists. split; [reflexivity|].
    assert (K : Araclar.kayitli plaka
                  (filter (fun s => negb (String.eqb (Araclar.s_plaka s) plaka)) rows)
                = false).
    { apply kayitli_not_in. intro H. apply in_map_iff in H as [s [Hp Hs]].
      apply filter_In in Hs as [_ Hs]. rewrite Hp, String.eqb_refl in Hs. discriminate Hs. }
    split; [exact K|]. split.
    + intro s. rewrite filter_In, negb_true_iff, String.eqb_neq. reflexivity.
    + rewrite (delete_absent plaka _ K). reflexivity.
Qed.

Lemma delete_arac_spec_witness :
  fst (Araclar.delete_arac
         (fst (fst (Araclar.add_arac Araclar.Serbest (Some [])
                      "34ABC01" "BİZİM" "KARGO ARACI" ""))) "34ABC01")
  = Some [].
Proof.
  apply (proj1 (delete_arac_spec [] "34ABC01" "BİZİM" "KARGO ARACI" "")). reflexivity.
Defined.

(** [update_arac] reports success whether or not the plate is registered.
    It never changes which plates the table holds, nor their order; it
    rewrites the rows of the plate with the values given and leaves the
    other rows as they are, so on an unknown plate nothing changes. *)
Theorem update_arac_spec (rows : list Araclar.AracSatiri) (plaka sahip arac_tipi : string)
  (aktif : Z) (notlar : string) :
  exists rows',
    Araclar.update_arac (Some rows) plaka sahip arac_tipi aktif notlar
    = (Some rows', Success "Araç güncellendi"%string)
    /\ map Araclar.s_plaka rows' = map Araclar.s_plaka rows
    /\ (forall s, In s rows' -> Araclar.s_plaka s = plaka ->
                  s = Araclar.mkAracSatiri plaka sahip arac_tipi notlar aktif)
    /\ (forall s, Araclar.s_plaka s <> plaka -> (In s rows' <-> In s rows))
    /\ (Araclar.kayitli plaka rows = false -> rows' = rows).
Proof.
  eexists. split; [reflexivity|].
  set (f := fun s => if String.eqb (Araclar.s_plaka s) plaka
                     then Araclar.mkAracSatiri (Araclar.s_plaka s) sahip arac_tipi notlar aktif
                     else s).
  assert (Hf : forall s, Araclar.s_plaka (f s) = Araclar.s_plaka s).
  { intro s. unfold f. destruct (String.eqb (Araclar.s_plaka s) plaka); reflexivity. }
  split.
  { rewrite map_map. apply map_ext. exact Hf. }
  split.
  { intros s Hs Hp. apply in_map_iff in Hs as [s0 [E Hs0]]. subst s.
    rewrite Hf in Hp. unfold f. rewrite Hp, String.eqb_refl. reflexivity. }
  split.
  { intros s N. rewrite in_map_iff. split.
    - intros [s0 [E Hs0]]. subst s. rewrite Hf in N. unfold f.
      apply String.eqb_neq in N. rewrite N. exact Hs0.
    - intro Hs. exists s. split; [|exact Hs]. unfold f.
      apply String.eqb_neq in N. rewrite N. reflexivity. }
  intro K. apply kayitli_not_in in K.
  induction rows as [|s rows IH]; [reflexivity|]. cbn [map]. f_equal.
  - unfold f. destruct (String.eqb_spec (Araclar.s_plaka s) plaka) as [E|]; [|reflexivity].
    exfalso. apply K. left. exact E.
  - apply IH. intro H. apply K. right. exact H.
Qed.

Lemma update_arac_spec_witness :
  fst (Araclar.update_arac
         (Some [Araclar.mkAracSatiri "34ABC01" "BİZİM" "KARGO ARACI" "" 1])
         "06XYZ99" "TAŞERON" "BİNEK ARAÇ" 0 "")
  = Some [Araclar.mkAracSatiri "34ABC01" "BİZİM" "KARGO ARACI" "" 1].
Proof.
  destruct (update_arac_spec [Araclar.mkAracSatiri "34ABC01" "BİZİM" "KARGO ARACI" "" 1]
              "06XYZ99" "TAŞERON" "BİNEK ARAÇ" 0 "") as [rows' (E & _ & _ & _ & H)].
  rewrite E. cbn [fst]. f_equal. apply H. reflexivity.
Defined.

(** ** The vehicle table: bulk import *)

Lemma in_yakit_plakalari (p : string) (y : list Yakit) :
  In p (Araclar.yakit_plakalari y) <-> In (Some p) (map y_plaka y) /\ p <> ""%string.
Proof.
  unfold Araclar.yakit_plakalari.
  rewrite group_keys_in, filter_In, in_non_null, negb_true_iff, String.eqb_neq.
  reflexivity.
Qed.

(** [bulk_import_araclar] appends, for each distinct non-empty plate of
    [yakit] that is not registered, one active own cargo vehicle, and
    touches no existing row; plates stay unique, every such plate is
    registered afterwards, [eklenen] counts the rows added and [toplam] the
    rows of the table.  A second run adds nothing: it returns [eklenen = 0]
    and the same table. *)
Theorem bulk_import_araclar_spec (y : list Yakit) (rows : list Araclar.AracSatiri) :
  NoDup (map Araclar.s_plaka rows) ->
  exists rows' yeni,
    Araclar.bulk_import_araclar y (Some rows)
    = (Some rows', Success (Z.of_nat (List.length yeni), Z.of_nat (List.length rows')))
    /\ rows' = rows ++ yeni
    /\ Forall (fun s => Araclar.s_sahip s = "BİZİM"%string
                        /\ Araclar.s_arac_tipi s = "KARGO ARACI"%string
                        /\ Araclar.s_aktif s = 1%Z
                        /\ Araclar.kayitli (Araclar.s_plaka s) rows = false) yeni
    /\ NoDup (map Araclar.s_plaka rows')
    /\ (forall p, In (Some p) (map y_plaka y) -> p <> ""%string ->
                  Araclar.kayitli p rows' = true)
    /\ Araclar.bulk_import_araclar y (Some rows')
       = (Some rows', Success (0%Z, Z.of_nat (List.length rows'))).
Proof.
  intro Hnd.
  set (yeni_p := filter (fun p => negb (Araclar.kayitli p rows)) (Araclar.yakit_plakalari y)).
  set (yeni := map (fun p => Araclar.mkAracSatiri p "BİZİM" "KARGO ARACI" "Otomatik eklendi" 1)
                 yeni_p).
  exists (rows ++ yeni), yeni.
  assert (Hlen : List.length yeni = List.length yeni_p) by apply length_map.
  split.
  { unfold Araclar.bulk_import_araclar. fold yeni_p. fold yeni. rewrite Hlen. reflexivity. }
  split; [reflexivity|].
  split.
  { apply Forall_forall. intros s Hs. apply in_map_iff in Hs as [p [<- Hp]].
    apply filter_In in Hp as [_ Hp]. apply negb_true_iff in Hp. simpl. auto. }
  assert (Hplates : map Araclar.s_plaka yeni = yeni_p).
  { unfold yeni. rewrite map_map. apply map_id. }
  assert (Hcov : forall p, In (Some p) (map y_plaka y) -> p <> ""%string ->
                           Araclar.kayitli p (rows ++ yeni) = true).
  { intros p Hp Hne. rewrite kayitli_app.
    destruct (Araclar.kayitli p rows) eqn:K; [reflexivity|]. simpl.
    apply kayitli_in. rewrite Hplates. apply filter_In.
    split; [apply in_yakit_plakalari; auto|]. rewrite K. reflexivity. }
  split.
  { rewrite map_app, Hplates. apply NoDup_app; [exact Hnd| |].
    - apply NoDup_filter, group_keys_nodup.
    - intros p Hp Hy. apply filter_In in Hy as [_ Hy].
      apply negb_true_iff, kayitli_not_in in Hy. contradiction. }
  split; [exact Hcov|].
  unfold Araclar.bulk_import_araclar.
  assert (E : filter (fun p => negb (Araclar.kayitli p (rows ++ yeni)))
                (Araclar.yakit_plakalari y) = []).
  { apply filter_nil_iff. intros p Hp. apply in_yakit_plakalari in Hp as [Hp Hne].
    rewrite (Hcov p Hp Hne). reflexivity. }
  rewrite E. cbn [map List.length]. rewrite app_nil_r. reflexivity.
Qed.

Lemma bulk_import_araclar_spec_witness :
  exists rows',
    fst (Araclar.bulk_import_araclar (yakit Ornek.db_46AJH283) (Some [])) = Some rows'
    /\ map Araclar.s_plaka rows' = ["46AJH283"; "34ABC01"]%string
    /\ Araclar.bulk_import_araclar (yakit Ornek.db_46AJH283) (Some rows')
       = (Some rows', Success (0%Z, 2%Z)).
Proof.
  destruct (bulk_import_araclar_spec (yakit Ornek.db_46AJH283) [] (NoDup_nil _))
    as [rows' [yeni (E & Hr & _ & _ & _ & Hid)]].
  exists rows'. rewrite E. cbn [fst]. split; [reflexivity|].
  assert (Hrows : Some rows'
                  = fst (Araclar.bulk_import_araclar (yakit Ornek.db_46AJH283) (Some [])))
    by (rewrite E; reflexivity).
  vm_compute in Hrows. injection Hrows as ->.
  split; [reflexivity|]. rewrite Hid. reflexivity.
Defined.

(** After a bulk import into an empty vehicle table, the vehicles that
    [get_aktif_kargo_araclari] lists are the distinct non-empty plates of
    [yakit], so the plate filter of the analyses is no longer empty as soon
    as one fuel row has a plate. *)
Theorem bulk_import_then_aktif_kargo (y : list Yakit) (g : list Agirlik) (dahil : bool) :
  get_aktif_kargo_araclari
    (Araclar.db_of y g (fst (Araclar.bulk_import_araclar y (Some [])))) dahil
  = Araclar.yakit_plakalari y
  /\ plaka_filtre_uygula
       (Araclar.db_of y g (fst (Araclar.bulk_import_araclar y (Some []))))
     = match Araclar.yakit_plakalari y with [] => None | ps => Some ps end.
Proof.
  assert (E : forall d,
             get_aktif_kargo_araclari
               (Araclar.db_of y g (fst (Araclar.bulk_import_araclar y (Some [])))) d
             = Araclar.yakit_plakalari y).
  { intro d. unfold get_aktif_kargo_araclari, Araclar.bulk_import_araclar, Araclar.db_of.
    cbn [fst araclar option_map app Araclar.kayitli existsb negb].
    rewrite filter_true.
    induction (Araclar.yakit_plakalari y) as [|p ps IH]; [reflexivity|].
    cbn [map filter]. destruct d; cbn; rewrite IH; reflexivity. }
  split; [apply E|]. unfold plaka_filtre_uygula. rewrite E. reflexivity.
Qed.

(** ** Accounting: the totals and the list of plates *)


(** The dictionary behind a report: its keys are distinct and pass the
    plate clause of the queries. *)
Lemma muhasebe_dict (db : Db) (vs : list Arac) (b e plaka : option string) (m : Muhasebe) :
  araclar db = Some vs ->
  get_muhasebe_data db b e plaka = Success m ->
  exists d : list (string * PlakaVeri),
    NoDup (map fst d)
    /\ (forall p v, In (p, v) d ->
                    (exists a, In a vs /\ a_plaka a = p /\ aktif_kargo a = true)
                    /\ plaka_kosulu plaka (Some p) = true)
    /\ toplam_gelir m = Py.sum (map (fun pv => gelir (snd pv)) d)
    /\ toplam_gider m = Py.sum (map (fun pv => gider (snd pv)) d)
    /\ Permutation (plaka_bazli m) (map plaka_satiri d).
Proof.
  intros Hvs Hres. unfold get_muhasebe_data in Hres. rewrite Hvs in Hres.
  injection Hres as <-. cbn [toplam_gelir toplam_gider plaka_bazli].
  eexists. split; [|split; [|split; [reflexivity|split; [reflexivity|apply sort_perm]]]].
  - apply (pass_nodup (fun x v => mkPlakaVeri x (gider v))).
    apply (pass_nodup (fun x v => mkPlakaVeri (gelir v) x)). constructor.
  - intros p v Hpv.
    set (cy := fun y : Yakit =>
                 tarih_filtre (tarih_params b e) (y_islem_tarihi y)
                 && plaka_kosulu plaka (y_plaka y)).
    set (ca := fun g : Agirlik =>
                 tarih_filtre (tarih_params b e) (ag_tarih g)
                 && plaka_kosulu plaka (ag_plaka g)
                 && Sql.not_in (ag_birim g) ["Adet"; "adet"; "ADET"]%string).
    pose proof (plaka_veriler_entry y_satir_tutari
                  (fun g => option_map (fun w => w * (1 # 2)) (ag_net_agirlik g))
                  (filter (fun ya => cy (fst ya) && aktif_kargo (snd ya))
                     (inner_join y_plaka (yakit db) vs))
                  (filter (fun ga => ca (fst ga) && aktif_kargo (snd ga))
                     (inner_join ag_plaka (agirlik db) vs))
                  p v Hpv) as (Hkey & _ & _).
    destruct Hkey as [H|H].
    + refine (group_vehicle y_plaka cy plaka (yakit db) vs p _ H).
      intros y Hy. apply andb_true_iff in Hy. tauto.
    + refine (group_vehicle ag_plaka ca plaka (agirlik db) vs p _ H).
      intros g Hg. apply andb_true_iff in Hg as [Hg _]. apply andb_true_iff in Hg. tauto.
Qed.



(** ** The comparison endpoint: the date tests sent to the store *)

(** The dictionary [filters] holds the plate test and one date test at
    most: the end date when one is given, whatever the start date, and
    the start date only when there is no end date.  So with both dates the
    rows fetched for a plate, and the fuel and cost totals of its row, are
    those fetched with the end date alone. *)
Theorem filters_of_one_date_test
  (fetch_all_paginated : string -> list (string * string) -> list Yakit)
  (hesapla_gercek_km3 : string -> option string -> option string -> Q)
  (plaka : string) (baslangic bitis : option string) :
  App.filters_of plaka baslangic bitis
  = ("plaka", "eq." ++ plaka)%string
    :: (if Py.truthy bitis
        then [("islem_tarihi", "lte." ++ match bitis with Some e => e | None => "" end)]
        else if Py.truthy baslangic
             then [("islem_tarihi",
                    "gte." ++ match baslangic with Some b => b | None => "" end)]
             else [])%string
  /\ (Py.truthy bitis = true ->
      App.filters_of plaka baslangic bitis = App.filters_of plaka None bitis
      /\ App.k_toplam_yakit
           (App.karsilastir_satiri fetch_all_paginated hesapla_gercek_km3
              baslangic bitis plaka)
         = App.k_toplam_yakit
             (App.karsilastir_satiri fetch_all_paginated hesapla_gercek_km3
                None bitis plaka)
      /\ App.k_toplam_maliyet
           (App.karsilastir_satiri fetch_all_paginated hesapla_gercek_km3
              baslangic bitis plaka)
         = App.k_toplam_maliyet
             (App.karsilastir_satiri fetch_all_paginated hesapla_gercek_km3
                None bitis plaka)).
Proof.
  assert (E : App.filters_of plaka baslangic bitis
              = ("plaka", "eq." ++ plaka)%string
                :: (if Py.truthy bitis
                    then [("islem_tarihi",
                           "lte." ++ match bitis with Some e => e | None => "" end)]
                    else if Py.truthy baslangic
                         then [("islem_tarihi",
                                "gte." ++ match baslangic with Some b => b | None => "" end)]
                         else [])%string).
  { unfold App.filters_of.
    destruct baslangic as [b|], bitis as [e|];
      try destruct (Py.truthy (Some b)); try destruct (Py.truthy (Some e)); reflexivity. }
  split; [exact E|]. intro He.
  assert (E' : App.filters_of plaka baslangic bitis = App.filters_of plaka None bitis).
  { rewrite E. destruct bitis as [e|]; [|discriminate He].
    unfold App.filters_of. rewrite He. reflexivity. }
  split; [exact E'|]. unfold App.karsilastir_satiri.
  cbn [App.k_toplam_yakit App.k_toplam_maliyet]. rewrite E'. split; reflexivity.
Qed.

Lemma filters_of_one_date_test_witness :
  App.filters_of "34ABC01" (Some "2024-01-02"%string) (Some "2024-01-03"%string)
  = App.filters_of "34ABC01" None (Some "2024-01-03"%string).
Proof.
  apply (proj2 (filters_of_one_date_test Ornek.fetch_ornek Ornek.km3_ornek "34ABC01"
                  (Some "2024-01-02"%string) (Some "2024-01-03"%string))).
  reflexivity.
Defined.

(** ** The fleet prediction of [analyze] *)

Lemma dict_add_keys (k q : string) (x : Q) (d : list (string * Q)) :
  In q (map fst (Analiz.dict_add k x d)) <-> q = k \/ In q (map fst d).
Proof.
  induction d as [|[k' v] d IH]; simpl.
  - intuition.
  - destruct (String.eqb_spec k' k) as [->|N]; simpl.
    + intuition.
    + rewrite IH. intuition.
Qed.

Lemma dict_add_nodup (k : string) (x : Q) (d : list (string * Q)) :
  NoDup (map fst d) -> NoDup (map fst (Analiz.dict_add k x d)).
Proof.
  induction d as [|[k' v] d IH]; simpl; intro H.
  - constructor; [intros []|constructor].
  - inversion H as [|? ? Hk Hd]; subst.
    destruct (String.eqb_spec k' k) as [->|N]; simpl.
    + constructor; assumption.
    + constructor; [|apply IH, Hd].
      intro Hin. apply dict_add_keys in Hin as [->|Hin]; [congruence|contradiction].
Qed.

Lemma dict_get0_add_same (k : string) (x : Q) (d : list (string * Q)) :
  Analiz.dict_get0 k (Analiz.dict_add k x d) = Analiz.dict_get0 k d + x.
Proof.
  induction d as [|[k' v] d IH]; simpl.
  - rewrite String.eqb_refl. reflexivity.
  - destruct (String.eqb k' k) eqn:E; simpl; rewrite E; [reflexivity|exact IH].
Qed.

Lemma dict_get0_add_other (k q : string) (x : Q) (d : list (string * Q)) :
  k <> q -> Analiz.dict_get0 q (Analiz.dict_add k x d) = Analiz.dict_get0 q d.
Proof.
  intro N. induction d as [|[k' v] d IH]; simpl.
  - destruct (String.eqb_spec k q); [contradiction|reflexivity].
  - destruct (String.eqb_spec k' k) as [->|Hk]; simpl.
    + destruct (String.eqb_spec k q); [contradiction|reflexivity].
    + destruct (String.eqb k' q); [reflexivity|exact IH].
Qed.

Lemma dict_get0_in (p : string) (v : Q) (d : list (string * Q)) :
  NoDup (map fst d) -> In (p, v) d -> Analiz.dict_get0 p d = v.
Proof.
  induction d as [|[k w] d IH]; simpl; intros H Hin; [contradiction|].
  inversion H as [|? ? Hk Hd]; subst.
  destruct Hin as [E|Hin].
  - injection E as -> ->. rewrite String.eqb_refl. reflexivity.
  - destruct (String.eqb_spec k p) as [->|N]; [|apply IH; assumption].
    exfalso. apply Hk. apply (in_map fst) in Hin. exact Hin.
Qed.

(** The loop of [analyze] over the fuel rows, from any dictionary: keys
    stay distinct, every new key is the plate of a row with a positive
    amount, and the value of a plate grows by its positive amounts. *)
Lemma plaka_yakit_fold (rows : list Yakit) (d : list (string * Q)) (p : string) :
  let step := fun (plaka_yakit : list (string * Q)) (row : Yakit) =>
                if Py.Qltb 0 (Py.float_or0 (y_yakit_miktari row))
                then Analiz.dict_add (Analiz.py_str (y_plaka row))
                       (Py.float_or0 (y_yakit_miktari row)) plaka_yakit
                else plaka_yakit in
  let pozitif := filter (fun row =>
                           Py.Qltb 0 (Py.float_or0 (y_yakit_miktari row))
                           && String.eqb (Analiz.py_str (y_plaka row)) p) rows in
  NoDup (map fst d) ->
  NoDup (map fst (fold_left step rows d))
  /\ Analiz.dict_get0 p (fold_left step rows d)
     == Analiz.dict_get0 p d
        + Py.sum (map (fun row => Py.float_or0 (y_yakit_miktari row)) pozitif)
  /\ (In p (map fst (fold_left step rows d)) -> In p (map fst d) \/ pozitif <> []).
Proof.
  intros step pozitif. subst pozitif. revert d.
  induction rows as [|row rows IH]; intros d Hnd.
  - simpl. split; [exact Hnd|]. split; [unfold Py.sum; simpl; ring|auto].
  - cbn [fold_left filter].
    destruct (Py.Qltb 0 (Py.float_or0 (y_yakit_miktari row))) eqn:Ep.
    + assert (Es : step d row
                   = Analiz.dict_add (Analiz.py_str (y_plaka row))
                       (Py.float_or0 (y_yakit_miktari row)) d).
      { unfold step. rewrite Ep. reflexivity. }
      rewrite Es.
      destruct (IH _ (dict_add_nodup (Analiz.py_str (y_plaka row))
                        (Py.float_or0 (y_yakit_miktari row)) d Hnd)) as (H1 & H2 & H3).
      split; [exact H1|]. cbn [andb].
      destruct (String.eqb_spec (Analiz.py_str (y_plaka row)) p) as [Eq|N].
      * split.
        -- rewrite H2, Eq, dict_get0_add_same. cbn [map]. rewrite py_sum_cons. ring.
        -- intros _. right. discriminate.
      * split.
        -- rewrite H2, (dict_get0_add_other _ _ _ _ N). reflexivity.
        -- intro Hin. apply H3 in Hin. destruct Hin as [Hin|Hin]; [|right; exact Hin].
           apply dict_add_keys in Hin as [->|Hin]; [contradiction|left; exact Hin].
    + assert (Es : step d row = d).
      { unfold step. rewrite Ep. reflexivity. }
      rewrite Es. cbn [andb]. apply IH, Hnd.
Qed.

Lemma py_sum_pos (l : list Q) : l <> [] -> Forall (fun x => 0 < x) l -> 0 < Py.sum l.
Proof.
  intros Hne H. destruct l as [|x l]; [congruence|].
  inversion H as [|? ? Hx Hl]; subst. rewrite py_sum_cons.
  assert (0 <= Py.sum l).
  { apply py_sum_nonneg. eapply Forall_impl; [|exact Hl].
    intros a Ha. apply Qlt_le_weak, Ha. }
  lra.
Qed.

Lemma toplam_yakit_azalan_total (x y : Analiz.Tahmin) :
  Analiz.toplam_yakit_azalan x y = false -> Analiz.toplam_yakit_azalan y x = true.
Proof.
  unfold Analiz.toplam_yakit_azalan. intro H. apply Qle_bool_iff.
  destruct (Qlt_le_dec (Analiz.t_toplam_yakit x) (Analiz.t_toplam_yakit y)) as [Hlt|Hle].
  - apply Qlt_le_weak, Hlt.
  - apply Qle_bool_iff in Hle. congruence.
Qed.

(** The block of [analyze] that builds the fleet prediction: [plakalar]
    holds each plate once, [tahminler] has one entry per plate of
    [plakalar] and is in descending order of total fuel.  An entry exists
    only for a plate with a positive fuel amount; its total is the rounded
    sum of the plate's positive amounts, its predicted average equals its
    actual average, and its flag tells whether the plate is in
    [aktif_kargo]. *)
Theorem analyze_tahminler_spec
  (hesapla_gercek_km3 : string -> option string -> option string -> Q)
  (aktif_kargo : list string) (yakit_data : list Yakit) (b e : option string) :
  let plakalar := fst (Analiz.analyze_tahminler hesapla_gercek_km3 aktif_kargo yakit_data b e) in
  let tahminler := snd (Analiz.analyze_tahminler hesapla_gercek_km3 aktif_kargo yakit_data b e) in
  NoDup plakalar
  /\ Permutation (map Analiz.t_plaka tahminler) plakalar
  /\ StronglySorted (fun x y => Analiz.t_toplam_yakit y <= Analiz.t_toplam_yakit x) tahminler
  /\ Forall (fun t =>
               let toplam :=
                 Py.sum (map (fun row => Py.float_or0 (y_yakit_miktari row))
                           (filter (fun row =>
                                      Py.Qltb 0 (Py.float_or0 (y_yakit_miktari row))
                                      && String.eqb (Analiz.py_str (y_plaka row))
                                           (Analiz.t_plaka t)) yakit_data)) in
               0 < toplam
               /\ Analiz.t_toplam_yakit t == Py.round toplam 2
               /\ Analiz.t_tahmini_ortalama t == Analiz.t_gercek_ortalama t
               /\ Analiz.t_gercek_km t = Py.round (hesapla_gercek_km3 (Analiz.t_plaka t) b e) 2
               /\ Analiz.t_aktif t = existsb (String.eqb (Analiz.t_plaka t)) aktif_kargo)
       tahminler.
Proof.
  unfold Analiz.analyze_tahminler. cbn [fst snd].
  set (d := Analiz.plaka_yakit_topla yakit_data).
  assert (Hd : forall p,
             NoDup (map fst d)
             /\ Analiz.dict_get0 p d
                == 0 + Py.sum (map (fun row => Py.float_or0 (y_yakit_miktari row))
                                 (filter (fun row =>
                                            Py.Qltb 0 (Py.float_or0 (y_yakit_miktari row))
                                            && String.eqb (Analiz.py_str (y_plaka row)) p)
                                    yakit_data))
             /\ (In p (map fst d) ->
                 In p (@map (string * Q) string fst [])
                 \/ filter (fun row =>
                              Py.Qltb 0 (Py.float_or0 (y_yakit_miktari row))
                              && String.eqb (Analiz.py_str (y_plaka row)) p) yakit_data
                    <> [])).
  { intro p. exact (plaka_yakit_fold yakit_data [] p (NoDup_nil _)). }
  set (satir := Analiz.tahmin_satiri hesapla_gercek_km3 aktif_kargo b e).
  assert (P : Permutation (Stable.sort Analiz.toplam_yakit_azalan (map satir d)) (map satir d))
    by apply sort_perm.
  split; [apply (Hd ""%string)|].
  split.
  { rewrite (Permutation_map Analiz.t_plaka P), map_map. apply Permutation_refl. }
  split.
  { apply Sorted_StronglySorted.
    - intros x y z Hxy Hyz. apply Qle_trans with (Analiz.t_toplam_yakit y); assumption.
    - apply Sorted_weaken with (R := fun x y => Analiz.toplam_yakit_azalan x y = true).
      + intros x y Hxy. apply Qle_bool_iff, Hxy.
      + apply sort_sorted, toplam_yakit_azalan_total. }
  apply Forall_forall. intros t Ht. apply (Permutation_in _ P) in Ht.
  apply in_map_iff in Ht as [[p v] [<- Hpv]].
  unfold satir, Analiz.tahmin_satiri.
  cbn [fst snd Analiz.t_plaka Analiz.t_toplam_yakit Analiz.t_tahmini_ortalama
         Analiz.t_gercek_ortalama Analiz.t_gercek_km Analiz.t_aktif].
  destruct (Hd p) as (Hnd & Hget & Hkey).
  rewrite (dict_get0_in p v d Hnd Hpv) in Hget.
  split.
  { apply py_sum_pos.
    - destruct (Hkey (in_map fst _ _ Hpv)) as [[]|H].
      intro Hm. apply map_eq_nil in Hm. contradiction.
    - apply Forall_forall. intros x Hx. apply in_map_iff in Hx as [row [<- Hrow]].
      apply filter_In in Hrow as [_ Hrow]. apply andb_true_iff in Hrow as [Hrow _].
      apply Qltb_true, Hrow. }
  split; [apply round_compat; rewrite Hget; ring|].
  split; [|split; reflexivity].
  destruct (Py.Qltb 0 (hesapla_gercek_km3 p b e)); [reflexivity|].
  symmetry. apply round_zero.
Qed.

(** ** The monthly distribution of [api_performans_hesapla] *)








(** ** The analyses by vehicle type *)

(** Does the list comprehension keep the row? *)
Lemma tarih_suz_spec (b e : option string) (rows : list Yakit) :
  let tut := fun row =>
               match y_islem_tarihi row with
               | Some d =>
                   (negb (Py.truthy b) || match b with Some b => String.leb b d | None => true end)
                   && (negb (Py.truthy e) || match e with Some e => String.leb d e | None => true end)
               | None => true
               end in
  ((exists row, In row rows /\ y_islem_tarihi row = None) ->
   exists m, TipAnalizi.tarih_suz b e rows = Error m)
  /\ ((forall row, In row rows -> y_islem_tarihi row <> None) ->
      TipAnalizi.tarih_suz b e rows = Success (filter tut rows)).
Proof.
  intro tut. induction rows as [|row rows [IH1 IH2]].
  - split; [intros [row [[] _]]|reflexivity].
  - split.
    + intros [r [[<-|Hr] Hnone]]; cbn [TipAnalizi.tarih_suz].
      * rewrite Hnone. destruct (Py.truthy b); eexists; reflexivity.
      * destruct (y_islem_tarihi row) as [d|];
          [|destruct (Py.truthy b); eexists; reflexivity].
        destruct (IH1 (ex_intro _ r (conj Hr Hnone))) as [m Hm].
        rewrite Hm. exists m. reflexivity.
    + intro Hall. cbn [TipAnalizi.tarih_suz filter]. unfold tut at 1.
      destruct (y_islem_tarihi row) as [d|] eqn:Ed;
        [|exfalso; apply (Hall row (or_introl eq_refl)); exact Ed].
      rewrite IH2; [reflexivity|]. intros r Hr. apply Hall. right. exact Hr.
Qed.

(** For one vehicle, the type analyses honour a date range with one
    endpoint as well as one with two: the fuel total and the number of
    fill-ups are those of the plate's rows within the dates that are
    given, and the consumption per 100 km is 0 unless the distance is
    positive.  With a date given, a row of the plate without a date makes
    the analysis fail. *)
Theorem arac_detayi_spec
  (hesapla_gercek_km3 : string -> option string -> option string -> Q)
  (db : Db) (b e : option string) (plaka : string) :
  let rows := Tablolar.get_yakit_by_plaka db plaka in
  let tut := fun row =>
               match y_islem_tarihi row with
               | Some d =>
                   (negb (Py.truthy b) || match b with Some b => String.leb b d | None => true end)
                   && (negb (Py.truthy e) || match e with Some e => String.leb d e | None => true end)
               | None => true
               end in
  let km := hesapla_gercek_km3 plaka b e in
  (Py.truthy b || Py.truthy e = true ->
   (exists row, In row rows /\ y_islem_tarihi row = None) ->
   exists m, TipAnalizi.arac_detayi hesapla_gercek_km3 db b e plaka = Error m)
  /\ (Py.truthy b || Py.truthy e = false
      \/ (forall row, In row rows -> y_islem_tarihi row <> None) ->
      exists d,
        TipAnalizi.arac_detayi hesapla_gercek_km3 db b e plaka = Success d
        /\ TipAnalizi.d_plaka d = plaka
        /\ TipAnalizi.d_toplam_yakit d
           = Py.sum (map (fun row => Py.float_or0 (y_yakit_miktari row)) (filter tut rows))
        /\ TipAnalizi.d_yakit_alimlari d = List.length (filter tut rows)
        /\ TipAnalizi.d_toplam_km d = km
        /\ (0 < km -> TipAnalizi.d_tuketim_100km d = TipAnalizi.d_toplam_yakit d / km * 100)
        /\ (km <= 0 -> TipAnalizi.d_tuketim_100km d = 0)).
Proof.
  intros rows tut km. unfold TipAnalizi.arac_detayi. fold rows. fold km.
  destruct (tarih_suz_spec b e rows) as [H1 H2]. fold tut in H2.
  split.
  - intros Hg Hnone. rewrite Hg. destruct (H1 Hnone) as [m Hm]. rewrite Hm.
    exists m. reflexivity.
  - intro H.
    assert (E : (if Py.truthy b || Py.truthy e
                 then TipAnalizi.tarih_suz b e rows else Success rows)
                = Success (filter tut rows)).
    { destruct (Py.truthy b || Py.truthy e) eqn:Hg.
      - destruct H as [H|H]; [discriminate H|]. apply H2, H.
      - f_equal. symmetry. apply forallb_filter_id. apply forallb_forall.
        intros row _. unfold tut. apply orb_false_iff in Hg as [Hb He].
        rewrite Hb, He. destruct (y_islem_tarihi row); reflexivity. }
    rewrite E. eexists. split; [reflexivity|].
    cbn [TipAnalizi.d_plaka TipAnalizi.d_toplam_yakit TipAnalizi.d_yakit_alimlari
           TipAnalizi.d_toplam_km TipAnalizi.d_tuketim_100km].
    repeat (split; [reflexivity|]). split; intro Hk.
    + apply Qltb_true in Hk. rewrite Hk. reflexivity.
    + apply Qltb_false in Hk. rewrite Hk. reflexivity.
Qed.

Lemma arac_detayi_spec_witness :
  exists d,
    TipAnalizi.arac_detayi Ornek.km3_ornek Ornek.db_dort_gun
      (Some "2024-01-03"%string) None "34ABC01" = Success d
    /\ TipAnalizi.d_yakit_alimlari d = 2%nat.
Proof.
  destruct (arac_detayi_spec Ornek.km3_ornek Ornek.db_dort_gun
              (Some "2024-01-03"%string) None "34ABC01") as [_ H].
  destruct H as [d (E & _ & _ & Hn & _)].
  - right. intros row Hrow. cbn in Hrow.
    destruct Hrow as [<-|[<-|[<-|[<-|[]]]]]; discriminate.
  - exists d. split; [exact E|]. rewrite Hn. reflexivity.
Defined.

Lemma arac_detayi_plaka
  (hesapla_gercek_km3 : string -> option string -> option string -> Q)
  (db : Db) (b e : option string) (plaka : string) (d : TipAnalizi.AracDetay) :
  TipAnalizi.arac_detayi hesapla_gercek_km3 db b e plaka = Success d ->
  TipAnalizi.d_plaka d = plaka.
Proof.
  unfold TipAnalizi.arac_detayi.
  destruct (if Py.truthy b || Py.truthy e
            then TipAnalizi.tarih_suz b e (Tablolar.get_yakit_by_plaka db plaka)
            else Success (Tablolar.get_yakit_by_plaka db plaka)) as [rows|m];
    intro H; [|discriminate H].
  injection H as <-. reflexivity.
Qed.

Lemma detaylari_topla_plates
  (hesapla_gercek_km3 : string -> option string -> option string -> Q)
  (db : Db) (b e pf : option string) (aktif_araclar : list string)
  (ds : list TipAnalizi.AracDetay) :
  TipAnalizi.detaylari_topla hesapla_gercek_km3 db b e pf aktif_araclar = Success ds ->
  map TipAnalizi.d_plaka ds
  = filter (fun plaka =>
              negb (Py.truthy pf
                    && negb (String.eqb plaka (match pf with Some p => p | None => "" end))))
      aktif_araclar.
Proof.
  revert ds. induction aktif_araclar as [|plaka rest IH]; intros ds H.
  - injection H as <-. reflexivity.
  - cbn [TipAnalizi.detaylari_topla filter] in H |- *.
    destruct (Py.truthy pf
              && negb (String.eqb plaka (match pf with Some p => p | None => "" end))).
    + cbn [negb]. apply IH, H.
    + cbn [negb].
      destruct (TipAnalizi.arac_detayi hesapla_gercek_km3 db b e plaka) as [d|m] eqn:Ed;
        [|discriminate H].
      destruct (TipAnalizi.detaylari_topla hesapla_gercek_km3 db b e pf rest) as [ds'|m];
        [|discriminate H].
      injection H as <-. cbn [map]. f_equal; [|apply IH; reflexivity].
      apply (arac_detayi_plaka _ _ _ _ _ _ Ed).
Qed.

Lemma detaylari_topla_no_dates
  (hesapla_gercek_km3 : string -> option string -> option string -> Q)
  (db : Db) (b e pf : option string) (aktif_araclar : list string) :
  Py.truthy b || Py.truthy e = false ->
  exists ds,
    TipAnalizi.detaylari_topla hesapla_gercek_km3 db b e pf aktif_araclar = Success ds.
Proof.
  intro Hg. induction aktif_araclar as [|plaka rest [ds IH]].
  - eexists. reflexivity.
  - cbn [TipAnalizi.detaylari_topla]. rewrite IH.
    destruct (Py.truthy pf && negb _); [exists ds; reflexivity|].
    unfold TipAnalizi.arac_detayi. rewrite Hg. eexists. reflexivity.
Qed.

(** The reports of [binek_arac_analizi] and [is_makinesi_analizi].  Without
    a date the analysis always succeeds.  A report has one detail row per
    active vehicle of the type, in the order of the vehicle list, or only
    the row of the requested plate; its summary counts these rows and adds
    up their fuel; the chart arguments are missing exactly when the type
    has no active vehicle, and the average per fill-up is 0 when there is
    no fill-up. *)
Theorem tip_analizi_spec
  (hesapla_gercek_km3 : string -> option string -> option string -> Q)
  (arac_tipi : string) (aktif_araclar : list string) (db : Db) (b e pf : option string) :
  (Py.truthy b || Py.truthy e = false ->
   exists r,
     TipAnalizi.tip_analizi hesapla_gercek_km3 arac_tipi aktif_araclar db b e pf = Success r)
  /\ forall r,
      TipAnalizi.tip_analizi hesapla_gercek_km3 arac_tipi aktif_araclar db b e pf = Success r ->
      TipAnalizi.ozet_arac_tipi r = arac_tipi
      /\ TipAnalizi.ozet_toplam_arac r = List.length (TipAnalizi.arac_detaylari r)
      /\ TipAnalizi.ozet_toplam_yakit r
         == Py.sum (map TipAnalizi.d_toplam_yakit (TipAnalizi.arac_detaylari r))
      /\ map TipAnalizi.d_plaka (TipAnalizi.arac_detaylari r)
         = filter (fun plaka =>
                     negb (Py.truthy pf
                           && negb (String.eqb plaka
                                      (match pf with Some p => p | None => "" end))))
             aktif_araclar
      /\ (TipAnalizi.grafik r = None <-> aktif_araclar = [])
      /\ forall g,
          TipAnalizi.grafik r = Some g ->
          TipAnalizi.plakalar_ g = map TipAnalizi.d_plaka (TipAnalizi.arac_detaylari r)
          /\ List.length (TipAnalizi.tahminler_ g) = List.length (TipAnalizi.arac_detaylari r)
          /\ (TipAnalizi.sefer g = 0%nat -> TipAnalizi.ortalama_tahmin g = 0).
Proof.
  split.
  - intro Hg. unfold TipAnalizi.tip_analizi.
    destruct aktif_araclar as [|p ps]; [eexists; reflexivity|].
    destruct (detaylari_topla_no_dates hesapla_gercek_km3 db b e pf (p :: ps) Hg) as [ds E].
    rewrite E. eexists. reflexivity.
  - intros r H. unfold TipAnalizi.tip_analizi in H.
    destruct aktif_araclar as [|p ps].
    + injection H as <-. cbn.
      split; [reflexivity|]. split; [reflexivity|]. split; [reflexivity|].
      split; [reflexivity|]. split; [tauto|]. intros g Hg. discriminate Hg.
    + destruct (TipAnalizi.detaylari_topla hesapla_gercek_km3 db b e pf (p :: ps))
        as [ds|m] eqn:E; [|discriminate H].
      injection H as <-.
      cbn [TipAnalizi.ozet_arac_tipi TipAnalizi.ozet_toplam_arac TipAnalizi.ozet_toplam_yakit
             TipAnalizi.arac_detaylari TipAnalizi.grafik].
      split; [reflexivity|]. split; [reflexivity|]. split; [reflexivity|].
      split; [apply (detaylari_topla_plates _ _ _ _ _ _ _ E)|].
      split; [split; discriminate|].
      intros g Hg. injection Hg as <-.
      cbn [TipAnalizi.plakalar_ TipAnalizi.tahminler_ TipAnalizi.sefer
             TipAnalizi.ortalama_tahmin].
      split; [reflexivity|]. split; [apply length_map|].
      intro Hs. rewrite Hs. reflexivity.
Qed.

Lemma tip_analizi_spec_witness :
  exists r,
    TipAnalizi.binek_arac_analizi Ornek.km3_ornek
      (mkDb (yakit Ornek.db_dort_gun) []
         (Some [mkArac "34ABC01" "BİZİM" "BİNEK ARAÇ" 1;
                mkArac "06XYZ99" "BİZİM" "BİNEK ARAÇ" 1]))
      None None (Some "34ABC01"%string) false = Success r
    /\ map TipAnalizi.d_plaka (TipAnalizi.arac_detaylari r) = ["34ABC01"%string]
    /\ TipAnalizi.ozet_toplam_arac r = 1%nat.
Proof.
  destruct (tip_analizi_spec Ornek.km3_ornek "Binek Araç" ["34ABC01"; "06XYZ99"]%string
              (mkDb (yakit Ornek.db_dort_gun) []
                 (Some [mkArac "34ABC01" "BİZİM" "BİNEK ARAÇ" 1;
                        mkArac "06XYZ99" "BİZİM" "BİNEK ARAÇ" 1]))
              None None (Some "34ABC01"%string)) as [H1 H2].
  destruct (H1 eq_refl) as [r E]. exists r. split; [exact E|].
  destruct (H2 r E) as (_ & Hn & _ & Hp & _).
  split; [rewrite Hp; reflexivity|].
  rewrite Hn, <- (length_map TipAnalizi.d_plaka), Hp. reflexivity.
Defined.

(** ** Uploads in batches *)

Lemma batches_chunks {R : Type} (bs : nat) (records : list R) :
  Yukleme.batches bs records
  = map (fun k => firstn bs (skipn (k * bs) records))
      (seq 0 ((List.length records + bs - 1) / bs)).
Proof.
  unfold Yukleme.batches, Yukleme.py_range, Yukleme.slice. rewrite map_map.
  apply map_ext. intro k. f_equal. lia.
Qed.

Lemma concat_chunks {R : Type} (bs m : nat) (l : list R) :
  (List.length l <= m * bs)%nat ->
  List.concat (map (fun k => firstn bs (skipn (k * bs) l)) (seq 0 m)) = l.
Proof.
  revert l. induction m as [|m IH]; intros l H.
  - simpl in H. destruct l; [reflexivity|simpl in H; lia].
  - cbn [seq map List.concat]. rewrite <- seq_shift, map_map.
    change (skipn (0 * bs) l) with l.
    assert (E : map (fun k => firstn bs (skipn (S k * bs) l)) (seq 0 m)
                = map (fun k => firstn bs (skipn (k * bs) (skipn bs l))) (seq 0 m)).
    { apply map_ext. intro k. rewrite skipn_skipn.
      replace (S k * bs)%nat with (k * bs + bs)%nat by lia. reflexivity. }
    rewrite E, IH; [apply firstn_skipn|].
    rewrite length_skipn. simpl in H. lia.
Qed.

Lemma range_covers (n bs : nat) : (0 < bs)%nat -> (n <= (n + bs - 1) / bs * bs)%nat.
Proof.
  intro H. pose proof (Nat.div_mod_eq (n + bs - 1) bs) as E.
  pose proof (Nat.mod_upper_bound (n + bs - 1) bs ltac:(lia)) as U. nia.
Qed.

Lemma range_tight (n bs k : nat) :
  (0 < bs)%nat -> (k < (n + bs - 1) / bs)%nat -> (k * bs < n)%nat.
Proof.
  intros H Hk. pose proof (Nat.div_mod_eq (n + bs - 1) bs) as E. nia.
Qed.

Lemma batches_concat {R : Type} (bs : nat) (records : list R) :
  (0 < bs)%nat -> List.concat (Yukleme.batches bs records) = records.
Proof.
  intro H. rewrite batches_chunks. apply concat_chunks, range_covers, H.
Qed.

Lemma batches_sizes {R : Type} (bs : nat) (records : list R) :
  (0 < bs)%nat ->
  Forall (fun batch => (0 < List.length batch <= bs)%nat) (Yukleme.batches bs records).
Proof.
  intro H. rewrite batches_chunks.
  apply Forall_forall. intros batch Hb. apply in_map_iff in Hb as [k [<- Hk]].
  apply in_seq in Hk as [_ Hk]. simpl in Hk.
  pose proof (range_tight _ _ _ H Hk) as Ht.
  rewrite length_firstn, length_skipn. lia.
Qed.

(** The batches of an upload, for a positive batch size (100 in
    [api_veri_yukle], 1000 in the upload script): put end to end they are
    the records, in order, none lost and none repeated; no batch is empty
    and none is longer than the batch size. *)
Theorem batches_partition {R : Type} (bs : nat) (records : list R) :
  (0 < bs)%nat ->
  List.concat (Yukleme.batches bs records) = records
  /\ Forall (fun batch => (0 < List.length batch <= bs)%nat) (Yukleme.batches bs records)
  /\ List.length (Yukleme.batches bs records) = ((List.length records + bs - 1) / bs)%nat.
Proof.
  intro H. split; [|split].
  - apply batches_concat, H.
  - apply batches_sizes, H.
  - rewrite batches_chunks, length_map, length_seq. reflexivity.
Qed.

Lemma batches_partition_witness :
  List.concat (Yukleme.batches 2 [1; 2; 3; 4; 5]%nat) = [1; 2; 3; 4; 5]%nat
  /\ Yukleme.batches 2 [1; 2; 3; 4; 5]%nat = [[1; 2]; [3; 4]; [5]]%nat.
Proof.
  split; [|reflexivity].
  apply (batches_partition 2 [1; 2; 3; 4; 5]%nat). lia.
Defined.

Lemma upload_fold {R : Type} (basarili : nat -> bool) (bl : list (list R)) (t k : nat) :
  let step := fun (st : nat * nat) (batch : list R) =>
                let '(total, k) := st in
                (if basarili k then (total + List.length batch)%nat else total, S k) in
  (t <= fst (fold_left step bl (t, k)) <= t + List.length (List.concat bl))%nat
  /\ ((forall i, (i < List.length bl)%nat -> basarili (k + i)%nat = true) ->
      fst (fold_left step bl (t, k)) = (t + List.length (List.concat bl))%nat)
  /\ (Forall (fun batch => (0 < List.length batch)%nat) bl ->
      fst (fold_left step bl (t, k)) = (t + List.length (List.concat bl))%nat ->
      forall i, (i < List.length bl)%nat -> basarili (k + i)%nat = true).
Proof.
  intro step. revert t k. induction bl as [|batch bl IH]; intros t k.
  - simpl. split; [lia|]. split; [intros _; lia|]. intros _ _ i Hi. lia.
  - cbn [fold_left List.concat]. rewrite length_app.
    assert (Es : step (t, k) batch
                 = (if basarili k then (t + List.length batch)%nat else t, S k))
      by reflexivity.
    rewrite Es.
    destruct (IH (if basarili k then (t + List.length batch)%nat else t) (S k))
      as (B & A & C).
    split; [destruct (basarili k); lia|]. split.
    + intro Hall. rewrite A.
      * pose proof (Hall 0%nat ltac:(simpl; lia)) as H0.
        rewrite Nat.add_0_r in H0. rewrite H0. lia.
      * intros i Hi. replace (S k + i)%nat with (k + S i)%nat by lia.
        apply Hall. simpl. lia.
    + intros Hne Heq i Hi. inversion Hne as [|? ? Hb Hne']; subst.
      destruct (basarili k) eqn:Ek; [|exfalso; lia].
      destruct i as [|i]; [rewrite Nat.add_0_r; exact Ek|].
      replace (k + S i)%nat with (S k + i)%nat by lia.
      apply (C Hne'); [lia|simpl in Hi; lia].
Qed.

(** [api_veri_yukle] rejects a request without a file or with an empty
    file name.  Otherwise it succeeds whatever the store answers, and
    [uploaded] never exceeds the number of records; it equals that number
    exactly when every batch was accepted. *)
Theorem api_veri_yukle_spec {R : Type} (basarili : nat -> bool)
  (filename : string) (records : list R) :
  Yukleme.api_veri_yukle basarili (@None (string * list R)) = Error "Dosya seçilmedi"
  /\ Yukleme.api_veri_yukle basarili (Some (""%string, records)) = Error "Dosya adı boş"
  /\ (filename <> ""%string ->
      exists uploaded,
        Yukleme.api_veri_yukle basarili (Some (filename, records)) = Success uploaded
        /\ (uploaded <= List.length records)%nat
        /\ (uploaded = List.length records
            <-> forall k, (k < List.length (Yukleme.batches 100 records))%nat ->
                          basarili k = true)).
Proof.
  split; [reflexivity|]. split; [reflexivity|]. intro Hne.
  unfold Yukleme.api_veri_yukle. apply String.eqb_neq in Hne. rewrite Hne.
  eexists. split; [reflexivity|].
  pose proof (batches_concat 100 records ltac:(lia)) as Hc.
  pose proof (batches_sizes 100 records ltac:(lia)) as Hf.
  destruct (upload_fold basarili (Yukleme.batches 100 records) 0 0) as (B & A & C).
  unfold Yukleme.total_uploaded. rewrite Hc in B, A, C. cbn [Nat.add] in B, A, C.
  split; [apply B|]. split.
  - intro H. apply C; [|exact H].
    eapply Forall_impl; [|exact Hf]. intros batch Hb. cbv beta in Hb |- *. apply Hb.
  - intro H. apply A, H.
Qed.

Lemma api_veri_yukle_spec_witness :
  exists uploaded,
    Yukleme.api_veri_yukle (fun _ => true) (Some ("yakit.xlsx"%string, [1; 2; 3]%nat))
    = Success uploaded
    /\ (uploaded <= 3)%nat.
Proof.
  destruct (api_veri_yukle_spec (fun _ => true) "yakit.xlsx" [1; 2; 3]%nat) as (_ & _ & H).
  destruct H as [uploaded (E & Hle & _)]; [discriminate|].
  exists uploaded. split; [exact E|exact Hle].
Defined.

(** ** Reports on plates without data *)

(** A report of [get_muhasebe_data] lists active cargo vehicles only; so a
    report requested for a plate that is not the plate of an active cargo
    vehicle is empty, with totals of 0, whatever records the plate has. *)
Theorem get_muhasebe_data_other_vehicle (db : Db) (vs : list Arac)
  (b e : option string) (p : string) :
  araclar db = Some vs ->
  p <> ""%string ->
  (forall a, In a vs -> a_plaka a = p -> aktif_kargo a = false) ->
  exists m,
    get_muhasebe_data db b e (Some p) = Success m
    /\ plaka_bazli m = []
    /\ toplam_gelir m == 0 /\ toplam_gider m == 0 /\ net_kar m == 0 /\ kar_marji m == 0.
Proof.
  intros Hvs Hne Hina.
  destruct (get_muhasebe_data_success db b e (Some p)) as [m Hm]; [rewrite Hvs; discriminate|].
  exists m. split; [exact Hm|].
  destruct (muhasebe_dict db vs b e (Some p) m Hvs Hm) as [d (_ & Hk & Hg & Hc & P)].
  assert (Hd : d = []).
  { destruct d as [|[q v] d]; [reflexivity|]. exfalso.
    destruct (Hk q v (or_introl eq_refl)) as [[a (Ha & Hap & Hak)] Hq].
    unfold plaka_kosulu, Py.truthy in Hq.
    apply String.eqb_neq in Hne. rewrite Hne in Hq. cbn in Hq.
    apply String.eqb_eq in Hq. rewrite Hq in Hap.
    rewrite (Hina a Ha Hap) in Hak. discriminate Hak. }
  subst d. apply Permutation_sym, Permutation_nil in P.
  assert (Eg : toplam_gelir m = 0) by exact Hg.
  assert (Ec : toplam_gider m = 0) by exact Hc.
  split; [exact P|].
  unfold get_muhasebe_data in Hm. rewrite Hvs in Hm. injection Hm as Hm.
  rewrite <- Hm in Eg, Ec |- *.
  cbn [toplam_gelir toplam_gider net_kar kar_marji] in Eg, Ec |- *.
  rewrite Eg, Ec. repeat split; reflexivity.
Qed.

Lemma get_muhasebe_data_other_vehicle_witness :
  exists m,
    get_muhasebe_data Ornek.db_adet None None (Some "06XYZ99"%string) = Success m
    /\ plaka_bazli m = [].
Proof.
  destruct (get_muhasebe_data_other_vehicle Ornek.db_adet _ None None "06XYZ99" eq_refl)
    as [m (E & Hp & _)].
  - discriminate.
  - intros a [<-|[]] H. discriminate H.
  - exists m. split; [exact E|exact Hp].
Defined.

(** For a plate without fuel rows and without weight rows,
    [get_arac_performans_analizi] succeeds with counts and amounts of 0. *)
Theorem performans_unknown_plate (db : Db) (plaka : string) (b e : option string) :
  (forall y, In y (yakit db) -> Sql.eq_text (y_plaka y) plaka = false) ->
  (forall g, In g (agirlik db) -> Sql.eq_text (ag_plaka g) plaka = false) ->
  exists r,
    get_arac_performans_analizi db plaka b e = Success r
    /\ p_sefer_sayisi r = 0%Z /\ p_yuklenme_sayisi r = 0%Z
    /\ p_toplam_yakit r == 0 /\ p_toplam_km r == 0 /\ p_toplam_maliyet r == 0
    /\ p_ort_yakit_sefer r == 0 /\ p_ort_birim_fiyat r == 0
    /\ p_toplam_tonaj r == 0 /\ p_ort_tonaj_yuklenme r == 0
    /\ p_yakit_km_orani r == 0 /\ p_km_basina_maliyet r == 0
    /\ p_ton_basina_yakit r == 0 /\ p_verimlilik_skoru r == 0.
Proof.
  intros Hy Hg. unfold get_arac_performans_analizi.
  assert (Ey : performans_yakit db plaka (tarih_params b e) = []).
  { apply filter_nil_iff. intros y Hin. rewrite (Hy y Hin). reflexivity. }
  assert (Eg : performans_agirlik db plaka (tarih_params b e) = []).
  { apply filter_nil_iff. intros g Hin. rewrite (Hg g Hin). reflexivity. }
  rewrite Ey, Eg. eexists. split; [reflexivity|].
  cbn. repeat split; reflexivity.
Qed.

Lemma performans_unknown_plate_witness :
  exists r,
    get_arac_performans_analizi Ornek.db_adet "06XYZ99" None None = Success r
    /\ p_sefer_sayisi r = 0%Z /\ p_toplam_km r == 0.
Proof.
  destruct (performans_unknown_plate Ornek.db_adet "06XYZ99" None None)
    as [r (E & Hs & _ & _ & Hk & _)].
  - intros y [<-|[]]. reflexivity.
  - intros g [<-|[<-|[]]]; reflexivity.
  - exists r. split; [exact E|]. split; [exact Hs|exact Hk].
Defined.
